(** * AnnotaPDF (src/js/app.js): annotation geometry, history and tab registry

    A shallow embedding of the highlight engine of [app.js]: the tab
    registry ([tabs], [activeTabId]), the per-tab highlight list with its
    undo and redo stacks, the pointer handlers that create and erase
    highlights, the re-projection of stored rectangles on zoom and on
    rotation, page navigation with its label, and the rectangles that
    redrawing and export paint over each page.

    JavaScript numbers are kept abstract behind the class [JsNum], which is
    instantiated twice: by the canonical rationals [Qc] (exact arithmetic)
    and by the binary64 floats of [PrimFloat] (the arithmetic a JavaScript
    engine runs).  Identifiers, page numbers, opacities and rotation angles
    are integers in the program and are modelled by [Z].  JavaScript arrays
    are lists in array order: [push] appends at the end, [pop] takes the
    last element, [shift] drops the first. *)

From Stdlib Require Import ZArith QArith Qcanon Qround Floats.PrimFloat
  Floats.SpecFloat Floats.FloatOps String Lia Lqa.
From stdpp Require Import base decidable option numbers list sorting.

(** ** Numbers *)

Class JsNum (N : Type) := {
  lit  : Q -> N;            (* a numeric literal *)
  nadd : N -> N -> N;       (* a + b *)
  nsub : N -> N -> N;       (* a - b *)
  nmul : N -> N -> N;       (* a * b *)
  ndiv : N -> N -> N;       (* a / b *)
  nltb : N -> N -> bool;    (* a < b *)
  nleb : N -> N -> bool;    (* a <= b, and b >= a *)
  nmin : N -> N -> N;       (* Math.min(a, b) *)
  nmax : N -> N -> N;       (* Math.max(a, b) *)
  nabs : N -> N             (* Math.abs(a) *)
}.

Declare Scope js_scope.
Delimit Scope js_scope with js.
Infix "+" := nadd : js_scope.
Infix "-" := nsub : js_scope.
Infix "*" := nmul : js_scope.
Infix "/" := ndiv : js_scope.
Infix "<?" := nltb : js_scope.
Infix "<=?" := nleb : js_scope.

(** Exact arithmetic: canonical rationals. *)
#[export] Instance Qc_JsNum : JsNum Qc := {|
  lit  := Q2Qc;
  nadd := Qcplus;
  nsub := Qcminus;
  nmul := Qcmult;
  ndiv := Qcdiv;
  nltb := fun a b => bool_decide (a < b)%Qc;
  nleb := fun a b => bool_decide (a <= b)%Qc;
  nmin := fun a b => if bool_decide (a <= b)%Qc then a else b;
  nmax := fun a b => if bool_decide (a <= b)%Qc then b else a;
  nabs := fun a => if bool_decide (0 <= a)%Qc then a else Qcopp a
|}.

(** IEEE 754 binary64, round to nearest even: the arithmetic of a JavaScript
    number.  A literal [n/d] is the correctly rounded quotient of its
    numerator and denominator, which is the literal itself for the dyadic
    constants of the program (5, 0.25, 1.5, 48). *)
Fixpoint float_of_pos (p : positive) : float :=
  match p with
  | xH => 1%float
  | xO p' => (2 * float_of_pos p')%float
  | xI p' => (2 * float_of_pos p' + 1)%float
  end.

Definition float_of_Z (z : Z) : float :=
  match z with
  | Z0 => 0%float
  | Zpos p => float_of_pos p
  | Zneg p => (- float_of_pos p)%float
  end.

Definition float_min (a b : float) : float :=
  if PrimFloat.is_nan a then a
  else if PrimFloat.is_nan b then b
  else if PrimFloat.ltb a b then a
  else if PrimFloat.ltb b a then b
  else if PrimFloat.get_sign a then a else b.

Definition float_max (a b : float) : float :=
  if PrimFloat.is_nan a then a
  else if PrimFloat.is_nan b then b
  else if PrimFloat.ltb a b then b
  else if PrimFloat.ltb b a then a
  else if PrimFloat.get_sign a then b else a.

#[export] Instance float_JsNum : JsNum float := {|
  lit  := fun q => (float_of_Z (Qnum q) / float_of_pos (Qden q))%float;
  nadd := PrimFloat.add;
  nsub := PrimFloat.sub;
  nmul := PrimFloat.mul;
  ndiv := PrimFloat.div;
  nltb := PrimFloat.ltb;
  nleb := PrimFloat.leb;
  nmin := float_min;
  nmax := float_max;
  nabs := PrimFloat.abs
|}.

(** ** Data model *)

Inductive TabType := pdf | image.
Inductive Dir := cw | ccw.
Inductive DrawMode := highlight | erase | pan.

(** One stored highlight: [{id, page, x, y, w, h, color, opacity}]. *)
Record Highlight (N : Type) := mkHighlight {
  hl_id      : Z;
  hl_page    : Z;
  hl_x       : N;
  hl_y       : N;
  hl_w       : N;
  hl_h       : N;
  hl_color   : string;
  hl_opacity : Z
}.
Arguments mkHighlight {N}.
Arguments hl_id {N}.
Arguments hl_page {N}.
Arguments hl_x {N}.
Arguments hl_y {N}.
Arguments hl_w {N}.
Arguments hl_h {N}.
Arguments hl_color {N}.
Arguments hl_opacity {N}.

(** [class TabState].  The handles [pdfDoc], [imgElement] and [imgSrc]
    belong to the page renderer and are left out. *)
Record TabState (N : Type) := mkTab {
  tab_id      : Z;
  tab_name    : string;
  tab_type    : TabType;
  currentPage : Z;
  totalPages  : Z;
  scale       : N;
  baseScale   : N;
  rotation    : Z;
  highlights  : list (Highlight N);
  history     : list (list (Highlight N));
  future      : list (list (Highlight N))
}.
Arguments mkTab {N}.
Arguments tab_id {N}.
Arguments tab_name {N}.
Arguments tab_type {N}.
Arguments currentPage {N}.
Arguments totalPages {N}.
Arguments scale {N}.
Arguments baseScale {N}.
Arguments rotation {N}.
Arguments highlights {N}.
Arguments history {N}.
Arguments future {N}.

(** The module-level variables of [app.js], with the pixel extents of
    [pdfCanvas] that [rotate] reads. *)
Record App (N : Type) := mkApp {
  tabs          : list (TabState N);
  activeTabId   : option Z;
  drawMode      : DrawMode;
  activeColor   : string;
  activeOpacity : Z;
  isDrawing     : bool;
  startX        : N;
  startY        : N;
  tabIdCounter  : Z;
  canvasWidth   : N;
  canvasHeight  : N
}.
Arguments mkApp {N}.
Arguments tabs {N}.
Arguments activeTabId {N}.
Arguments drawMode {N}.
Arguments activeColor {N}.
Arguments activeOpacity {N}.
Arguments isDrawing {N}.
Arguments startX {N}.
Arguments startY {N}.
Arguments tabIdCounter {N}.
Arguments canvasWidth {N}.
Arguments canvasHeight {N}.

(** What a pointer handler reads from the browser: the client position of
    the event and [pdfCanvas.getBoundingClientRect()]. *)
Record PointerEvent (N : Type) := mkPointer {
  clientX    : N;
  clientY    : N;
  rect_left  : N;
  rect_top   : N;
  rect_width : N
}.
Arguments mkPointer {N}.
Arguments clientX {N}.
Arguments clientY {N}.
Arguments rect_left {N}.
Arguments rect_top {N}.
Arguments rect_width {N}.

Definition MAX_HISTORY_STEPS : nat := 50.

(** [JSON.parse(JSON.stringify(v))] on an array of flat objects whose fields
    are finite numbers and strings builds a structurally equal array that
    shares nothing with [v] (a finite binary64 number is printed and read
    back unchanged, the sign of a zero aside); on values it is the
    identity.  The handlers never keep a reference to an array they have
    snapshotted or to a snapshot they have not popped, so no two lists of
    the model alias. *)
Definition deep_clone {A : Type} (v : A) : A := v.

(** [Array.prototype.pop] on a non-empty array. *)
Definition pop {A : Type} (l : list A) : option (A * list A) :=
  match last l with
  | Some v => Some (v, removelast l)
  | None => None
  end.

(** ** Operations *)

Section Engine.
Context {N : Type} `{JsNum N}.
Local Open Scope js_scope.

Definition PDF_RENDER_SCALE : N := lit (3 # 2).
Definition MIN_HIGHLIGHT_PX : N := lit 5.

(** Field assignments [tab.f = v] and assignments to the globals. *)
Definition set_currentPage (v : Z) (t : TabState N) : TabState N :=
  mkTab (tab_id t) (tab_name t) (tab_type t) v (totalPages t) (scale t)
        (baseScale t) (rotation t) (highlights t) (history t) (future t).
Definition set_totalPages (v : Z) (t : TabState N) : TabState N :=
  mkTab (tab_id t) (tab_name t) (tab_type t) (currentPage t) v (scale t)
        (baseScale t) (rotation t) (highlights t) (history t) (future t).
Definition set_scale (v : N) (t : TabState N) : TabState N :=
  mkTab (tab_id t) (tab_name t) (tab_type t) (currentPage t) (totalPages t) v
        (baseScale t) (rotation t) (highlights t) (history t) (future t).
Definition set_baseScale (v : N) (t : TabState N) : TabState N :=
  mkTab (tab_id t) (tab_name t) (tab_type t) (currentPage t) (totalPages t)
        (scale t) v (rotation t) (highlights t) (history t) (future t).
Definition set_rotation (v : Z) (t : TabState N) : TabState N :=
  mkTab (tab_id t) (tab_name t) (tab_type t) (currentPage t) (totalPages t)
        (scale t) (baseScale t) v (highlights t) (history t) (future t).
Definition set_highlights (v : list (Highlight N)) (t : TabState N)
  : TabState N :=
  mkTab (tab_id t) (tab_name t) (tab_type t) (currentPage t) (totalPages t)
        (scale t) (baseScale t) (rotation t) v (history t) (future t).
Definition set_history (v : list (list (Highlight N))) (t : TabState N)
  : TabState N :=
  mkTab (tab_id t) (tab_name t) (tab_type t) (currentPage t) (totalPages t)
        (scale t) (baseScale t) (rotation t) (highlights t) v (future t).
Definition set_future (v : list (list (Highlight N))) (t : TabState N)
  : TabState N :=
  mkTab (tab_id t) (tab_name t) (tab_type t) (currentPage t) (totalPages t)
        (scale t) (baseScale t) (rotation t) (highlights t) (history t) v.

Definition set_tabs (v : list (TabState N)) (a : App N) : App N :=
  mkApp v (activeTabId a) (drawMode a) (activeColor a) (activeOpacity a)
        (isDrawing a) (startX a) (startY a) (tabIdCounter a)
        (canvasWidth a) (canvasHeight a).
Definition set_activeTabId (v : option Z) (a : App N) : App N :=
  mkApp (tabs a) v (drawMode a) (activeColor a) (activeOpacity a)
        (isDrawing a) (startX a) (startY a) (tabIdCounter a)
        (canvasWidth a) (canvasHeight a).
Definition set_drawMode (v : DrawMode) (a : App N) : App N :=
  mkApp (tabs a) (activeTabId a) v (activeColor a) (activeOpacity a)
        (isDrawing a) (startX a) (startY a) (tabIdCounter a)
        (canvasWidth a) (canvasHeight a).
Definition set_activeColor (v : string) (a : App N) : App N :=
  mkApp (tabs a) (activeTabId a) (drawMode a) v (activeOpacity a)
        (isDrawing a) (startX a) (startY a) (tabIdCounter a)
        (canvasWidth a) (canvasHeight a).
Definition set_activeOpacity (v : Z) (a : App N) : App N :=
  mkApp (tabs a) (activeTabId a) (drawMode a) (activeColor a) v
        (isDrawing a) (startX a) (startY a) (tabIdCounter a)
        (canvasWidth a) (canvasHeight a).
Definition set_isDrawing (v : bool) (a : App N) : App N :=
  mkApp (tabs a) (activeTabId a) (drawMode a) (activeColor a)
        (activeOpacity a) v (startX a) (startY a) (tabIdCounter a)
        (canvasWidth a) (canvasHeight a).
Definition set_start (vx vy : N) (a : App N) : App N :=
  mkApp (tabs a) (activeTabId a) (drawMode a) (activeColor a)
        (activeOpacity a) (isDrawing a) vx vy (tabIdCounter a)
        (canvasWidth a) (canvasHeight a).
Definition set_tabIdCounter (v : Z) (a : App N) : App N :=
  mkApp (tabs a) (activeTabId a) (drawMode a) (activeColor a)
        (activeOpacity a) (isDrawing a) (startX a) (startY a) v
        (canvasWidth a) (canvasHeight a).

(** [setCanvasSize(w, h)], called by the page renderer. *)
Definition setCanvasSize (vw vh : N) (a : App N) : App N :=
  mkApp (tabs a) (activeTabId a) (drawMode a) (activeColor a)
        (activeOpacity a) (isDrawing a) (startX a) (startY a)
        (tabIdCounter a) vw vh.

(** [new TabState(id, name, type)]. *)
Definition new_TabState (id : Z) (name : string) (type : TabType)
  : TabState N :=
  mkTab id name type 1 1 PDF_RENDER_SCALE PDF_RENDER_SCALE 0 [] [] [].

(** The state when the script has loaded; 300 by 150 is the size of an HTML
    canvas that has not been sized yet. *)
Definition init_app : App N :=
  mkApp [] None highlight "yellow" 100 false (lit 0) (lit 0) 0
        (lit 300) (lit 150).

(** *** Tab registry *)

(** [tabs.findIndex(t => t.id === id)], with the tab found. *)
Definition findIndex (id : Z) (ts : list (TabState N))
  : option (nat * TabState N) :=
  list_find (fun t => tab_id t = id) ts.

(** [getTab()], with the position of the tab in [tabs]. *)
Definition getTabAt (a : App N) : option (nat * TabState N) :=
  match activeTabId a with
  | None => None
  | Some id => findIndex id (tabs a)
  end.

Definition getTab (a : App N) : option (TabState N) := snd <$> getTabAt a.

(** [const tab = getTab(); if (!tab) return; ...]: the body mutates the
    tab object that [tabs] holds. *)
Definition with_tab (body : TabState N -> TabState N) (a : App N) : App N :=
  match getTabAt a with
  | None => a
  | Some (i, tab) => set_tabs (<[i := body tab]> (tabs a)) a
  end.

(** [createTab(name, type)]: the new application state and the new id. *)
Definition createTab (name : string) (type : TabType) (a : App N)
  : App N * Z :=
  let id := (tabIdCounter a + 1)%Z in
  let a1 := set_tabIdCounter id a in
  (set_tabs (tabs a1 ++ [new_TabState id name type]) a1, id).

(** *** Geometry *)

(** [getCanvasScaleRatio()] and [clientToCanvas(clientX, clientY)]. *)
Definition getCanvasScaleRatio (a : App N) (e : PointerEvent N) : N :=
  canvasWidth a / rect_width e.

Definition clientToCanvas (a : App N) (e : PointerEvent N) : N * N :=
  let ratio := getCanvasScaleRatio a e in
  ((clientX e - rect_left e) * ratio, (clientY e - rect_top e) * ratio).

(** The callback of [tab.highlights.map] in [setScale]. *)
Definition rescale (ratio : N) (h : Highlight N) : Highlight N :=
  mkHighlight (hl_id h) (hl_page h)
              (hl_x h * ratio) (hl_y h * ratio) (hl_w h * ratio)
              (hl_h h * ratio) (hl_color h) (hl_opacity h).

(** The callback of [tab.highlights.map] in [rotate]. *)
Definition rotate90 (dir : Dir) (oldW oldH : N) (h : Highlight N)
  : Highlight N :=
  match dir with
  | cw =>
      mkHighlight (hl_id h) (hl_page h)
                  (oldH - hl_y h - hl_h h) (hl_x h) (hl_h h) (hl_w h)
                  (hl_color h) (hl_opacity h)
  | ccw =>
      mkHighlight (hl_id h) (hl_page h)
                  (hl_y h) (oldW - hl_x h - hl_w h) (hl_h h) (hl_w h)
                  (hl_color h) (hl_opacity h)
  end.

(** The test of [eraseAt]:
    [cx >= h.x && cx <= h.x + h.w && cy >= h.y && cy <= h.y + h.h]. *)
Definition contains (cx cy : N) (h : Highlight N) : bool :=
  (hl_x h <=? cx) && (cx <=? hl_x h + hl_w h) &&
  (hl_y h <=? cy) && (cy <=? hl_y h + hl_h h).

(** *** Undo and redo *)

(** In the handlers below, a function named [f_tab] is the part of handler
    [f] that runs on the tab object once [getTab()] has returned it; a
    [return] that leaves the object untouched gives the object back. *)

Definition pushHistory (tab : TabState N) : TabState N :=
  let pushed := history tab ++ [deep_clone (highlights tab)] in
  let tab1 := set_future [] (set_history pushed tab) in
  if (MAX_HISTORY_STEPS <? length (history tab1))%nat
  then set_history (tail (history tab1)) tab1
  else tab1.

Definition undo_tab (tab : TabState N) : TabState N :=
  match pop (history tab) with
  | None => tab
  | Some (snapshot, rest) =>
      let tab1 :=
        set_future (future tab ++ [deep_clone (highlights tab)]) tab in
      set_highlights snapshot (set_history rest tab1)
  end.

Definition undo (a : App N) : App N := with_tab undo_tab a.

Definition redo_tab (tab : TabState N) : TabState N :=
  match pop (future tab) with
  | None => tab
  | Some (snapshot, rest) =>
      let tab1 :=
        set_history (history tab ++ [deep_clone (highlights tab)]) tab in
      set_highlights snapshot (set_future rest tab1)
  end.

Definition redo (a : App N) : App N := with_tab redo_tab a.

(** *** Zoom and rotation *)

(** [setScale(newScale, rerender)]; the re-rendering belongs to the page
    renderer, which reports the new canvas size through [setCanvasSize]. *)
Definition setScale_tab (newScale : N) (tab : TabState N) : TabState N :=
  let ratio := newScale / scale tab in
  set_scale newScale
    (set_highlights (map (rescale ratio) (highlights tab)) tab).

Definition setScale (newScale : N) (a : App N) : App N :=
  with_tab (setScale_tab newScale) a.

(** The click handlers of [zoom-in] and [zoom-out]. *)
Definition zoomIn (a : App N) : App N :=
  match getTab a with
  | None => a
  | Some tab => setScale (nmin (scale tab + lit (1 # 4)) (lit 5)) a
  end.

Definition zoomOut (a : App N) : App N :=
  match getTab a with
  | None => a
  | Some tab => setScale (nmax (scale tab - lit (1 # 4)) (lit (1 # 4))) a
  end.

(** The click handler of [zoom-fit]: [clientWidth] is
    [canvasArea.clientWidth] and [naturalW] the width of the page at scale 1
    in the current rotation, both read from the browser. *)
Definition zoomFit (clientWidth naturalW : N) (a : App N) : App N :=
  let areaW := clientWidth - lit 48 in
  let fit := areaW / naturalW in
  setScale fit (with_tab (set_baseScale fit) a).

(** [rotate(dir)], up to the re-rendering. *)
Definition rotate_tab (dir : Dir) (oldW oldH : N) (tab : TabState N)
  : TabState N :=
  let tab1 :=
    set_rotation
      (Z.rem (rotation tab + (match dir with cw => 90 | ccw => -90 end) + 360)
             360) tab in
  set_highlights (map (rotate90 dir oldW oldH) (highlights tab1)) tab1.

Definition rotate (dir : Dir) (a : App N) : App N :=
  let oldW := canvasWidth a in
  let oldH := canvasHeight a in
  with_tab (rotate_tab dir oldW oldH) a.

(** *** Creating and removing highlights *)

Definition onPointerDown (e : PointerEvent N) (a : App N) : App N :=
  match activeTabId a with
  | None => a
  | Some id =>
      if (id =? 0)%Z then a
      else
        let pos := clientToCanvas a e in
        set_isDrawing true (set_start (fst pos) (snd pos) a)
  end.

(** [onPointerUp(e)] from the size test on; [now] is the value of
    [Date.now()]. *)
Definition onPointerUp_tab (now : Z) (x y w h : N) (color : string)
    (opacity : Z) (tab : TabState N) : TabState N :=
  if (w <? MIN_HIGHLIGHT_PX) || (h <? MIN_HIGHLIGHT_PX) then tab
  else
    let tab1 := pushHistory tab in
    set_highlights
      (highlights tab1 ++
         [mkHighlight now (currentPage tab1) x y w h color opacity])
      tab1.

Definition onPointerUp (e : PointerEvent N) (now : Z) (a : App N) : App N :=
  if negb (isDrawing a) then a
  else
    let a1 := set_isDrawing false a in
    match drawMode a1 with
    | pan | erase => a1
    | highlight =>
        let pos := clientToCanvas a1 e in
        let x := nmin (startX a1) (fst pos) in
        let y := nmin (startY a1) (snd pos) in
        let w := nabs (fst pos - startX a1) in
        let h := nabs (snd pos - startY a1) in
        with_tab
          (onPointerUp_tab now x y w h (activeColor a1) (activeOpacity a1)) a1
    end.

(** [eraseAt(cx, cy)]. *)
Definition eraseAt_tab (cx cy : N) (tab : TabState N) : TabState N :=
  set_highlights
    (List.filter
       (fun h =>
          if negb (hl_page h =? currentPage tab)%Z then true
          else negb (contains cx cy h))
       (highlights tab))
    tab.

Definition eraseAt (cx cy : N) (a : App N) : App N :=
  with_tab (eraseAt_tab cx cy) a.

Definition onPointerMove (e : PointerEvent N) (a : App N) : App N :=
  if negb (isDrawing a) then a
  else
    let pos := clientToCanvas a e in
    match drawMode a with
    | pan => a
    | highlight => a
    | erase => eraseAt (fst pos) (snd pos) a
    end.

(** The [mouseleave] listener of the canvas wrapper. *)
Definition onMouseLeave (a : App N) : App N :=
  if isDrawing a then set_isDrawing false a else a.

(** [deleteHighlight(id)]. *)
Definition deleteHighlight_tab (id : Z) (tab : TabState N) : TabState N :=
  let tab1 := pushHistory tab in
  set_highlights
    (List.filter (fun h => negb (hl_id h =? id)%Z) (highlights tab1)) tab1.

Definition deleteHighlight (id : Z) (a : App N) : App N :=
  with_tab (deleteHighlight_tab id) a.

(** The click handler of [clear-page-btn]. *)
Definition clearPage_tab (tab : TabState N) : TabState N :=
  let tab1 := pushHistory tab in
  set_highlights
    (List.filter (fun h => negb (hl_page h =? currentPage tab1)%Z)
                 (highlights tab1))
    tab1.

Definition clearPage (a : App N) : App N := with_tab clearPage_tab a.

(** *** Page navigation *)

(** The page-label prompt, for an input that [parseInt] reads as [n]. *)
Definition gotoPage_tab (n : Z) (tab : TabState N) : TabState N :=
  if (totalPages tab <=? 1)%Z then tab
  else if (n <? 1)%Z || (totalPages tab <? n)%Z then tab
  else set_currentPage n tab.

Definition gotoPage (n : Z) (a : App N) : App N := with_tab (gotoPage_tab n) a.

Definition prevPage_tab (tab : TabState N) : TabState N :=
  if (currentPage tab <=? 1)%Z then tab
  else set_currentPage (currentPage tab - 1)%Z tab.

Definition prevPage (a : App N) : App N := with_tab prevPage_tab a.

Definition nextPage_tab (tab : TabState N) : TabState N :=
  if (totalPages tab <=? currentPage tab)%Z then tab
  else set_currentPage (currentPage tab + 1)%Z tab.

Definition nextPage (a : App N) : App N := with_tab nextPage_tab a.

(** *** Opening, activating and closing tabs *)

(** [activateTab(id)].  When no tab has this id, [tab.scale] throws after
    [activeTabId] has been assigned. *)
Definition activateTab (id : Z) (a : App N) : App N :=
  let a1 := set_activeTabId (Some id) a in
  match getTab a1 with
  | None => a1
  | Some tab => setScale (scale tab) a1
  end.

(** [closeTab(id)]. *)
Definition closeTab (id : Z) (a : App N) : App N :=
  match findIndex id (tabs a) with
  | None => a
  | Some (idx, _) =>
      let a1 := set_tabs (delete idx (tabs a)) a in
      match length (tabs a1) with
      | O => set_activeTabId None a1
      | S _ =>
          match tabs a1 !! Nat.min idx (length (tabs a1) - 1) with
          | Some next => activateTab (tab_id next) a1
          | None => a1
          end
      end
  end.

(** The tail of [loadPdfFile] and [loadImageFile] once the source has been
    decoded: [createTab], the assignment of [totalPages] to the tab just
    pushed ([doc.numPages] for a PDF, 1 for an image), [activateTab]. *)
Definition openFile (name : string) (type : TabType) (pages : Z) (a : App N)
  : App N :=
  let '(a1, id) := createTab name type a in
  let total := match type with pdf => pages | image => 1%Z end in
  let a2 :=
    set_tabs (alter (set_totalPages total) (length (tabs a)) (tabs a1)) a1 in
  activateTab id a2.

(** *** Events *)

Inductive Event :=
| EvOpen (name : string) (type : TabType) (pages : Z)
| EvActivate (id : Z)
| EvClose (id : Z)
| EvPointerDown (e : PointerEvent N)
| EvPointerMove (e : PointerEvent N)
| EvPointerUp (e : PointerEvent N) (now : Z)
| EvMouseLeave
| EvDelete (id : Z)
| EvClearPage
| EvUndo
| EvRedo
| EvZoomIn
| EvZoomOut
| EvZoomFit (clientWidth naturalW : N)
| EvRotate (dir : Dir)
| EvGoto (n : Z)
| EvPrev
| EvNext
| EvMode (m : DrawMode)
| EvColor (c : string)
| EvOpacity (o : Z)
| EvRendered (vw vh : N).

Definition step (a : App N) (ev : Event) : App N :=
  match ev with
  | EvOpen name type pages => openFile name type pages a
  | EvActivate id => activateTab id a
  | EvClose id => closeTab id a
  | EvPointerDown e => onPointerDown e a
  | EvPointerMove e => onPointerMove e a
  | EvPointerUp e now => onPointerUp e now a
  | EvMouseLeave => onMouseLeave a
  | EvDelete id => deleteHighlight id a
  | EvClearPage => clearPage a
  | EvUndo => undo a
  | EvRedo => redo a
  | EvZoomIn => zoomIn a
  | EvZoomOut => zoomOut a
  | EvZoomFit clientWidth naturalW => zoomFit clientWidth naturalW a
  | EvRotate dir => rotate dir a
  | EvGoto n => gotoPage n a
  | EvPrev => prevPage a
  | EvNext => nextPage a
  | EvMode m => set_drawMode m a
  | EvColor c => set_activeColor c a
  | EvOpacity o => set_activeOpacity o a
  | EvRendered vw vh => setCanvasSize vw vh a
  end.

(** The state after a sequence of events, oldest first. *)
Definition run (evs : list Event) (a : App N) : App N :=
  fold_left step evs a.

(** *** Vocabulary of the properties *)

(** What [pushHistory] keeps of the old undo stack: all of it, or all but
    its oldest entry when it already holds [MAX_HISTORY_STEPS] entries. *)
Definition kept (tab : TabState N) : list (list (Highlight N)) :=
  if (MAX_HISTORY_STEPS <=? length (history tab))%nat
  then tail (history tab) else history tab.

(** Successive calls of [pushHistory], the highlight list being [s] at the
    call that records [s]. *)
Definition record_all (snaps : list (list (Highlight N))) (tab : TabState N)
  : TabState N :=
  fold_left (fun t s => pushHistory (set_highlights s t)) snaps tab.

(** The undo and redo stacks of a tab hold at most [MAX_HISTORY_STEPS]
    snapshots between them. *)
Definition stacks_bounded (tab : TabState N) : Prop :=
  (length (history tab) + length (future tab) <= MAX_HISTORY_STEPS)%nat.

(** The ids of a highlight list increase strictly along the list and stay
    below [b]; and so for the stored list and every snapshot of a tab. *)
Definition ids_below (b : Z) (hs : list (Highlight N)) : Prop :=
  StronglySorted Z.lt (hl_id <$> hs) /\ Forall (fun h => (hl_id h < b)%Z) hs.

Definition tab_ids_below (b : Z) (tab : TabState N) : Prop :=
  ids_below b (highlights tab) /\
  Forall (ids_below b) (history tab) /\
  Forall (ids_below b) (future tab).

(** The readings of [Date.now()] at the pointer-up events of a sequence. *)
Definition up_times (evs : list Event) : list Z :=
  omap (fun ev => match ev with EvPointerUp _ now => Some now | _ => None end)
       evs.

(** What one event may do to one tab object.  [EvOpen] and [EvZoomFit]
    assign twice to the same object. *)
Inductive tab_effect : Event -> TabState N -> TabState N -> Prop :=
| eff_open_pages name type pages v tab :
    tab_effect (EvOpen name type pages) tab (set_totalPages v tab)
| eff_open_scale name type pages tab :
    tab_effect (EvOpen name type pages) tab (setScale_tab (scale tab) tab)
| eff_activate id tab :
    tab_effect (EvActivate id) tab (setScale_tab (scale tab) tab)
| eff_close id tab :
    tab_effect (EvClose id) tab (setScale_tab (scale tab) tab)
| eff_move e cx cy tab :
    tab_effect (EvPointerMove e) tab (eraseAt_tab cx cy tab)
| eff_up e now x y w h color opacity tab :
    tab_effect (EvPointerUp e now) tab
               (onPointerUp_tab now x y w h color opacity tab)
| eff_delete id tab :
    tab_effect (EvDelete id) tab (deleteHighlight_tab id tab)
| eff_clear tab :
    tab_effect EvClearPage tab (clearPage_tab tab)
| eff_undo tab :
    tab_effect EvUndo tab (undo_tab tab)
| eff_redo tab :
    tab_effect EvRedo tab (redo_tab tab)
| eff_zoomIn tab :
    tab_effect EvZoomIn tab
               (setScale_tab (nmin (scale tab + lit (1 # 4)) (lit 5)) tab)
| eff_zoomOut tab :
    tab_effect EvZoomOut tab
               (setScale_tab (nmax (scale tab - lit (1 # 4)) (lit (1 # 4)))
                             tab)
| eff_fit_base clientWidth naturalW tab :
    tab_effect (EvZoomFit clientWidth naturalW) tab
               (set_baseScale ((clientWidth - lit 48) / naturalW) tab)
| eff_fit_scale clientWidth naturalW tab :
    tab_effect (EvZoomFit clientWidth naturalW) tab
               (setScale_tab ((clientWidth - lit 48) / naturalW) tab)
| eff_rotate dir oldW oldH tab :
    tab_effect (EvRotate dir) tab (rotate_tab dir oldW oldH tab)
| eff_goto n tab :
    tab_effect (EvGoto n) tab (gotoPage_tab n tab)
| eff_prev tab :
    tab_effect EvPrev tab (prevPage_tab tab)
| eff_next tab :
    tab_effect EvNext tab (nextPage_tab tab).

End Engine.

(** ** Sample sessions *)

Section Samples.
Context {N : Type} `{JsNum N}.

(** A pointer event over canvas position [(px, py)], on a canvas 100 pixels
    wide that is displayed at its pixel size with its corner at the origin of
    the client area. *)
Definition pointer_at (px py : Q) : PointerEvent N :=
  mkPointer (lit px) (lit py) (lit 0) (lit 0) (lit 100).

(** A PDF of three pages is opened and rendered on a canvas of 100 by 200
    pixels. *)
Definition opened : list (@Event N) :=
  [EvOpen "a.pdf" pdf 3; EvRendered (lit 100) (lit 200)].

(** A drag from [(x0, y0)] to [(x1, y1)] released at clock reading [now]. *)
Definition drag (x0 y0 x1 y1 : Q) (now : Z) : list (@Event N) :=
  [EvPointerDown (pointer_at x0 y0); EvPointerUp (pointer_at x1 y1) now].

(** The highlight lists of all tabs, in tab order, and their ids. *)
Definition all_highlights (a : App N) : list (list (Highlight N)) :=
  highlights <$> tabs a.

Definition stored_ids (a : App N) : list (list Z) :=
  map hl_id <$> all_highlights a.

(** [n] snapshots, the [i]-th holding one highlight of id [i]. *)
Definition numbered (n : nat) : list (list (Highlight N)) :=
  (fun i => [mkHighlight (Z.of_nat i) 1 (lit 0) (lit 0) (lit 9) (lit 9)
                         "yellow" 100])
    <$> seq 0 n.

End Samples.

(** ** Positive rectangles, over exact arithmetic *)

Definition positive_rect (h : Highlight Qc) : Prop :=
  (0 < hl_w h)%Qc /\ (0 < hl_h h)%Qc.

(** A tab displayed at a positive scale, all of whose rectangles, stored or
    held in a snapshot, have positive width and height. *)
Definition positive_tab (tab : TabState Qc) : Prop :=
  (0 < scale tab)%Qc /\
  Forall positive_rect (highlights tab) /\
  Forall (Forall positive_rect) (history tab) /\
  Forall (Forall positive_rect) (future tab).

(** The scale that [zoom-fit] computes from the browser's measurements is
    positive. *)
Definition positive_fit (ev : @Event Qc) : Prop :=
  match ev with
  | EvZoomFit clientWidth naturalW =>
      (0 < ndiv (nsub clientWidth (lit 48)) naturalW)%Qc
  | _ => True
  end.

(** ** Canvas extents *)

(** The [width] and [height] of a canvas element are integer attributes
    (WebIDL [unsigned long]).  The assignment [c.width = w] converts the
    number [w]: NaN and the infinities give 0; any other number loses its
    fraction (towards zero) and is reduced modulo 2^32.  [toUint32] is this
    conversion. *)
Class JsCanvas (N : Type) := {
  toUint32 : N -> Z
}.

#[export] Instance Qc_JsCanvas : JsCanvas Qc := {|
  toUint32 := fun q : Qc =>
    (Z.quot (Qnum (this q)) (Zpos (Qden (this q))) mod 4294967296)%Z
|}.

(** A finite binary64 number is [(-1)^s * m * 2^e]. *)
Definition float_toUint32 (x : float) : Z :=
  match Prim2SF x with
  | S754_finite s m e =>
      let mag := if (0 <=? e)%Z then Z.shiftl (Zpos m) e
                 else Z.shiftr (Zpos m) (- e) in
      ((if s then - mag else mag) mod 4294967296)%Z
  | _ => 0%Z
  end.

#[export] Instance float_JsCanvas : JsCanvas float := {|
  toUint32 := float_toUint32
|}.

(** ** Rendering, labels and export *)

Section Views.
Context {N : Type} `{JsNum N} `{JsCanvas N}.
Local Open Scope js_scope.

Definition SAVE_RENDER_SCALE : N := lit 3.

(** What a canvas holds after [c.width = v] (with [default] 300) or
    [c.height = v] (with [default] 150): the converted number, or the
    default of the attribute when the converted number exceeds
    2147483647. *)
Definition canvasExtent (default : Z) (v : N) : N :=
  let n := toUint32 v in
  lit (inject_Z (if (2147483647 <? n)%Z then default else n)).

(** [renderImagePage(tab)] up to the drawing, for an image of natural size
    [sw] by [sh]: [setCanvasSize(cw, ch)] assigns the extents at the tab's
    scale and rotation to the integer attributes of the canvas, and the
    canvas holds the values converted by the assignments. *)
Definition renderImagePage (sw sh : N) (tab : TabState N) (a : App N)
  : App N :=
  let sc := scale tab in
  let rot := rotation tab in
  let quarter := (rot =? 90)%Z || (rot =? 270)%Z in
  let cw := if quarter then sh * sc else sw * sc in
  let ch := if quarter then sw * sc else sh * sc in
  setCanvasSize (canvasExtent 300 cw) (canvasExtent 150 ch) a.

(** [renderPage()] when the active tab shows an image; a PDF page is sized
    by the viewport of the PDF library. *)
Definition renderPage_image (sw sh : N) (a : App N) : App N :=
  match getTab a with
  | None => a
  | Some tab => renderImagePage sw sh tab a
  end.

(** [updatePageLabel()]: the two numbers of the label and the [disabled]
    flags of the [prev-page] and [next-page] buttons; [None] stands for the
    label without numbers, which leaves the buttons as they are. *)
Definition updatePageLabel (a : App N) : option (Z * Z * bool * bool) :=
  match getTab a with
  | None => None
  | Some tab =>
      Some (currentPage tab, totalPages tab,
            (currentPage tab <=? 1)%Z,
            (totalPages tab <=? currentPage tab)%Z)
  end.

(** One [fillRect] call: the keys from which the fill style is built
    ([COLOR_MAP[h.color]] and [h.opacity / 100]) and the rectangle. *)
Record FillRect := mkFill {
  fill_color   : string;
  fill_opacity : Z;
  fill_x       : N;
  fill_y       : N;
  fill_w       : N;
  fill_h       : N
}.

(** [redrawHighlights()] and [saveImageFile(tab)]: the rectangles painted
    over the current page, in painting order. *)
Definition redrawHighlights (tab : TabState N) : list FillRect :=
  map (fun h => mkFill (hl_color h) (hl_opacity h)
                       (hl_x h) (hl_y h) (hl_w h) (hl_h h))
      (List.filter (fun h => (hl_page h =? currentPage tab)%Z)
                   (highlights tab)).

(** The callback of [forEach] in the page loop of [savePdfFile(tab)]: the
    [fillRect] call that bakes one highlight. *)
Definition bakeRect (ratio : N) (h : Highlight N) : FillRect :=
  mkFill (hl_color h) (hl_opacity h)
         (hl_x h * ratio) (hl_y h * ratio) (hl_w h * ratio) (hl_h h * ratio).

(** The body of the page loop of [savePdfFile(tab)]: the rectangles baked
    into page [pageNum], which is rendered at [SAVE_RENDER_SCALE]. *)
Definition bakeHighlights (tab : TabState N) (pageNum : Z) : list FillRect :=
  let ratio := SAVE_RENDER_SCALE / scale tab in
  map (bakeRect ratio)
      (List.filter (fun h => (hl_page h =? pageNum)%Z) (highlights tab)).

(** [savePdfFile(tab)]: the pages composed, from 1 to [totalPages], each
    with its rectangles. *)
Definition savePdfFile (tab : TabState N) : list (Z * list FillRect) :=
  (fun pageNum => (pageNum, bakeHighlights tab pageNum))
    <$> seqZ 1 (totalPages tab).

(** [rotate(dir)] with its re-rendering, for a page whose rendered extents
    are exchanged by a quarter turn. *)
Definition quarterTurn (dir : Dir) (a : App N) : App N :=
  setCanvasSize (canvasHeight a) (canvasWidth a) (rotate dir a).

(** *** Vocabulary of the further properties *)

(** The tab shows one of its pages, and every rectangle it stores or holds
    in a snapshot lies on one of its pages. *)
Definition pages_in_range (tab : TabState N) : Prop :=
  let on_a_page (hs : list (Highlight N)) :=
    Forall (fun h => (1 <= hl_page h <= totalPages tab)%Z) hs in
  (1 <= currentPage tab <= totalPages tab)%Z /\
  on_a_page (highlights tab) /\
  Forall on_a_page (history tab) /\
  Forall on_a_page (future tab).

(** A document that is opened has at least one page. *)
Definition opens_a_page (ev : @Event N) : Prop :=
  match ev with
  | EvOpen _ _ pages => (1 <= pages)%Z
  | _ => True
  end.

(** The events that open, activate or close a tab; every other event is
    handled on the active tab or on the state of the toolbar and pointer. *)
Definition changes_registry (ev : @Event N) : bool :=
  match ev with
  | EvOpen _ _ _ | EvActivate _ | EvClose _ => true
  | _ => false
  end.

(** From [a] to [a'] the registry is the same but for the contents of the
    active tab: same ids in the same order, same counter, same active id,
    and every tab that is not the active one is as it was. *)
Definition same_registry (a a' : App N) : Prop :=
  tab_id <$> tabs a' = tab_id <$> tabs a /\
  tabIdCounter a' = tabIdCounter a /\
  activeTabId a' = activeTabId a /\
  forall i t, tabs a !! i = Some t -> Some (tab_id t) <> activeTabId a ->
              tabs a' !! i = Some t.

(** The rotation of a tab is a quarter turn count in degrees. *)
Definition quarter_turn (tab : TabState N) : Prop :=
  rotation tab = 0%Z \/ rotation tab = 90%Z \/
  rotation tab = 180%Z \/ rotation tab = 270%Z.

(** The sequence of highlight lists along which [undo] and [redo] move:
    the undo stack, the current list, the redo stack from its top. *)
Definition timeline (tab : TabState N) : list (list (Highlight N)) :=
  history tab ++ [highlights tab] ++ reverse (future tab).

(** The counter is not negative; the ids of the registry are positive,
    increase along [tabs] (so they are distinct) and do not exceed the
    counter. *)
Definition registry_ok (a : App N) : Prop :=
  (0 <= tabIdCounter a)%Z /\
  StronglySorted Z.lt (tab_id <$> tabs a) /\
  Forall (fun t => (0 < tab_id t <= tabIdCounter a)%Z) (tabs a).

End Views.

(** The percentage of [zoomLabel] and of the info panel,
    [Math.round(scale / baseScale * 100)], over exact arithmetic. *)
Definition zoomPercent (tab : TabState Qc) : Z :=
  Qfloor (Qcplus (Qcmult (Qcdiv (scale tab) (baseScale tab)) (Q2Qc 100))
                 (Q2Qc (1 # 2))).

(** A rectangle that lies on a canvas of extents [cw] by [ch]. *)
Definition on_canvas (cw ch : Qc) (h : Highlight Qc) : Prop :=
  (0 <= hl_x h /\ hl_x h + hl_w h <= cw /\
   0 <= hl_y h /\ hl_y h + hl_h h <= ch)%Qc.

(** ** Proof automation *)

(** Linear arithmetic on canonical rationals, through their fractions. *)
Ltac qc_lra :=
  unfold Qcle, Qclt in *; simpl in *;
  repeat match goal with
  | Hq : context [Qred _] |- _ => rewrite !Qred_correct in Hq
  end;
  rewrite ?Qred_correct; lra.

(** Projections of the records applied to their constructors. *)
Ltac tab_cbn :=
  cbn [tab_id tab_name tab_type currentPage totalPages scale baseScale
       rotation highlights history future tabs activeTabId drawMode
       activeColor activeOpacity isDrawing startX startY tabIdCounter
       canvasWidth canvasHeight hl_id hl_page hl_x hl_y hl_w hl_h hl_color
       hl_opacity] in *.

(** The four parts of [pages_in_range]. *)
Ltac pages_split := refine (conj _ (conj _ (conj _ _))).

(** * Properties *)

(** ** Arrays *)

Section Arrays.
Context {A : Type}.

Lemma pop_snoc (l : list A) (v : A) : pop (l ++ [v]) = Some (v, l).
Proof. unfold pop. by rewrite last_snoc, removelast_last. Qed.

Lemma pop_None (l : list A) : pop l = None <-> l = [].
Proof.
  unfold pop. destruct (last l) eqn:E.
  - split; [discriminate|]. intros ->. discriminate.
  - apply last_None in E. by subst.
Qed.

Lemma pop_Some (l rest : list A) (v : A) :
  pop l = Some (v, rest) <-> l = rest ++ [v].
Proof.
  split; [|intros ->; apply pop_snoc].
  destruct l as [|x l] using rev_ind; [done|].
  rewrite pop_snoc. by intros [= -> ->].
Qed.

Lemma filter_all (f : A -> bool) (l : list A) :
  (forall v, v ∈ l -> f v = true) -> List.filter f l = l.
Proof.
  induction l as [|v l IH]; intros Hf; [done|]. simpl.
  rewrite Hf by left. f_equal. apply IH. intros u Hu. apply Hf. by right.
Qed.

Lemma filter_sublist (f : A -> bool) (l : list A) :
  List.filter f l `sublist_of` l.
Proof.
  induction l as [|v l IH]; simpl; [constructor|].
  destruct (f v); by constructor.
Qed.

Lemma elem_of_filter (f : A -> bool) (l : list A) (v : A) :
  v ∈ List.filter f l <-> v ∈ l /\ f v = true.
Proof. rewrite !list_elem_of_In. apply filter_In. Qed.

Lemma Forall_filter (P : A -> Prop) (f : A -> bool) (l : list A) :
  Forall P l -> Forall P (List.filter f l).
Proof.
  rewrite !Forall_forall. intros HP v [Hv _]%elem_of_filter. by apply HP.
Qed.

Lemma sorted_lookup (l : list Z) i j x y :
  StronglySorted Z.lt l -> (i < j)%nat ->
  l !! i = Some x -> l !! j = Some y -> (x < y)%Z.
Proof.
  intros Hs. revert i j. induction Hs as [|v l Hs IH Hv]; intros i j Hij Hi Hj.
  - done.
  - destruct j as [|j]; [lia|]. destruct i as [|i]; simpl in *.
    + injection Hi as ->. rewrite Forall_forall in Hv. apply Hv.
      by eapply list_elem_of_lookup_2.
    + apply (IH i j); [lia|done..].
Qed.

Lemma delete_not_elem_of (l : list Z) idx id :
  NoDup l -> l !! idx = Some id -> id ∉ delete idx l.
Proof.
  intros Hnd Hl. rewrite delete_take_drop.
  rewrite <- (take_drop_middle l idx id Hl) in Hnd.
  apply NoDup_app in Hnd as (_ & Hl1 & Hnd).
  apply NoDup_cons in Hnd as [Hl2 _].
  rewrite elem_of_app. intros [Hin|Hin]; [|done].
  apply (Hl1 _ Hin). by left.
Qed.

End Arrays.

(** ** Records and the active tab *)

Section Registry.
Context {N : Type} `{JsNum N}.

Lemma tab_eta (t : TabState N) :
  mkTab (tab_id t) (tab_name t) (tab_type t) (currentPage t) (totalPages t)
        (scale t) (baseScale t) (rotation t) (highlights t) (history t)
        (future t) = t.
Proof. by destruct t. Qed.

Lemma app_eta (a : App N) :
  mkApp (tabs a) (activeTabId a) (drawMode a) (activeColor a)
        (activeOpacity a) (isDrawing a) (startX a) (startY a)
        (tabIdCounter a) (canvasWidth a) (canvasHeight a) = a.
Proof. by destruct a. Qed.

Lemma set_tabs_same (a : App N) : set_tabs (tabs a) a = a.
Proof. apply app_eta. Qed.

Lemma getTabAt_lookup (a : App N) i tab :
  getTabAt a = Some (i, tab) ->
  tabs a !! i = Some tab /\ activeTabId a = Some (tab_id tab).
Proof.
  unfold getTabAt, findIndex. destruct (activeTabId a) as [id|]; [|done].
  intros (Hl & Hid & _)%list_find_Some. by rewrite Hid.
Qed.

(** Mutating the active tab object leaves it the active tab, as long as its
    id is not reassigned. *)
Lemma getTabAt_insert (a : App N) i tab tab' :
  getTabAt a = Some (i, tab) ->
  tab_id tab' = tab_id tab ->
  getTabAt (set_tabs (<[i := tab']> (tabs a)) a) = Some (i, tab').
Proof.
  unfold getTabAt, findIndex. simpl.
  destruct (activeTabId a) as [id|]; [|done].
  intros (Hl & Hid & Hmin)%list_find_Some Hid'.
  apply list_find_Some. split_and!.
  - apply list_lookup_insert_eq. by eapply lookup_lt_Some.
  - congruence.
  - intros j y Hj Hlt. rewrite list_lookup_insert_ne in Hj by lia. eauto.
Qed.

Lemma getTab_with_tab (a : App N) body tab :
  getTab a = Some tab ->
  tab_id (body tab) = tab_id tab ->
  getTab (with_tab body a) = Some (body tab).
Proof.
  unfold getTab, with_tab. destruct (getTabAt a) as [[i t]|] eqn:Hg; [|done].
  simpl. intros [= ->] Hid. by rewrite (getTabAt_insert _ _ _ _ Hg Hid).
Qed.

(** Writing back the tab that is already stored changes nothing. *)
Lemma with_tab_id (a : App N) body :
  (forall tab, getTab a = Some tab -> body tab = tab) ->
  with_tab body a = a.
Proof.
  unfold getTab, with_tab. destruct (getTabAt a) as [[i t]|] eqn:Hg; [|done].
  intros Hb. rewrite Hb by done.
  apply getTabAt_lookup in Hg as [Hl _].
  rewrite list_insert_id by done. apply set_tabs_same.
Qed.

Lemma with_tab_with_tab (a : App N) f g :
  (forall tab, tab_id (f tab) = tab_id tab) ->
  with_tab g (with_tab f a) = with_tab (g ∘ f) a.
Proof.
  intros Hid. unfold with_tab at 2 3.
  destruct (getTabAt a) as [[i t]|] eqn:Hg.
  - unfold with_tab. rewrite (getTabAt_insert _ _ _ _ Hg (Hid t)). simpl.
    by rewrite list_insert_insert_eq.
  - unfold with_tab. by rewrite Hg.
Qed.

Lemma with_tab_setCanvasSize (vw vh : N) body (a : App N) :
  with_tab body (setCanvasSize vw vh a) = setCanvasSize vw vh (with_tab body a).
Proof.
  unfold with_tab, getTabAt. simpl.
  destruct (activeTabId a) as [id|]; [|done].
  by destruct (findIndex id (tabs a)) as [[i t]|].
Qed.

Lemma with_tab_keeps_highlights body (a : App N) :
  (forall tab, highlights (body tab) = highlights tab) ->
  highlights <$> tabs (with_tab body a) = highlights <$> tabs a.
Proof.
  intros Hb. unfold with_tab.
  destruct (getTabAt a) as [[i t]|] eqn:Hg; [|done]. simpl.
  apply getTabAt_lookup in Hg as [Hl _].
  rewrite list_fmap_insert, Hb. apply list_insert_id.
  by rewrite list_lookup_fmap, Hl.
Qed.

Lemma with_tab_ids body (a : App N) :
  (forall tab, tab_id (body tab) = tab_id tab) ->
  tab_id <$> tabs (with_tab body a) = tab_id <$> tabs a.
Proof.
  intros Hb. unfold with_tab.
  destruct (getTabAt a) as [[i t]|] eqn:Hg; [|done]. simpl.
  apply getTabAt_lookup in Hg as [Hl _].
  rewrite list_fmap_insert, Hb. apply list_insert_id.
  by rewrite list_lookup_fmap, Hl.
Qed.

Lemma with_tab_activeTabId body (a : App N) :
  activeTabId (with_tab body a) = activeTabId a.
Proof. unfold with_tab. by repeat case_match. Qed.

Lemma Forall_with_tab_mono (P P' : TabState N -> Prop) body (a : App N) :
  (forall tab, P tab -> P' tab) ->
  (forall tab, getTab a = Some tab -> P tab -> P' (body tab)) ->
  Forall P (tabs a) -> Forall P' (tabs (with_tab body a)).
Proof.
  intros Hmono Hb HP. unfold with_tab.
  destruct (getTabAt a) as [[i t]|] eqn:Hg;
    [|by eapply Forall_impl; [exact HP|]]. simpl.
  apply Forall_insert; [by eapply Forall_impl; [exact HP|]|].
  apply Hb; [unfold getTab; by rewrite Hg|].
  apply getTabAt_lookup in Hg as [Hl _]. by eapply Forall_lookup_1.
Qed.

(** *** Invariants of the tab list *)

Lemma getTab_elem_of (a : App N) tab : getTab a = Some tab -> tab ∈ tabs a.
Proof.
  unfold getTab. destruct (getTabAt a) as [[i t]|] eqn:Hg; [|done].
  intros [= <-]. apply getTabAt_lookup in Hg as [Hl _].
  by eapply list_elem_of_lookup_2.
Qed.

Lemma Forall_with_tab (P : TabState N -> Prop) body (a : App N) :
  (forall tab, getTab a = Some tab -> P tab -> P (body tab)) ->
  Forall P (tabs a) -> Forall P (tabs (with_tab body a)).
Proof.
  intros Hb HP. unfold with_tab.
  destruct (getTabAt a) as [[i t]|] eqn:Hg; [|done]. simpl.
  apply Forall_insert; [done|].
  apply Hb; [unfold getTab; by rewrite Hg|].
  apply getTabAt_lookup in Hg as [Hl _]. by eapply Forall_lookup_1.
Qed.

Lemma Forall_activateTab (P : TabState N -> Prop) id (a : App N) :
  (forall tab, P tab -> P (setScale_tab (scale tab) tab)) ->
  Forall P (tabs a) -> Forall P (tabs (activateTab id a)).
Proof.
  intros Hs HP. unfold activateTab.
  destruct (getTab (set_activeTabId (Some id) a)) as [tab|] eqn:Hg; [|done].
  unfold setScale. apply Forall_with_tab; [|done].
  intros t Ht. assert (t = tab) as -> by congruence. apply Hs.
Qed.

(** Whatever property of tab objects a new tab has and every effect of an
    event keeps, holds of all tabs after the event if it held before. *)
Lemma step_Forall (P : TabState N -> Prop) (a : App N) (ev : Event) :
  (forall id name type, P (new_TabState id name type)) ->
  (forall tab tab', tab_effect ev tab tab' -> P tab -> P tab') ->
  Forall P (tabs a) -> Forall P (tabs (step a ev)).
Proof.
  intros Hnew Heff HP. destruct ev; simpl.
  - unfold openFile, createTab. simpl.
    apply Forall_activateTab; [intros; eapply Heff; [constructor|done]|].
    simpl. apply Forall_alter.
    + apply Forall_app. split; [done|]. by constructor.
    + intros t _ Ht. eapply Heff; [constructor|done].
  - apply Forall_activateTab; [|done].
    intros; eapply Heff; [constructor|done].
  - unfold closeTab. destruct (findIndex id (tabs a)) as [[idx t]|]; [|done].
    simpl. assert (Forall P (delete idx (tabs a))) as HP'.
    { by apply Forall_delete. }
    destruct (length (delete idx (tabs a))); [done|].
    case_match; [|done].
    apply Forall_activateTab; [|done].
    intros; eapply Heff; [constructor|done].
  - unfold onPointerDown. by repeat case_match.
  - unfold onPointerMove, eraseAt. repeat case_match; try done.
    apply Forall_with_tab; [|done]. intros; eapply Heff; [constructor|done].
  - unfold onPointerUp. repeat case_match; try done.
    apply Forall_with_tab; [|done]. intros; eapply Heff; [constructor|done].
  - unfold onMouseLeave. by case_match.
  - apply Forall_with_tab; [|done]. intros; eapply Heff; [constructor|done].
  - apply Forall_with_tab; [|done]. intros; eapply Heff; [constructor|done].
  - apply Forall_with_tab; [|done]. intros; eapply Heff; [constructor|done].
  - apply Forall_with_tab; [|done]. intros; eapply Heff; [constructor|done].
  - unfold zoomIn. destruct (getTab a) as [tab|] eqn:Hg; [|done].
    apply Forall_with_tab; [|done]. intros t Ht.
    assert (t = tab) as -> by congruence. eapply Heff; constructor.
  - unfold zoomOut. destruct (getTab a) as [tab|] eqn:Hg; [|done].
    apply Forall_with_tab; [|done]. intros t Ht.
    assert (t = tab) as -> by congruence. eapply Heff; constructor.
  - unfold zoomFit, setScale.
    apply Forall_with_tab; [intros; eapply Heff; [constructor|done]|].
    apply Forall_with_tab; [|done]. intros; eapply Heff; [constructor|done].
  - apply Forall_with_tab; [|done]. intros; eapply Heff; [constructor|done].
  - apply Forall_with_tab; [|done]. intros; eapply Heff; [constructor|done].
  - apply Forall_with_tab; [|done]. intros; eapply Heff; [constructor|done].
  - apply Forall_with_tab; [|done]. intros; eapply Heff; [constructor|done].
  - done.
  - done.
  - done.
  - done.
Qed.

Lemma run_Forall (P : TabState N -> Prop) (Q : Event -> Prop)
    (evs : list Event) (a : App N) :
  (forall id name type, P (new_TabState id name type)) ->
  (forall ev tab tab', Q ev -> tab_effect ev tab tab' -> P tab -> P tab') ->
  Forall Q evs ->
  Forall P (tabs a) -> Forall P (tabs (run evs a)).
Proof.
  intros Hnew Heff. revert a.
  induction evs as [|ev evs IH]; intros a HQ HP; [done|].
  apply Forall_cons in HQ as [Hev HQ]. simpl. apply IH; [done|].
  apply step_Forall; eauto.
Qed.

End Registry.

(** ** Geometry over exact arithmetic *)

Section Geometry.
Local Open Scope Qc_scope.

Lemma rescale_there_and_back (s1 s2 : Qc) (r : Highlight Qc) :
  s1 <> 0 -> s2 <> 0 ->
  rescale (s1 / s2) (rescale (s2 / s1) r) = r.
Proof.
  intros H1 H2. destruct r as [i p x y w h c o]. unfold rescale. simpl.
  f_equal; field; done.
Qed.

Lemma rotate90_cw_ccw (W Ht : Qc) (r : Highlight Qc) :
  rotate90 ccw Ht W (rotate90 cw W Ht r) = r.
Proof.
  destruct r as [i p x y w h c o]. unfold rotate90. simpl.
  f_equal. ring.
Qed.

(** C1. Remapping a rectangle for a clockwise quarter turn of a canvas of
    extents [W] by [Ht], and then for a counter-clockwise quarter turn of the
    turned canvas (extents [Ht] by [W]), gives the rectangle back; so
    [rotate('cw')] followed, once the page has been re-rendered at the turned
    size, by [rotate('ccw')] leaves the highlights of every tab as they
    were.  Numbers are exact rationals here; in binary64 the two
    subtractions round, which is the epsilon of the statement. *)
Theorem rotate_cw_ccw_roundtrip :
  (forall (W Ht : Qc) (r : Highlight Qc),
     rotate90 ccw Ht W (rotate90 cw W Ht r) = r) /\
  (forall a : App Qc,
     highlights <$>
       tabs (rotate ccw
               (setCanvasSize (canvasHeight a) (canvasWidth a) (rotate cw a)))
     = highlights <$> tabs a).
Proof.
  split; [apply rotate90_cw_ccw|].
  intros a. unfold rotate at 1. simpl.
  rewrite with_tab_setCanvasSize. simpl.
  unfold rotate. rewrite with_tab_with_tab by done.
  apply with_tab_keeps_highlights. intros tab. unfold rotate_tab. simpl.
  rewrite map_map. rewrite <- (map_id (highlights tab)) at 2.
  apply map_ext. intros r. apply rotate90_cw_ccw.
Qed.

Lemma setScale_setScale (s1 s2 : Qc) (a : App Qc) (tab : TabState Qc) :
  0 < s1 -> 0 < s2 ->
  getTab a = Some tab -> scale tab = s1 ->
  setScale s1 (setScale s2 a) = a.
Proof.
  intros H1 H2 Hg Hs. unfold setScale.
  rewrite with_tab_with_tab by done.
  apply with_tab_id. intros t Ht. assert (t = tab) as -> by congruence.
  destruct tab as [i n ty cp tp sc bs rot hs hist fut]. simpl in *. subst sc.
  unfold setScale_tab, set_scale, set_highlights. simpl. f_equal.
  rewrite map_map. transitivity (map id hs); [|apply map_id].
  apply map_ext. intros r.
  apply rescale_there_and_back; intros ->;
    [by apply Qclt_not_eq in H1 | by apply Qclt_not_eq in H2].
Qed.

(** C2 (amended). Over exact rational arithmetic, for positive scales [s1]
    and [s2], rescaling a rectangle from [s1] to [s2] and back from [s2] to
    [s1] returns the rectangle, and [setScale(s2)] followed by [setScale(s1)]
    on a tab displayed at scale [s1] restores the whole application
    state. *)
Theorem rescale_roundtrip_exact_rational (s1 s2 : Qc) :
  0 < s1 -> 0 < s2 ->
  (forall r : Highlight Qc, rescale (s1 / s2) (rescale (s2 / s1) r) = r) /\
  (forall (a : App Qc) (tab : TabState Qc),
     getTab a = Some tab -> scale tab = s1 ->
     setScale s1 (setScale s2 a) = a).
Proof.
  intros H1 H2. split.
  - intros r. apply rescale_there_and_back; intros ->;
      [by apply Qclt_not_eq in H1 | by apply Qclt_not_eq in H2].
  - intros a tab. by apply setScale_setScale.
Qed.

End Geometry.

(** ** Geometry in binary64 *)

Section GeometryBinary64.
Local Open Scope float_scope.

(** C2, as stated, fails in the arithmetic the program runs.  A highlight 7
    pixels wide, rescaled from 1.5 to 1.75 and back, is 7 + 2^-50 pixels
    wide (JavaScript prints 7.000000000000001): each of the two
    multiplications rounds.
    The same happens through the interface: zoom-in followed by zoom-out on
    a freshly opened document (scale 1.5, then 1.75, then 1.5 again) changes
    a stored 7 by 7 highlight. *)
Lemma rescale_roundtrip_binary64_inexact :
  let r : Highlight float := mkHighlight 1000 1 10 10 7 7 "yellow" 100 in
  let a : App float := run (opened ++ drag 10 10 17 17 1000) init_app in
  rescale (1.5 / 1.75) (rescale (1.75 / 1.5) r) <> r /\
  all_highlights a = [[r]] /\
  scale <$> tabs a = [1.5] /\
  setScale 1.5 (setScale 1.75 a) <> a /\
  zoomOut (zoomIn a) <> a /\
  hl_w <$> concat (all_highlights (zoomOut (zoomIn a)))
    = [0x1.c000000000001p+2].
Proof.
  cbv zeta. split_and!; [..|vm_compute; reflexivity].
  - intros Heq. apply (f_equal (fun h => PrimFloat.eqb (hl_w h) 7)) in Heq.
    vm_compute in Heq. discriminate.
  - vm_compute. reflexivity.
  - vm_compute. reflexivity.
  - intros Heq.
    apply (f_equal (fun s => (fun h => PrimFloat.eqb (hl_w h) 7)
                               <$> concat (all_highlights s))) in Heq.
    vm_compute in Heq. discriminate.
  - intros Heq.
    apply (f_equal (fun s => (fun h => PrimFloat.eqb (hl_w h) 7)
                               <$> concat (all_highlights s))) in Heq.
    vm_compute in Heq. discriminate.
Qed.

(** In binary64 the round trip of C1 is exact on the rectangle of the
    specification's scenario, and off by rounding on a rectangle whose
    coordinates are not dyadic: here by less than 1e-14 of a pixel, the
    epsilon that C1 leaves room for. *)
Example rotate_roundtrip_binary64 :
  let r : Highlight float := mkHighlight 1000 1 20 20 40 40 "yellow" 100 in
  let q : Highlight float :=
    mkHighlight 1000 1 (lit (1 # 10)) (lit (2 # 10)) (lit (3 # 10))
                (lit (4 # 10)) "yellow" 100 in
  rotate90 ccw 200 100 (rotate90 cw 100 200 r) = r /\
  rotate90 ccw 200 100 (rotate90 cw 100 200 q) <> q /\
  PrimFloat.ltb
    (abs (hl_y (rotate90 ccw 200 100 (rotate90 cw 100 200 q)) - hl_y q))
    (lit (1 # 100000000000000)) = true.
Proof.
  cbv zeta. split_and!.
  - vm_compute. reflexivity.
  - intros Heq.
    apply (f_equal (fun h => PrimFloat.eqb (hl_y h) (lit (2 # 10)))) in Heq.
    vm_compute in Heq. discriminate.
  - vm_compute. reflexivity.
Qed.

(** In binary64 the remapping of [rotate] rounds, which shows at the edges:
    a rectangle that passes the tests of lying on a canvas of 100 by 200
    pixels is remapped by a counter-clockwise turn to a rectangle that
    starts above the top edge (by less than 1e-14 of a pixel), and a corner
    of a box that the eraser's test finds in the box is carried by the turn
    to a point that the test does not find in the remapped box. *)
Example rotate90_binary64_edges :
  let r : Highlight float :=
    mkHighlight 1000 1 (lit (697 # 10)) (lit (1596 # 10)) (lit (303 # 10))
                (lit (404 # 10)) "yellow" 100 in
  let q : Highlight float :=
    mkHighlight 1000 1 (lit (101 # 10)) (lit (202 # 10)) (lit (303 # 10))
                (lit (404 # 10)) "yellow" 100 in
  let cx := hl_x q + hl_w q in
  let cy := hl_y q + hl_h q in
  (PrimFloat.leb 0 (hl_x r) && PrimFloat.leb (hl_x r + hl_w r) 100 &&
   PrimFloat.leb 0 (hl_y r) && PrimFloat.leb (hl_y r + hl_h r) 200) = true /\
  PrimFloat.leb 0 (hl_y (rotate90 ccw 100 200 r)) = false /\
  PrimFloat.ltb (- lit (1 # 100000000000000))
                (hl_y (rotate90 ccw 100 200 r)) = true /\
  contains cx cy q = true /\
  contains cy (100 - cx) (rotate90 ccw 100 200 q) = false.
Proof. cbv zeta. split_and!; vm_compute; reflexivity. Qed.

End GeometryBinary64.

Section GeometryWitness.
Local Open Scope Qc_scope.

(** C2 (amended) at the scales 1.5 and 1.75 of the zoom buttons. *)
Lemma rescale_roundtrip_exact_rational_witness :
  let s1 : Qc := Q2Qc (3 # 2) in
  let s2 : Qc := Q2Qc (7 # 4) in
  let a : App Qc := run (opened ++ drag 10 10 17 17 1000) init_app in
  0 < s1 /\ 0 < s2 /\
  (forall r : Highlight Qc, rescale (s1 / s2) (rescale (s2 / s1) r) = r) /\
  setScale s1 (setScale s2 a) = a.
Proof.
  cbv zeta.
  assert (H1 : 0 < Q2Qc (3 # 2)) by reflexivity.
  assert (H2 : 0 < Q2Qc (7 # 4)) by reflexivity.
  destruct (rescale_roundtrip_exact_rational _ _ H1 H2) as [Hr Ha].
  split_and!; [exact H1 | exact H2 | exact Hr |].
  destruct (getTab (run (opened ++ drag 10 10 17 17 1000)
                        (init_app (N:=Qc))))
    as [tab|] eqn:Hg; [|vm_compute in Hg; discriminate].
  apply (Ha _ tab Hg).
  assert (Hs : scale <$> getTab (run (opened ++ drag 10 10 17 17 1000)
                                     (init_app (N:=Qc)))
               = Some (Q2Qc (3 # 2))) by (vm_compute; reflexivity).
  rewrite Hg in Hs. by injection Hs.
Defined.

End GeometryWitness.

(** ** The history engine *)

Section History.
Context {N : Type} {num : JsNum N}.
Implicit Types (tab : TabState N) (a : App N).

Lemma pushHistory_history tab :
  history (pushHistory tab) = kept tab ++ [highlights tab].
Proof.
  unfold pushHistory, kept, deep_clone.
  cbn -[Nat.ltb Nat.leb MAX_HISTORY_STEPS]. rewrite length_app.
  cbn -[Nat.ltb Nat.leb MAX_HISTORY_STEPS].
  destruct (Nat.ltb_spec MAX_HISTORY_STEPS (length (history tab) + 1));
    destruct (Nat.leb_spec MAX_HISTORY_STEPS (length (history tab)));
    try lia; [|done].
  cbn -[MAX_HISTORY_STEPS].
  destruct (history tab); [|done].
  unfold MAX_HISTORY_STEPS in *. simpl in *. lia.
Qed.

Lemma pushHistory_future tab : future (pushHistory tab) = [].
Proof. unfold pushHistory. by case_match. Qed.

Lemma pushHistory_highlights tab :
  highlights (pushHistory tab) = highlights tab.
Proof. unfold pushHistory. by case_match. Qed.

Lemma pushHistory_tab_id tab : tab_id (pushHistory tab) = tab_id tab.
Proof. unfold pushHistory. by case_match. Qed.

Lemma pushHistory_currentPage tab :
  currentPage (pushHistory tab) = currentPage tab.
Proof. unfold pushHistory. by case_match. Qed.

Lemma pushHistory_scale tab : scale (pushHistory tab) = scale tab.
Proof. unfold pushHistory. by case_match. Qed.

Lemma length_kept tab :
  (length (history tab) <= MAX_HISTORY_STEPS ->
   length (kept tab) < MAX_HISTORY_STEPS)%nat.
Proof.
  unfold kept. destruct (Nat.leb_spec MAX_HISTORY_STEPS (length (history tab))).
  - destruct (history tab); unfold MAX_HISTORY_STEPS in *; simpl in *; lia.
  - lia.
Qed.

(** After any handler that snapshots first and then replaces the highlight
    list, one [undo] brings the snapshot back. *)
Lemma undo_tab_after_push tab hs :
  highlights (undo_tab (set_highlights hs (pushHistory tab))) = highlights tab.
Proof.
  unfold undo_tab. simpl. rewrite pushHistory_history, pop_snoc. done.
Qed.

Lemma undo_tab_id tab : tab_id (undo_tab tab) = tab_id tab.
Proof. unfold undo_tab. by repeat case_match. Qed.

Lemma redo_tab_id tab : tab_id (redo_tab tab) = tab_id tab.
Proof. unfold redo_tab. by repeat case_match. Qed.

Lemma redo_undo_tab tab :
  history tab <> [] -> redo_tab (undo_tab tab) = tab.
Proof.
  intros Hne. unfold undo_tab.
  destruct (pop (history tab)) as [[snapshot rest]|] eqn:Hp;
    [|by apply pop_None in Hp].
  apply pop_Some in Hp. unfold redo_tab, deep_clone. simpl.
  rewrite pop_snoc. destruct tab; simpl in *. by subst.
Qed.

Lemma undo_tab_empty tab : history tab = [] -> undo_tab tab = tab.
Proof. intros Hh. unfold undo_tab. by rewrite Hh. Qed.

Lemma redo_tab_empty tab : future tab = [] -> redo_tab tab = tab.
Proof. intros Hf. unfold redo_tab. by rewrite Hf. Qed.

(** C5 (amended). With the active tab [tab]: when its undo stack is not
    empty, [redo] straight after [undo] gives back the state that held
    before the [undo] (highlights, undo stack and redo stack alike); [undo]
    on an empty undo stack, and [redo] on an empty redo stack, change
    nothing. *)
Theorem undo_redo_roundtrip a tab :
  getTab a = Some tab ->
  (history tab <> [] -> redo (undo a) = a) /\
  (history tab = [] -> undo a = a) /\
  (future tab = [] -> redo a = a).
Proof.
  intros Hg. split_and!.
  - intros Hne. unfold redo, undo.
    rewrite with_tab_with_tab by apply undo_tab_id.
    apply with_tab_id. intros t Ht. assert (t = tab) as -> by congruence.
    by apply redo_undo_tab.
  - intros Hh. apply with_tab_id. intros t Ht.
    assert (t = tab) as -> by congruence. by apply undo_tab_empty.
  - intros Hf. apply with_tab_id. intros t Ht.
    assert (t = tab) as -> by congruence. by apply redo_tab_empty.
Qed.

(** *** The bound on the undo stack *)

Lemma stacks_bounded_pushHistory tab :
  stacks_bounded tab -> stacks_bounded (pushHistory tab).
Proof.
  unfold stacks_bounded. intros Hb.
  rewrite pushHistory_history, pushHistory_future, length_app. simpl.
  pose proof (length_kept tab). lia.
Qed.

Lemma stacks_bounded_undo tab :
  stacks_bounded tab -> stacks_bounded (undo_tab tab).
Proof.
  unfold stacks_bounded, undo_tab. intros Hb.
  destruct (pop (history tab)) as [[snapshot rest]|] eqn:Hp; [|done].
  apply pop_Some in Hp. rewrite Hp, length_app in Hb. simpl in *.
  rewrite length_app. simpl. lia.
Qed.

Lemma stacks_bounded_redo tab :
  stacks_bounded tab -> stacks_bounded (redo_tab tab).
Proof.
  unfold stacks_bounded, redo_tab. intros Hb.
  destruct (pop (future tab)) as [[snapshot rest]|] eqn:Hp; [|done].
  apply pop_Some in Hp. rewrite Hp, length_app in Hb. simpl in *.
  rewrite length_app. simpl. lia.
Qed.

Lemma stacks_bounded_effect ev tab tab' :
  tab_effect ev tab tab' -> stacks_bounded tab -> stacks_bounded tab'.
Proof.
  destruct 1; intros Hb; try exact Hb;
    auto using stacks_bounded_undo, stacks_bounded_redo.
  - unfold onPointerUp_tab. case_match; [done|].
    by apply stacks_bounded_pushHistory in Hb.
  - by apply stacks_bounded_pushHistory in Hb.
  - by apply stacks_bounded_pushHistory in Hb.
  - unfold gotoPage_tab. by repeat case_match.
  - unfold prevPage_tab. by case_match.
  - unfold nextPage_tab. by case_match.
Qed.

Lemma kept_cases tab :
  (kept tab = history tab /\ length (history tab) < MAX_HISTORY_STEPS)%nat \/
  (exists oldest, history tab = oldest :: kept tab /\
                  (MAX_HISTORY_STEPS <= length (history tab))%nat).
Proof.
  unfold kept.
  destruct (Nat.leb_spec MAX_HISTORY_STEPS (length (history tab))); [|by left].
  right. destruct (history tab) as [|s0 hist]; [|by exists s0].
  unfold MAX_HISTORY_STEPS in *. simpl in *. lia.
Qed.

Lemma record_all_history snaps tab :
  (length (history tab) <= MAX_HISTORY_STEPS)%nat ->
  history (record_all snaps tab) =
  drop (length (history tab ++ snaps) - MAX_HISTORY_STEPS)
       (history tab ++ snaps).
Proof.
  revert tab. induction snaps as [|s snaps IH]; intros tab Hlen.
  - cbn [record_all fold_left]. rewrite app_nil_r.
    replace (length (history tab) - MAX_HISTORY_STEPS)%nat with 0%nat by lia.
    done.
  - change (record_all (s :: snaps) tab)
      with (record_all snaps (pushHistory (set_highlights s tab))).
    pose proof (pushHistory_history (set_highlights s tab)) as Hp.
    change (kept (set_highlights s tab)) with (kept tab) in Hp.
    change (highlights (set_highlights s tab)) with s in Hp.
    pose proof (length_kept tab Hlen) as Hk.
    rewrite IH; rewrite Hp; [|rewrite length_app; cbn [length]; lia].
    rewrite <- !app_assoc. cbn [app].
    destruct (kept_cases tab) as [[-> _]|(oldest & Hh & Hge)]; [done|].
    rewrite Hh. rewrite Hh in Hlen, Hge. cbn [length app] in *.
    rewrite !length_app in *. cbn [length] in *.
    replace (S (length (kept tab) + S (length snaps)) - MAX_HISTORY_STEPS)%nat
      with (S (length (kept tab) + S (length snaps) - MAX_HISTORY_STEPS))
      by lia.
    done.
Qed.

(** C4. Starting from the state in which the script has loaded, after any
    sequence of events the undo stack of every tab holds at most 50
    snapshots; every [pushHistory] empties the redo stack; a [pushHistory] on
    a full undo stack drops its oldest entry and appends the new snapshot;
    and 51 successive [pushHistory] calls on an empty undo stack leave
    exactly the last 50 snapshots, in order. *)
Theorem history_bound :
  (forall (evs : list Event) tab,
     tab ∈ tabs (run evs init_app) ->
     (length (history tab) <= 50)%nat) /\
  (forall tab, future (pushHistory tab) = []) /\
  (forall tab,
     length (history tab) = 50%nat ->
     history (pushHistory tab) = tail (history tab) ++ [highlights tab]) /\
  (forall snaps tab,
     history tab = [] -> length snaps = 51%nat ->
     history (record_all snaps tab) = tail snaps /\
     length (history (record_all snaps tab)) = 50%nat).
Proof.
  split_and!.
  - intros evs tab Hin.
    assert (Forall stacks_bounded (tabs (run evs init_app))) as HF.
    { apply (run_Forall _ (fun _ => True)).
      - intros. unfold stacks_bounded, MAX_HISTORY_STEPS. simpl. lia.
      - intros ev t t' _. apply stacks_bounded_effect.
      - by apply Forall_true.
      - constructor. }
    rewrite Forall_forall in HF. specialize (HF _ Hin).
    unfold stacks_bounded, MAX_HISTORY_STEPS in HF. lia.
  - apply pushHistory_future.
  - intros tab Hlen. rewrite pushHistory_history. unfold kept.
    rewrite Hlen. done.
  - intros snaps tab Hh Hlen.
    rewrite record_all_history by (rewrite Hh; simpl; lia).
    rewrite Hh. cbn [app]. rewrite Hlen.
    change (51 - MAX_HISTORY_STEPS)%nat with 1%nat.
    destruct snaps as [|s snaps]; [done|]. cbn [drop tail length] in *.
    rewrite drop_0. split; [done|]. lia.
Qed.

(** *** Which removals are recorded *)

Lemma deleteHighlight_tab_id id tab :
  tab_id (deleteHighlight_tab id tab) = tab_id tab.
Proof. apply pushHistory_tab_id. Qed.

(** The three handlers that snapshot before they change the highlight list:
    one [undo] after any of them brings back the list they found. *)
Lemma recorded_then_undo tab :
  (forall now x y w h color opacity,
     nltb w MIN_HIGHLIGHT_PX || nltb h MIN_HIGHLIGHT_PX = false ->
     highlights (undo_tab (onPointerUp_tab now x y w h color opacity tab))
     = highlights tab) /\
  (forall id, highlights (undo_tab (deleteHighlight_tab id tab))
              = highlights tab) /\
  highlights (undo_tab (clearPage_tab tab)) = highlights tab.
Proof.
  split_and!.
  - intros now x y w h color opacity Hok. unfold onPointerUp_tab.
    rewrite Hok. apply undo_tab_after_push.
  - intros id. apply undo_tab_after_push.
  - apply undo_tab_after_push.
Qed.

(** [eraseAt] touches neither stack. *)
Lemma eraseAt_tab_stacks cx cy tab :
  history (eraseAt_tab cx cy tab) = history tab /\
  future (eraseAt_tab cx cy tab) = future tab.
Proof. done. Qed.

(** C10. When no stored highlight of the active tab has the id passed to
    [deleteHighlight], the highlight list stays as it is, and yet a snapshot
    equal to it is pushed on the undo stack (the oldest entry leaving a full
    stack) and the redo stack is emptied, so that [redo] has nothing left to
    do. *)
Theorem deleteHighlight_unknown_id a tab id :
  getTab a = Some tab ->
  (forall h, h ∈ highlights tab -> hl_id h <> id) ->
  exists tab',
    getTab (deleteHighlight id a) = Some tab' /\
    highlights tab' = highlights tab /\
    history tab' = kept tab ++ [highlights tab] /\
    future tab' = [] /\
    redo (deleteHighlight id a) = deleteHighlight id a.
Proof.
  intros Hg Hid. exists (deleteHighlight_tab id tab).
  assert (getTab (deleteHighlight id a) = Some (deleteHighlight_tab id tab))
    as Hg' by (apply getTab_with_tab; [done|apply deleteHighlight_tab_id]).
  split_and!.
  - done.
  - unfold deleteHighlight_tab. simpl. rewrite pushHistory_highlights.
    apply filter_all. intros h Hh. apply Hid in Hh.
    apply negb_true_iff, Z.eqb_neq. done.
  - unfold deleteHighlight_tab. simpl. apply pushHistory_history.
  - unfold deleteHighlight_tab. simpl. apply pushHistory_future.
  - apply with_tab_id. intros t Ht.
    assert (t = deleteHighlight_tab id tab) as -> by congruence.
    apply redo_tab_empty. unfold deleteHighlight_tab. simpl.
    apply pushHistory_future.
Qed.

End History.

(** ** Erasing by point *)

Section Erase.
Local Open Scope Qc_scope.

(** The boolean test of [eraseAt] decides closed-box membership. *)
Lemma contains_spec (cx cy : Qc) (h : Highlight Qc) :
  contains cx cy h = true <->
  (hl_x h <= cx /\ cx <= hl_x h + hl_w h) /\
  (hl_y h <= cy /\ cy <= hl_y h + hl_h h).
Proof.
  unfold contains. simpl.
  rewrite !andb_true_iff, !bool_decide_eq_true. tauto.
Qed.

Lemma eraseAt_tab_id (cx cy : Qc) (tab : TabState Qc) :
  tab_id (eraseAt_tab cx cy tab) = tab_id tab.
Proof. done. Qed.

(** C7. [eraseAt(cx, cy)] on the active tab [tab]: a stored highlight of the
    current page is removed exactly when the point lies in its closed box
    [[x, x + w]] by [[y, y + h]], so every such highlight goes in the one
    call; a highlight of another page stays; and what stays is a
    subsequence of what was stored, in the same order. *)
Theorem eraseAt_removes_exactly (a : App Qc) (tab : TabState Qc)
    (cx cy : Qc) :
  getTab a = Some tab ->
  exists tab',
    getTab (eraseAt cx cy a) = Some tab' /\
    highlights tab' `sublist_of` highlights tab /\
    forall h, h ∈ highlights tab ->
      (hl_page h = currentPage tab ->
       (h ∉ highlights tab' <->
        (hl_x h <= cx /\ cx <= hl_x h + hl_w h) /\
        (hl_y h <= cy /\ cy <= hl_y h + hl_h h))) /\
      (hl_page h <> currentPage tab -> h ∈ highlights tab').
Proof.
  intros Hg. exists (eraseAt_tab cx cy tab). split_and!.
  - by apply getTab_with_tab.
  - apply filter_sublist.
  - intros h Hh. unfold eraseAt_tab. simpl.
    rewrite elem_of_filter. split.
    + intros Hp. apply Z.eqb_eq in Hp as Hpb. rewrite Hpb. simpl.
      rewrite <- contains_spec. destruct (contains cx cy h); simpl.
      * split; [done|]. by intros _ [_ ?].
      * split; [|done]. intros Hn. by destruct Hn.
    + intros Hp. apply Z.eqb_neq in Hp as Hpb. rewrite Hpb. done.
Qed.

End Erase.

(** ** Creating highlights *)

Section Create.
Local Open Scope Qc_scope.

Lemma small_rejected now x y w h color opacity (tab : TabState Qc) :
  w < MIN_HIGHLIGHT_PX \/ h < MIN_HIGHLIGHT_PX ->
  onPointerUp_tab now x y w h color opacity tab = tab.
Proof.
  intros Hs. unfold onPointerUp_tab.
  replace (nltb w MIN_HIGHLIGHT_PX || nltb h MIN_HIGHLIGHT_PX) with true;
    [done|].
  symmetry. apply orb_true_iff. simpl. rewrite !bool_decide_eq_true. done.
Qed.

Lemma stored_or_rejected now x y w h color opacity (tab : TabState Qc) :
  onPointerUp_tab now x y w h color opacity tab = tab \/
  (MIN_HIGHLIGHT_PX <= w /\ MIN_HIGHLIGHT_PX <= h /\
   onPointerUp_tab now x y w h color opacity tab =
   set_highlights
     (highlights tab ++
        [mkHighlight now (currentPage tab) x y w h color opacity])
     (pushHistory tab)).
Proof.
  unfold onPointerUp_tab.
  destruct (nltb w MIN_HIGHLIGHT_PX || nltb h MIN_HIGHLIGHT_PX) eqn:E;
    [by left|right].
  apply orb_false_iff in E as [Ew Eh]. simpl in Ew, Eh.
  apply bool_decide_eq_false, Qcnot_lt_le in Ew.
  apply bool_decide_eq_false, Qcnot_lt_le in Eh.
  by rewrite pushHistory_highlights, pushHistory_currentPage.
Qed.

Lemma MIN_HIGHLIGHT_PX_pos : 0 < MIN_HIGHLIGHT_PX (N:=Qc).
Proof. reflexivity. Qed.

Lemma positive_tab_pushHistory (tab : TabState Qc) :
  positive_tab tab -> positive_tab (pushHistory tab).
Proof.
  intros (Hs & Hh & Hhist & Hfut). unfold positive_tab.
  rewrite pushHistory_scale, pushHistory_highlights, pushHistory_history,
    pushHistory_future.
  split_and!; [done|done| |constructor].
  apply Forall_app. split; [|by repeat constructor].
  destruct (kept_cases tab) as [[-> _]|(oldest & Hk & _)]; [done|].
  rewrite Hk in Hhist. by apply Forall_cons in Hhist as [_ ?].
Qed.

Lemma positive_tab_set_highlights hs (tab : TabState Qc) :
  Forall positive_rect hs -> positive_tab tab ->
  positive_tab (set_highlights hs tab).
Proof. intros Hhs (Hs & Hh & Hhist & Hfut). by split_and!. Qed.

Lemma positive_tab_setScale s (tab : TabState Qc) :
  0 < s -> positive_tab tab -> positive_tab (setScale_tab s tab).
Proof.
  intros Hpos (Hs & Hh & Hhist & Hfut). split_and!; try done. simpl.
  apply Forall_map. eapply Forall_impl; [exact Hh|].
  intros h [Hw Hht]. unfold positive_rect, rescale. simpl.
  assert (0 < s / scale tab) as Hr
    by (apply Qcmult_pos_pos; [done|by apply Qcinv_pos]).
  split; by apply Qcmult_pos_pos.
Qed.

Lemma positive_tab_effect ev (tab tab' : TabState Qc) :
  positive_fit ev ->
  tab_effect ev tab tab' -> positive_tab tab -> positive_tab tab'.
Proof.
  intros Hfit Heff. destruct Heff; intros Hp;
    try (apply positive_tab_setScale; [apply Hp|done]); try exact Hp.
  - apply positive_tab_set_highlights; [|done].
    apply Forall_filter, Hp.
  - destruct (stored_or_rejected now x y w h color opacity tab)
      as [->|(Hw & Hh & ->)]; [done|].
    apply positive_tab_set_highlights;
      [|by apply positive_tab_pushHistory].
    apply Forall_app. split; [apply Hp|].
    constructor; [|constructor]. unfold positive_rect. simpl.
    pose proof MIN_HIGHLIGHT_PX_pos.
    split; eapply Qclt_le_trans; done.
  - apply positive_tab_set_highlights;
      [|by apply positive_tab_pushHistory].
    rewrite pushHistory_highlights. apply Forall_filter, Hp.
  - apply positive_tab_set_highlights;
      [|by apply positive_tab_pushHistory].
    rewrite pushHistory_highlights. apply Forall_filter, Hp.
  - unfold undo_tab.
    destruct (pop (history tab)) as [[snapshot rest]|] eqn:Hpop; [|done].
    apply pop_Some in Hpop. destruct Hp as (Hs & Hh & Hhist & Hfut).
    rewrite Hpop in Hhist. apply Forall_app in Hhist as [Hrest Hsnap].
    apply Forall_cons in Hsnap as [Hsnap _].
    split_and!; simpl; try done. apply Forall_app. split; [done|].
    by repeat constructor.
  - unfold redo_tab.
    destruct (pop (future tab)) as [[snapshot rest]|] eqn:Hpop; [|done].
    apply pop_Some in Hpop. destruct Hp as (Hs & Hh & Hhist & Hfut).
    rewrite Hpop in Hfut. apply Forall_app in Hfut as [Hrest Hsnap].
    apply Forall_cons in Hsnap as [Hsnap _].
    split_and!; simpl; try done. apply Forall_app. split; [done|].
    by repeat constructor.
  - apply positive_tab_setScale; [|done]. destruct Hp as [Hs _]. simpl.
    case_bool_decide; [|reflexivity].
    apply Qcplus_pos_pos; [done|reflexivity].
  - apply positive_tab_setScale; [|done]. simpl.
    case_bool_decide as Hc; [reflexivity|].
    apply Qcnot_le_lt in Hc. eapply Qclt_trans; [|exact Hc]. reflexivity.
  - apply positive_tab_setScale; [exact Hfit|done].
  - destruct Hp as (Hs & Hh & Hhist & Hfut). split_and!; try done. simpl.
    apply Forall_map. eapply Forall_impl; [exact Hh|].
    intros r [Hw Hht]. unfold positive_rect, rotate90. by case_match.
  - unfold gotoPage_tab. by repeat case_match.
  - unfold prevPage_tab. by case_match.
  - unfold nextPage_tab. by case_match.
Qed.

Lemma onPointerUp_tab_id now x y w h color opacity (tab : TabState Qc) :
  tab_id (onPointerUp_tab now x y w h color opacity tab) = tab_id tab.
Proof.
  unfold onPointerUp_tab. case_match; [done|]. apply pushHistory_tab_id.
Qed.

(** C6 (amended). A pointer-up whose drag is narrower or lower than 5
    pixels changes no tab: neither a highlight list nor an undo or redo
    stack.  Whenever pointer-up does change the active tab, it appends one
    rectangle, at least 5 wide and 5 high.  And at every moment of a session
    in which each scale computed by zoom-fit is positive, every stored
    highlight has positive width and height. *)
Theorem add_rejects_small_rectangles :
  (forall (a : App Qc) e now,
     nabs (nsub (fst (clientToCanvas a e)) (startX a)) < Q2Qc 5 \/
     nabs (nsub (snd (clientToCanvas a e)) (startY a)) < Q2Qc 5 ->
     tabs (onPointerUp e now a) = tabs a) /\
  (forall (a : App Qc) e now tab tab',
     getTab a = Some tab ->
     getTab (onPointerUp e now a) = Some tab' ->
     tab' = tab \/
     exists h, highlights tab' = highlights tab ++ [h] /\
               Q2Qc 5 <= hl_w h /\ Q2Qc 5 <= hl_h h) /\
  (forall evs : list (@Event Qc),
     Forall positive_fit evs ->
     forall tab h,
       tab ∈ tabs (run evs init_app) -> h ∈ highlights tab ->
       0 < hl_w h /\ 0 < hl_h h).
Proof.
  split_and!.
  - intros a e now Hsmall. unfold onPointerUp.
    destruct (isDrawing a); [|done]. simpl.
    destruct (drawMode a); [|done|done].
    rewrite with_tab_id; [done|]. intros tab _.
    by apply small_rejected.
  - intros a e now tab tab' Hg. unfold onPointerUp.
    destruct (isDrawing a); cbn [negb]; [|left; congruence].
    change (drawMode (set_isDrawing false a)) with (drawMode a).
    destruct (drawMode a);
      [|change (getTab (set_isDrawing false a)) with (getTab a);
        left; congruence..].
    erewrite getTab_with_tab;
      [|exact Hg|apply onPointerUp_tab_id].
    intros [= <-].
    match goal with
    | |- onPointerUp_tab ?n ?x ?y ?w ?h ?c ?o tab = tab \/ _ =>
        destruct (stored_or_rejected n x y w h c o tab)
          as [->|(Hw & Hh & ->)]
    end; [by left|right].
    eexists. split; [reflexivity|]. by split.
  - intros evs Hfit tab h Htab Hh.
    assert (Forall positive_tab (tabs (run evs (init_app (N:=Qc))))) as HF.
    { apply (run_Forall positive_tab positive_fit); [| |done|constructor].
      - intros. by split_and!.
      - intros ev t t' Hev Heff. by apply (positive_tab_effect ev). }
    rewrite Forall_forall in HF. destruct (HF _ Htab) as (_ & Hpos & _).
    rewrite Forall_forall in Hpos. by apply Hpos.
Qed.

End Create.

(** ** Closing a tab *)

Section Close.
Context {N : Type} {num : JsNum N}.
Implicit Types (tab : TabState N) (a : App N).

Lemma activateTab_ids id a :
  tab_id <$> tabs (activateTab id a) = tab_id <$> tabs a /\
  activeTabId (activateTab id a) = Some id.
Proof.
  unfold activateTab. case_match; [|done]. unfold setScale.
  by rewrite with_tab_ids, with_tab_activeTabId.
Qed.

Lemma findIndex_lookup id (ts : list (TabState N)) idx tab :
  findIndex id ts = Some (idx, tab) -> ts !! idx = Some tab /\ tab_id tab = id.
Proof. by intros (? & ? & _)%list_find_Some. Qed.

(** C9 (amended). [closeTab(id)] on the active tab, found at index [idx] of
    [tabs]: the tab leaves the registry, the others keeping their order (and,
    ids being distinct, no tab with this id remains); the tab that followed
    it, which now sits at index [idx], becomes active; when it was the last
    of several, the tab before it does; and when the registry is empty
    afterwards, no tab is active. *)
Theorem closeTab_activates_neighbour a id idx closed :
  findIndex id (tabs a) = Some (idx, closed) ->
  activeTabId a = Some id ->
  tab_id <$> tabs (closeTab id a) = delete idx (tab_id <$> tabs a) /\
  (NoDup (tab_id <$> tabs a) -> id ∉ (tab_id <$> tabs (closeTab id a))) /\
  (forall next,
     tabs a !! S idx = Some next ->
     activeTabId (closeTab id a) = Some (tab_id next)) /\
  (forall prev,
     tabs a !! S idx = None -> tabs a !! pred idx = Some prev ->
     (0 < idx)%nat ->
     activeTabId (closeTab id a) = Some (tab_id prev)) /\
  (tabs (closeTab id a) = [] -> activeTabId (closeTab id a) = None).
Proof.
  intros Hf _. pose proof (findIndex_lookup _ _ _ _ Hf) as [Hl Hid].
  assert (idx < length (tabs a))%nat as Hlt by by eapply lookup_lt_Some.
  assert (length (delete idx (tabs a)) = length (tabs a) - 1)%nat as Hlen
    by (apply length_delete; eauto).
  unfold closeTab. rewrite Hf. cbn [tabs set_tabs].
  destruct (length (delete idx (tabs a))) as [|n] eqn:Hn.
  { apply length_zero_iff_nil in Hn as Hnil. simpl. rewrite Hnil.
    assert (length (tabs a) = 1)%nat as H1 by lia.
    destruct (tabs a) as [|t [|t' ts]] eqn:Hts; simpl in H1; try lia.
    assert (idx = 0)%nat as -> by (simpl in Hlt; lia).
    split_and!; try done;
      [intros _; simpl; apply not_elem_of_nil | intros; lia]. }
  assert (is_Some (delete idx (tabs a) !! Nat.min idx (S n - 1))) as [nx Hnx].
  { apply lookup_lt_is_Some. lia. }
  rewrite Hnx.
  destruct (activateTab_ids (tab_id nx)
              (set_tabs (delete idx (tabs a)) a)) as [Hids Hact].
  simpl in Hids.
  assert (tab_id <$> tabs (activateTab (tab_id nx)
                             (set_tabs (delete idx (tabs a)) a))
          = delete idx (tab_id <$> tabs a)) as Hreg.
  { rewrite Hids. clear. revert idx.
    induction (tabs a) as [|t ts IH]; intros [|idx]; simpl; try done.
    f_equal. apply IH. }
  split_and!.
  - done.
  - intros Hnd. rewrite Hreg. apply delete_not_elem_of; [done|].
    by rewrite list_lookup_fmap, Hl, <- Hid.
  - intros next Hnext. rewrite Hact.
    assert (S idx < length (tabs a))%nat by by eapply lookup_lt_Some.
    rewrite Nat.min_l in Hnx by lia.
    rewrite list_lookup_delete_ge in Hnx by lia. congruence.
  - intros prev Hnone Hprev Hpos. rewrite Hact.
    apply lookup_ge_None in Hnone.
    rewrite Nat.min_r in Hnx by lia.
    rewrite list_lookup_delete_lt in Hnx by lia.
    replace (S n - 1)%nat with (pred idx) in Hnx by lia. congruence.
  - intros Hnil. apply (f_equal length) in Hnil.
    apply (f_equal length) in Hreg.
    rewrite !length_fmap in Hreg. rewrite Hnil in Hreg. simpl in Hreg.
    rewrite length_delete in Hreg
      by (rewrite list_lookup_fmap, Hl; eauto).
    rewrite length_fmap in Hreg. lia.
Qed.

End Close.

(** ** Highlight ids *)

Section Ids.
Context {N : Type} {num : JsNum N}.
Implicit Types (tab : TabState N) (a : App N) (hs : list (Highlight N)).

Lemma ids_below_mono b b' hs :
  (b <= b')%Z -> ids_below b hs -> ids_below b' hs.
Proof.
  intros Hb [Hs Hlt]. split; [done|].
  eapply Forall_impl; [exact Hlt|]. intros h Hh. simpl in *. lia.
Qed.

Lemma tab_ids_below_mono b b' tab :
  (b <= b')%Z -> tab_ids_below b tab -> tab_ids_below b' tab.
Proof.
  intros Hb (Hh & Hhist & Hfut).
  split_and!; [by eapply ids_below_mono|..];
    (eapply Forall_impl; [eassumption|]); intros; by eapply ids_below_mono.
Qed.

Lemma ids_below_filter b (f : Highlight N -> bool) hs :
  ids_below b hs -> ids_below b (List.filter f hs).
Proof.
  intros [Hs Hlt]. split; [|by apply Forall_filter].
  clear Hlt. induction hs as [|h hs IH]; [done|].
  rewrite fmap_cons in Hs. apply StronglySorted_cons in Hs as [Hh Hs].
  cbn [List.filter]. destruct (f h); [|by apply IH].
  rewrite fmap_cons. apply StronglySorted_cons. split; [|by apply IH].
  rewrite Forall_fmap in Hh |- *. by apply Forall_filter.
Qed.

Lemma ids_below_map b (g : Highlight N -> Highlight N) hs :
  (forall h, hl_id (g h) = hl_id h) ->
  ids_below b hs -> ids_below b (map g hs).
Proof.
  intros Hg [Hs Hlt]. split.
  - replace (hl_id <$> map g hs) with (hl_id <$> hs); [done|].
    clear Hs Hlt. induction hs as [|h hs IH]; [done|].
    cbn [map]. rewrite !fmap_cons, Hg. by f_equal.
  - apply Forall_map. eapply Forall_impl; [exact Hlt|].
    intros h Hh. simpl. by rewrite Hg.
Qed.

Lemma ids_below_snoc b hs h :
  ids_below b hs -> (b <= hl_id h)%Z -> ids_below (hl_id h + 1) (hs ++ [h]).
Proof.
  intros [Hs Hlt] Hb. split.
  - rewrite fmap_app. apply StronglySorted_app_2; [|done|by repeat constructor].
    intros x1 x2 (h1 & -> & Hh1)%list_elem_of_fmap Hx2.
    apply list_elem_of_singleton in Hx2 as ->.
    rewrite Forall_forall in Hlt. specialize (Hlt _ Hh1). simpl in Hlt. lia.
  - apply Forall_app. split; [|repeat constructor; lia].
    eapply Forall_impl; [exact Hlt|]. intros h' Hh'. simpl in *. lia.
Qed.

Lemma tab_ids_below_pushHistory b tab :
  tab_ids_below b tab -> tab_ids_below b (pushHistory tab).
Proof.
  intros (Hh & Hhist & Hfut). unfold tab_ids_below.
  rewrite pushHistory_highlights, pushHistory_history, pushHistory_future.
  split_and!; [done| |constructor].
  apply Forall_app. split; [|by apply Forall_singleton].
  destruct (kept_cases tab) as [[-> _]|(oldest & Hk & _)]; [done|].
  rewrite Hk in Hhist. by apply Forall_cons in Hhist as [_ ?].
Qed.

Lemma tab_ids_below_set_highlights b hs tab :
  ids_below b hs -> tab_ids_below b tab ->
  tab_ids_below b (set_highlights hs tab).
Proof. intros Hhs (Hh & Hhist & Hfut). by split_and!. Qed.

Lemma tab_ids_below_setScale b s tab :
  tab_ids_below b tab -> tab_ids_below b (setScale_tab s tab).
Proof.
  intros (Hh & Hhist & Hfut). split_and!; [|done..]. simpl.
  by apply ids_below_map.
Qed.

(** Every effect other than storing a new highlight keeps the bound. *)
Lemma tab_ids_below_effect b ev tab tab' :
  up_times [ev] = [] ->
  tab_effect ev tab tab' -> tab_ids_below b tab -> tab_ids_below b tab'.
Proof.
  intros Hup Heff. destruct Heff; intros Hp; try discriminate Hup;
    try exact Hp;
    try (by apply tab_ids_below_setScale);
    try (apply tab_ids_below_set_highlights;
           [|by apply tab_ids_below_pushHistory];
         rewrite pushHistory_highlights; apply ids_below_filter, Hp).
  - apply tab_ids_below_set_highlights; [|done]. apply ids_below_filter, Hp.
  - unfold undo_tab.
    destruct (pop (history tab)) as [[snapshot rest]|] eqn:Hpop; [|done].
    apply pop_Some in Hpop. destruct Hp as (Hh & Hhist & Hfut).
    rewrite Hpop in Hhist. apply Forall_app in Hhist as [Hrest Hsnap].
    apply Forall_cons in Hsnap as [Hsnap _].
    split_and!; simpl; try done. apply Forall_app. split; [done|].
    by apply Forall_singleton.
  - unfold redo_tab.
    destruct (pop (future tab)) as [[snapshot rest]|] eqn:Hpop; [|done].
    apply pop_Some in Hpop. destruct Hp as (Hh & Hhist & Hfut).
    rewrite Hpop in Hfut. apply Forall_app in Hfut as [Hrest Hsnap].
    apply Forall_cons in Hsnap as [Hsnap _].
    split_and!; simpl; try done. apply Forall_app. split; [done|].
    by apply Forall_singleton.
  - apply tab_ids_below_set_highlights; [|done].
    apply ids_below_map; [|apply Hp]. intros h. unfold rotate90. by case_match.
  - unfold gotoPage_tab. by repeat case_match.
  - unfold prevPage_tab. by case_match.
  - unfold nextPage_tab. by case_match.
Qed.

(** Storing a highlight stamped [now], no stored id being [now] or later. *)
Lemma tab_ids_below_onPointerUp b now x y w h color opacity tab :
  (b <= now)%Z -> tab_ids_below b tab ->
  tab_ids_below (now + 1) (onPointerUp_tab now x y w h color opacity tab).
Proof.
  intros Hb Hp. unfold onPointerUp_tab.
  case_match; [apply (tab_ids_below_mono b); [lia|done]|].
  apply tab_ids_below_set_highlights.
  - rewrite pushHistory_highlights.
    apply (ids_below_snoc b _ (mkHighlight now _ x y w h color opacity));
      [apply Hp|done].
  - apply tab_ids_below_pushHistory, (tab_ids_below_mono b); [lia|done].
Qed.

Lemma onPointerUp_ids b e now a :
  (b <= now)%Z ->
  Forall (tab_ids_below b) (tabs a) ->
  Forall (tab_ids_below (now + 1)) (tabs (onPointerUp e now a)).
Proof.
  intros Hb HP.
  assert (Forall (tab_ids_below (now + 1)) (tabs a)) as HP'.
  { eapply Forall_impl; [exact HP|]. intros t.
    apply tab_ids_below_mono. lia. }
  unfold onPointerUp. destruct (isDrawing a); cbn [negb]; [|done].
  change (drawMode (set_isDrawing false a)) with (drawMode a).
  destruct (drawMode a); [|done..].
  apply (Forall_with_tab_mono (tab_ids_below b)); [| |done].
  - intros t. apply tab_ids_below_mono. lia.
  - intros t _. by apply tab_ids_below_onPointerUp.
Qed.

Lemma run_ids (evs : list Event) b a :
  Forall (tab_ids_below b) (tabs a) ->
  Forall (Z.le b) (up_times evs) ->
  StronglySorted Z.lt (up_times evs) ->
  exists b', Forall (tab_ids_below b') (tabs (run evs a)).
Proof.
  revert b a. induction evs as [|ev evs IH]; intros b a HP Hle Hs;
    [by exists b|].
  assert (forall id name type,
            tab_ids_below b (new_TabState (N:=N) id name type)) as Hnew.
  { intros. split_and!; repeat constructor. }
  destruct ev;
    try (apply (IH b); [|exact Hle|exact Hs];
         apply step_Forall; [done| |done];
         intros t t' Heff;
         refine (tab_ids_below_effect b _ t t' _ Heff); reflexivity).
  cbn [up_times omap] in Hle, Hs. fold (up_times evs) in Hle, Hs.
  apply Forall_cons in Hle as [Hb _].
  apply StronglySorted_cons in Hs as [Hlt Hs].
  apply (IH (now + 1)%Z); [by apply (onPointerUp_ids b)| |done].
  eapply Forall_impl; [exact Hlt|]. intros t Ht. simpl in *. lia.
Qed.

(** C8 (amended). When the readings of [Date.now()] at successive
    pointer-up events increase strictly, in every tab the stored highlights
    have pairwise distinct ids, and of two stored highlights the one stored
    later, which stands later in the list, has the greater id. *)
Theorem ids_increase_with_the_clock (evs : list Event) tab :
  StronglySorted Z.lt (up_times evs) ->
  tab ∈ tabs (run evs init_app) ->
  NoDup (hl_id <$> highlights tab) /\
  forall i j hi hj,
    (i < j)%nat ->
    highlights tab !! i = Some hi -> highlights tab !! j = Some hj ->
    (hl_id hi < hl_id hj)%Z.
Proof.
  intros Hs Htab.
  destruct (run_ids evs (default 0%Z (head (up_times evs))) init_app)
    as [b Hb]; [constructor| |done|].
  { destruct (up_times evs) as [|t ts]; [constructor|]. simpl.
    apply StronglySorted_cons in Hs as [Hlt _].
    constructor; [lia|]. eapply Forall_impl; [exact Hlt|].
    intros u Hu. simpl in *. lia. }
  rewrite Forall_forall in Hb. destruct (Hb _ Htab) as [[Hsorted _] _].
  assert (forall i j hi hj,
            (i < j)%nat ->
            highlights tab !! i = Some hi -> highlights tab !! j = Some hj ->
            (hl_id hi < hl_id hj)%Z) as Hinc.
  { intros i j hi hj Hij Hi Hj.
    apply (sorted_lookup (hl_id <$> highlights tab) i j); [done..| |];
      rewrite list_lookup_fmap; [by rewrite Hi|by rewrite Hj]. }
  split; [|done].
  apply NoDup_alt. intros i j v Hi Hj.
  apply list_lookup_fmap_Some in Hi as (hi & -> & Hi).
  apply list_lookup_fmap_Some in Hj as (hj & Hv & Hj).
  destruct (Nat.lt_trichotomy i j) as [Hlt|[->|Hgt]]; [|done|].
  - specialize (Hinc _ _ _ _ Hlt Hi Hj). lia.
  - specialize (Hinc _ _ _ _ Hgt Hj Hi). lia.
Qed.

End Ids.

(** ** The program at concrete inputs *)

Section Runs.
Local Open Scope Z_scope.

(** C3, where the program departs from it.  Two highlights are stored
    (stamps 1000 and 2000), then the eraser passes over the first.
    [eraseAt] removes it without calling [pushHistory]: the stacks are
    what they were, and the next [undo] does not bring back the two
    highlights that were stored before the erasure; it goes back to the
    snapshot taken when the second highlight was added, in which only the
    first one exists. *)
Theorem eraseAt_is_not_recorded :
  let before : App float :=
    run (opened ++ drag 10 10 30 30 1000 ++ drag 50 50 70 70 2000 ++
         [EvMode erase; EvPointerDown (pointer_at 15 15)]) init_app in
  let erased := step before (EvPointerMove (pointer_at 15 15)) in
  stored_ids before = [[1000; 2000]] /\
  stored_ids erased = [[2000]] /\
  history <$> tabs erased = history <$> tabs before /\
  future <$> tabs erased = future <$> tabs before /\
  stored_ids (undo erased) = [[1000]].
Proof. cbv zeta. split_and!; vm_compute; reflexivity. Qed.

(** C5, as stated, fails on a state whose undo stack is empty and whose
    redo stack is not: a highlight is stored and undone, so that no
    highlight is left and the redo stack holds the list with the highlight.
    [undo] then finds nothing to undo and changes nothing, and the [redo]
    that follows it brings the undone highlight back, so that the
    highlights are not those that existed just before that [undo]. *)
Lemma redo_after_an_idle_undo :
  let a : App float :=
    run (opened ++ drag 10 10 30 30 1000 ++ [EvUndo]) init_app in
  (fun t => (length (history t), length (future t))) <$> tabs a
    = [(0%nat, 1%nat)] /\
  stored_ids a = [[]] /\
  undo a = a /\
  stored_ids (redo (undo a)) = [[1000]].
Proof. cbv zeta. split_and!; vm_compute; reflexivity. Qed.

(** C6, as stated, fails: the stored rectangles do not stay positive at
    all times.  The zoom-fit handler passes [(clientWidth - 48) / naturalW]
    to [setScale] as it is, where zoom-in and zoom-out clamp the scale to
    0.25 and 5.  With a canvas area 48 pixels wide the scale is 0 and the
    stored 20 by 20 highlight becomes 0 by 0; with an area 40 pixels wide
    the scale is negative and so are the width and the height.  The first
    run is in exact arithmetic and in binary64, the second in exact
    arithmetic. *)
Lemma zoomFit_flattens_stored_highlights :
  let stored : App Qc := run (opened ++ drag 10 10 30 30 1000) init_app in
  let flat : App Qc :=
    run (opened ++ drag 10 10 30 30 1000 ++
         [EvZoomFit (Q2Qc 48) (Q2Qc 400)]) init_app in
  let flipped : App Qc :=
    run (opened ++ drag 10 10 30 30 1000 ++
         [EvZoomFit (Q2Qc 40) (Q2Qc 400)]) init_app in
  let flat64 : App float :=
    run (opened ++ drag 10 10 30 30 1000 ++
         [EvZoomFit 48%float 400%float]) init_app in
  (fun h => (this (hl_w h), this (hl_h h))) <$> concat (all_highlights stored)
    = [(20 # 1, 20 # 1)%Q] /\
  (fun h => (this (hl_w h), this (hl_h h))) <$> concat (all_highlights flat)
    = [(0 # 1, 0 # 1)%Q] /\
  (fun h => (this (hl_w h), this (hl_h h)))
    <$> concat (all_highlights flipped)
    = [(-4 # 15, -4 # 15)%Q] /\
  (fun h => (nltb (lit 0) (hl_w h), nltb (lit 0) (hl_h h)))
    <$> concat (all_highlights flat) = [(false, false)] /\
  (fun h => (nltb (lit 0) (hl_w h), nltb (lit 0) (hl_h h)))
    <$> concat (all_highlights flat64) = [(false, false)].
Proof. cbv zeta. split_and!; vm_compute; reflexivity. Qed.

(** C8, as stated, fails: the id is the reading of [Date.now()], so two
    highlights stored within one millisecond share their id, and a clock
    that is set back between two drags gives the later highlight the smaller
    id. *)
Lemma ids_repeat_within_a_millisecond :
  let same : App float :=
    run (opened ++ drag 10 10 30 30 1000 ++ drag 50 50 70 70 1000) init_app in
  let back : App float :=
    run (opened ++ drag 10 10 30 30 1000 ++ drag 50 50 70 70 999) init_app in
  stored_ids same = [[1000; 1000]] /\
  (fun h => (hl_x h, hl_y h)) <$> concat (all_highlights same)
    = [(10%float, 10%float); (50%float, 50%float)] /\
  stored_ids (deleteHighlight 1000 same) = [[]] /\
  stored_ids back = [[1000; 999]].
Proof. cbv zeta. split_and!; vm_compute; reflexivity. Qed.

(** C9, as stated, fails: with three tabs open and the middle one active,
    closing it activates the tab after it (id 3), not the tab at the next
    lower index (id 1). *)
Lemma closeTab_activates_the_following_tab :
  let a : App float :=
    run [EvOpen "a.pdf" pdf 1; EvOpen "b.pdf" pdf 1; EvOpen "c.pdf" pdf 1;
         EvActivate 2] init_app in
  tab_id <$> tabs a = [1; 2; 3] /\
  activeTabId a = Some 2 /\
  tab_id <$> tabs (closeTab 2 a) = [1; 3] /\
  activeTabId (closeTab 2 a) = Some 3 /\
  activeTabId (closeTab 2 a) <> Some 1.
Proof. cbv zeta. split_and!; vm_compute; (reflexivity || discriminate). Qed.

(** The scenario of the specification: a 20 by 20 highlight at (10, 10),
    the scale doubled from 1.5 to 3, then a clockwise turn of the canvas of
    100 by 200 pixels. *)
Example scale_then_rotate :
  let a : App float := run (opened ++ drag 10 10 30 30 1000) init_app in
  (fun h => (hl_x h, hl_y h, hl_w h, hl_h h))
    <$> concat (all_highlights (rotate cw (setScale 3%float a)))
  = [(140, 20, 40, 40)%float] /\
  rotation <$> tabs (rotate cw (setScale 3%float a)) = [90].
Proof. cbv zeta. split; vm_compute; reflexivity. Qed.

End Runs.

(** ** The theorems at concrete sessions *)

Section Witnesses.
Local Open Scope Z_scope.

(** C4 on a session with one stored highlight, on a full undo stack and on
    51 numbered snapshots. *)
Lemma history_bound_witness :
  let a : App float := run (opened ++ drag 10 10 30 30 1000) init_app in
  let full : TabState float := record_all (numbered 50) (new_TabState 1 "a.pdf" pdf) in
  let fresh : TabState float := new_TabState 1 "a.pdf" pdf in
  (exists tab, tab ∈ tabs a /\ (length (history tab) <= 50)%nat) /\
  future (pushHistory full) = [] /\
  history (pushHistory full) = tail (history full) ++ [highlights full] /\
  history (record_all (numbered 51) fresh) = tail (numbered 51).
Proof.
  cbv zeta.
  destruct (history_bound (N:=float)) as (Hbound & Hfut & Hevict & Hrec).
  split_and!.
  - assert (exists tab,
              tabs (run (opened ++ drag 10 10 30 30 1000)
                        (init_app (N:=float))) !! 0%nat = Some tab)
      as [tab Htab] by (eexists; vm_compute; reflexivity).
    apply list_elem_of_lookup_2 in Htab. exists tab. split; [done|].
    exact (Hbound _ tab Htab).
  - apply Hfut.
  - apply Hevict. vm_compute. reflexivity.
  - apply Hrec; vm_compute; reflexivity.
Defined.

(** C5 before and after the first highlight of a session is stored. *)
Lemma undo_redo_roundtrip_witness :
  let a0 : App float := run opened init_app in
  let a1 : App float := run (opened ++ drag 10 10 30 30 1000) init_app in
  redo (undo a1) = a1 /\ undo a0 = a0 /\ redo a1 = a1.
Proof.
  cbv zeta.
  assert (exists tab,
            getTab (run opened (init_app (N:=float))) = Some tab /\
            history tab = [])
    as (tab0 & Hg0 & Hh0) by (eexists; split; vm_compute; reflexivity).
  assert (exists tab,
            getTab (run (opened ++ drag 10 10 30 30 1000)
                        (init_app (N:=float))) = Some tab /\
            history tab <> [] /\ future tab = [])
    as (tab1 & Hg1 & Hh1 & Hf1)
    by (eexists; split_and!; vm_compute; (reflexivity || discriminate)).
  split_and!.
  - exact (proj1 (undo_redo_roundtrip _ tab1 Hg1) Hh1).
  - exact (proj1 (proj2 (undo_redo_roundtrip _ tab0 Hg0)) Hh0).
  - exact (proj2 (proj2 (undo_redo_roundtrip _ tab1 Hg1)) Hf1).
Defined.

(** C10: the only stored id is 1000 and 7 is deleted. *)
Lemma deleteHighlight_unknown_id_witness :
  let a : App float := run (opened ++ drag 10 10 30 30 1000) init_app in
  exists tab tab',
    getTab a = Some tab /\
    getTab (deleteHighlight 7 a) = Some tab' /\
    highlights tab' = highlights tab /\
    history tab' = kept tab ++ [highlights tab] /\
    future tab' = [].
Proof.
  cbv zeta.
  assert (exists tab,
            getTab (run (opened ++ drag 10 10 30 30 1000)
                        (init_app (N:=float))) = Some tab /\
            hl_id <$> highlights tab = [1000])
    as (tab & Hg & Hids) by (eexists; split; vm_compute; reflexivity).
  assert (forall h, h ∈ highlights tab -> hl_id h <> 7) as Hne.
  { intros h Hh. apply (list_elem_of_fmap_2 hl_id) in Hh.
    rewrite Hids in Hh. apply list_elem_of_singleton in Hh. lia. }
  destruct (deleteHighlight_unknown_id _ tab 7 Hg Hne)
    as (tab' & Hg' & Hh & Hhist & Hfut & _).
  by exists tab, tab'.
Defined.

(** C9 (amended): three tabs, the middle one active and closed. *)
Lemma closeTab_activates_neighbour_witness :
  let a : App float :=
    run [EvOpen "a.pdf" pdf 1; EvOpen "b.pdf" pdf 1; EvOpen "c.pdf" pdf 1;
         EvActivate 2] init_app in
  tab_id <$> tabs (closeTab 2 a) = delete 1%nat (tab_id <$> tabs a) /\
  (2 ∉ tab_id <$> tabs (closeTab 2 a)) /\
  exists next, tabs a !! 2%nat = Some next /\
               activeTabId (closeTab 2 a) = Some (tab_id next).
Proof.
  cbv zeta.
  set (a := run [EvOpen "a.pdf" pdf 1; EvOpen "b.pdf" pdf 1;
                 EvOpen "c.pdf" pdf 1; EvActivate 2] (init_app (N:=float))).
  assert (exists closed, findIndex 2 (tabs a) = Some (1%nat, closed))
    as [closed Hf] by (eexists; vm_compute; reflexivity).
  assert (activeTabId a = Some 2) as Hact by (vm_compute; reflexivity).
  assert (exists next, tabs a !! 2%nat = Some next)
    as [next Hnext] by (eexists; vm_compute; reflexivity).
  assert (NoDup (tab_id <$> tabs a)) as Hnd.
  { vm_compute. repeat constructor; rewrite ?elem_of_cons, ?elem_of_nil;
      intros Hin; repeat destruct Hin as [Hin|Hin]; try done. }
  destruct (closeTab_activates_neighbour a 2 1%nat closed Hf Hact)
    as (Hreg & Hgone & Hnextact & _ & _).
  split_and!; [done|by apply Hgone|].
  exists next. split; [done|]. by apply Hnextact.
Defined.

(** C8 (amended): two drags, released at clock readings 1000 and 2000. *)
Lemma ids_increase_with_the_clock_witness :
  let evs : list (@Event float) :=
    opened ++ drag 10 10 30 30 1000 ++ drag 50 50 70 70 2000 in
  exists tab,
    tab ∈ tabs (run evs init_app) /\
    NoDup (hl_id <$> highlights tab) /\
    forall i j hi hj,
      (i < j)%nat ->
      highlights tab !! i = Some hi -> highlights tab !! j = Some hj ->
      hl_id hi < hl_id hj.
Proof.
  cbv zeta.
  set (evs := opened ++ drag 10 10 30 30 1000 ++ drag 50 50 70 70 2000).
  assert (StronglySorted Z.lt (up_times (N:=float) evs)) as Hs.
  { vm_compute. repeat constructor. }
  assert (exists tab, tabs (run evs (init_app (N:=float))) !! 0%nat = Some tab)
    as [tab Htab] by (eexists; vm_compute; reflexivity).
  apply list_elem_of_lookup_2 in Htab. exists tab. split; [done|].
  exact (ids_increase_with_the_clock evs tab Hs Htab).
Defined.

(** C7: the eraser on the corner (30, 10) of the first of two highlights. *)
Lemma eraseAt_removes_exactly_witness :
  let a : App Qc :=
    run (opened ++ drag 10 10 30 30 1000 ++ drag 50 50 70 70 2000) init_app in
  exists tab tab',
    getTab a = Some tab /\
    getTab (eraseAt (Q2Qc 30) (Q2Qc 10) a) = Some tab' /\
    hl_id <$> highlights tab = [1000; 2000] /\
    highlights tab' `sublist_of` highlights tab /\
    forall h, h ∈ highlights tab ->
      (hl_page h = currentPage tab ->
       (h ∉ highlights tab' <->
        (hl_x h <= Q2Qc 30 /\ Q2Qc 30 <= hl_x h + hl_w h)%Qc /\
        (hl_y h <= Q2Qc 10 /\ Q2Qc 10 <= hl_y h + hl_h h)%Qc)) /\
      (hl_page h <> currentPage tab -> h ∈ highlights tab').
Proof.
  cbv zeta.
  assert (exists tab,
            getTab (run (opened ++ drag 10 10 30 30 1000 ++
                         drag 50 50 70 70 2000) (init_app (N:=Qc)))
            = Some tab /\
            hl_id <$> highlights tab = [1000; 2000])
    as (tab & Hg & Hids) by (eexists; split; vm_compute; reflexivity).
  destruct (eraseAt_removes_exactly _ tab (Q2Qc 30) (Q2Qc 10) Hg)
    as (tab' & Hg' & Hsub & Hspec).
  by exists tab, tab'.
Defined.

(** C6: a drag 2 pixels wide, a drag of 20 by 20 pixels, and a session with
    a zoom-fit to scale 2. *)
Lemma add_rejects_small_rectangles_witness :
  let pressed : App Qc :=
    run (opened ++ [EvPointerDown (pointer_at 10 10)]) init_app in
  let evs : list (@Event Qc) :=
    opened ++ drag 10 10 30 30 1000 ++ [EvZoomFit (Q2Qc 848) (Q2Qc 400)] in
  tabs (onPointerUp (pointer_at 12 40) 1000 pressed) = tabs pressed /\
  (exists tab tab',
     getTab pressed = Some tab /\
     getTab (onPointerUp (pointer_at 30 30) 1000 pressed) = Some tab' /\
     (tab' = tab \/
      exists h, highlights tab' = highlights tab ++ [h] /\
                (Q2Qc 5 <= hl_w h)%Qc /\ (Q2Qc 5 <= hl_h h)%Qc)) /\
  (exists tab h,
     tab ∈ tabs (run evs init_app) /\ h ∈ highlights tab /\
     (0 < hl_w h)%Qc /\ (0 < hl_h h)%Qc).
Proof.
  cbv zeta.
  set (pressed := run (opened ++ [EvPointerDown (pointer_at 10 10)])
                      (init_app (N:=Qc))).
  set (evs := opened ++ drag 10 10 30 30 1000 ++
              [EvZoomFit (Q2Qc 848) (Q2Qc 400)]).
  destruct add_rejects_small_rectangles as (Hrej & Hadd & Hpos).
  split_and!.
  - apply Hrej. left. vm_compute. reflexivity.
  - assert (exists tab, getTab pressed = Some tab)
      as [tab Hg] by (eexists; vm_compute; reflexivity).
    assert (exists tab',
              getTab (onPointerUp (pointer_at 30 30) 1000 pressed) = Some tab')
      as [tab' Hg'] by (eexists; vm_compute; reflexivity).
    exists tab, tab'. split_and!; [done..|].
    exact (Hadd pressed _ _ tab tab' Hg Hg').
  - assert (Forall positive_fit evs) as Hfit.
    { repeat constructor. }
    assert (exists tab h,
              tabs (run evs (init_app (N:=Qc))) !! 0%nat = Some tab /\
              highlights tab !! 0%nat = Some h)
      as (tab & h & Htab & Hh)
      by (do 2 eexists; split; vm_compute; reflexivity).
    apply list_elem_of_lookup_2 in Htab. apply list_elem_of_lookup_2 in Hh.
    exists tab, h. split_and!; [done..| |];
      by destruct (Hpos evs Hfit tab h Htab Hh).
Defined.

End Witnesses.

(** * Further properties of the code *)

(** ** Rotation *)

Section Rotation.
Local Open Scope Qc_scope.

Lemma setCanvasSize_same (a : App Qc) :
  setCanvasSize (canvasWidth a) (canvasHeight a) a = a.
Proof. by destruct a. Qed.

Lemma rotate90_ccw_cw (W Ht : Qc) (r : Highlight Qc) :
  rotate90 cw Ht W (rotate90 ccw W Ht r) = r.
Proof.
  destruct r as [i p x y w h c o]. unfold rotate90. simpl. f_equal. ring.
Qed.

Lemma rotate90_cw_twice (W Ht : Qc) (r : Highlight Qc) :
  rotate90 cw Ht W (rotate90 cw W Ht r) =
  mkHighlight (hl_id r) (hl_page r) (W - hl_x r - hl_w r)
              (Ht - hl_y r - hl_h r) (hl_w r) (hl_h r)
              (hl_color r) (hl_opacity r).
Proof. by destruct r. Qed.

Lemma rotate_tab_inverse (W Ht : Qc) (d : Dir) (tab : TabState Qc) :
  (0 <= rotation tab < 360)%Z ->
  rotate_tab (match d with cw => ccw | ccw => cw end) Ht W
             (rotate_tab d W Ht tab) = tab.
Proof.
  intros Hr. destruct tab as [i n ty cp tp sc bs rot hs hist fut].
  unfold rotate_tab, set_rotation, set_highlights. tab_cbn. f_equal.
  - destruct d; Z.to_euclidean_division_equations; lia.
  - rewrite map_map. transitivity (map id hs); [|apply map_id].
    apply map_ext. intros r.
    destruct d; [apply rotate90_cw_ccw|apply rotate90_ccw_cw].
Qed.

Lemma rotate_tab_cw_cw (W Ht : Qc) (tab : TabState Qc) :
  rotate_tab cw Ht W (rotate_tab cw W Ht tab) =
  set_highlights
    (map (fun r => rotate90 cw Ht W (rotate90 cw W Ht r)) (highlights tab))
    (set_rotation
       (Z.rem (Z.rem (rotation tab + 90 + 360) 360 + 90 + 360) 360) tab).
Proof.
  destruct tab as [i n ty cp tp sc bs rot hs hist fut].
  unfold rotate_tab, set_rotation, set_highlights. tab_cbn.
  by rewrite map_map.
Qed.

Lemma rotate_tab_half_turn (W Ht : Qc) (tab : TabState Qc) :
  (0 <= rotation tab < 360)%Z ->
  rotate_tab cw Ht W (rotate_tab cw W Ht
    (rotate_tab cw Ht W (rotate_tab cw W Ht tab))) = tab.
Proof.
  intros Hr. rewrite (rotate_tab_cw_cw W Ht tab), rotate_tab_cw_cw.
  destruct tab as [i n ty cp tp sc bs rot hs hist fut].
  unfold set_rotation, set_highlights. tab_cbn. f_equal.
  - Z.to_euclidean_division_equations. lia.
  - rewrite map_map. transitivity (map id hs); [|apply map_id].
    apply map_ext. intros r. rewrite !rotate90_cw_twice.
    destruct r as [j p x y w h c o]. tab_cbn. unfold id. f_equal; ring.
Qed.

Lemma quarterTurn_quarterTurn (d1 d2 : Dir) (a : App Qc) :
  quarterTurn d2 (quarterTurn d1 a) =
  setCanvasSize (canvasWidth a) (canvasHeight a)
    (with_tab (rotate_tab d2 (canvasHeight a) (canvasWidth a) ∘
               rotate_tab d1 (canvasWidth a) (canvasHeight a)) a).
Proof.
  unfold quarterTurn at 1. unfold rotate at 1.
  unfold quarterTurn. cbn [canvasWidth canvasHeight setCanvasSize].
  rewrite with_tab_setCanvasSize. unfold rotate.
  rewrite with_tab_with_tab by done. reflexivity.
Qed.

(** X1. [rotate('cw')] and [rotate('ccw')], each followed by the re-render
    that exchanges the canvas extents, undo one another in either order:
    the whole application state comes back, the rotation angle of the tab
    included. *)
Theorem quarter_turns_cancel (a : App Qc) (tab : TabState Qc) (d : Dir) :
  getTab a = Some tab ->
  (0 <= rotation tab < 360)%Z ->
  quarterTurn (match d with cw => ccw | ccw => cw end) (quarterTurn d a) = a.
Proof.
  intros Hg Hr. rewrite quarterTurn_quarterTurn.
  rewrite with_tab_id; [apply setCanvasSize_same|].
  intros t Ht. assert (t = tab) as -> by congruence.
  by apply rotate_tab_inverse.
Qed.

(** X2. Four clockwise quarter turns bring back the whole application
    state: every stored rectangle, the rotation angle and the canvas
    extents. *)
Theorem four_quarter_turns (a : App Qc) (tab : TabState Qc) :
  getTab a = Some tab ->
  (0 <= rotation tab < 360)%Z ->
  quarterTurn cw (quarterTurn cw (quarterTurn cw (quarterTurn cw a))) = a.
Proof.
  intros Hg Hr. rewrite quarterTurn_quarterTurn.
  rewrite (quarterTurn_quarterTurn cw cw a). simpl.
  rewrite with_tab_setCanvasSize, with_tab_with_tab
    by (intros; unfold rotate_tab; done).
  rewrite with_tab_id; [by destruct a|].
  intros t Ht. assert (t = tab) as -> by congruence.
  by apply rotate_tab_half_turn.
Qed.

(** X3. Over exact arithmetic, a rectangle that lies on the canvas lies,
    once remapped by [rotate], on the turned canvas.  (In binary64 the
    subtractions of the remapping round, and a rectangle that touches an
    edge can come out beyond it by a rounding error: see
    [rotate90_binary64_edges].) *)
Theorem rotate90_stays_on_canvas (d : Dir) (W Ht : Qc) (r : Highlight Qc) :
  on_canvas W Ht r -> on_canvas Ht W (rotate90 d W Ht r).
Proof.
  unfold on_canvas. intros (Hx & Hxw & Hy & Hyh).
  destruct d; simpl; split_and!; qc_lra.
Qed.

(** X4. Over exact arithmetic, hit-testing commutes with rotation: the
    point that a clockwise turn of the canvas carries [(cx, cy)] to lies in
    the remapped rectangle exactly when [(cx, cy)] lies in the rectangle,
    and likewise for a counter-clockwise turn.  (In binary64 the two tests
    can differ for a point on the boundary of the box: see
    [rotate90_binary64_edges].) *)
Theorem contains_rotate90 (W Ht cx cy : Qc) (r : Highlight Qc) :
  contains (Ht - cy) cx (rotate90 cw W Ht r) = contains cx cy r /\
  contains cy (W - cx) (rotate90 ccw W Ht r) = contains cx cy r.
Proof.
  split; apply eq_true_iff_eq; rewrite !contains_spec; simpl;
    split; intros ((H1 & H2) & (H3 & H4)); split_and!; qc_lra.
Qed.

End Rotation.

Section RotationInvariant.
Context {N : Type} {num : JsNum N}.
Implicit Types (tab : TabState N) (a : App N).

Lemma pushHistory_rotation tab : rotation (pushHistory tab) = rotation tab.
Proof. unfold pushHistory. by case_match. Qed.

Lemma pushHistory_totalPages tab :
  totalPages (pushHistory tab) = totalPages tab.
Proof. unfold pushHistory. by case_match. Qed.

Lemma quarter_turn_effect ev tab tab' :
  tab_effect ev tab tab' -> quarter_turn tab -> quarter_turn tab'.
Proof.
  unfold quarter_turn.
  destruct 1; intros Hq;
    unfold onPointerUp_tab, undo_tab, redo_tab, gotoPage_tab, prevPage_tab,
      nextPage_tab, deleteHighlight_tab, clearPage_tab, eraseAt_tab,
      setScale_tab;
    repeat case_match;
    cbn [rotation set_highlights set_scale set_history set_future
         set_currentPage set_totalPages set_baseScale];
    rewrite ?pushHistory_rotation; try exact Hq.
  unfold rotate_tab. cbn [rotation set_highlights set_rotation].
  destruct dir; destruct Hq as [Hq|[Hq|[Hq|Hq]]]; rewrite Hq;
    vm_compute; tauto.
Qed.

(** X5. Whatever the user does, the rotation angle of every tab is 0, 90,
    180 or 270 degrees. *)
Theorem rotation_is_a_quarter_turn (evs : list Event) tab :
  tab ∈ tabs (run evs init_app) -> quarter_turn tab.
Proof.
  intros Hin.
  assert (Forall quarter_turn (tabs (run evs (init_app (N:=N))))) as HF.
  { apply (run_Forall _ (fun _ => True)).
    - intros. by left.
    - intros ev t t' _. apply quarter_turn_effect.
    - by apply Forall_true.
    - constructor. }
  rewrite Forall_forall in HF. by apply HF.
Qed.

Lemma canvasExtent_in_range `{JsCanvas N} (d1 d2 : Z) (v : N) :
  (toUint32 v <= 2147483647)%Z -> canvasExtent d1 v = canvasExtent d2 v.
Proof.
  intros Hv. unfold canvasExtent.
  by destruct (Z.ltb_spec 2147483647 (toUint32 v)); [lia|].
Qed.

Lemma quarter_flag_flips d tab :
  quarter_turn tab ->
  let turned :=
    Z.rem (rotation tab + (match d with cw => 90 | ccw => -90 end) + 360)
          360 in
  ((turned =? 90)%Z || (turned =? 270)%Z) =
  negb ((rotation tab =? 90)%Z || (rotation tab =? 270)%Z).
Proof.
  intros Hq. cbv zeta.
  destruct d; destruct Hq as [Hq|[Hq|[Hq|Hq]]]; rewrite Hq; reflexivity.
Qed.

(** X6. For an image, the re-render that follows [rotate] exchanges the
    canvas extents.  The canvas holds integers: the scaled extents of the
    image with their fractions dropped by the assignments to [c.width] and
    [c.height].  When both are in the range of the attributes (at most
    2147483647, beyond which the canvas falls back to 300 for the width but
    150 for the height) and the canvas has the extents [renderImagePage]
    gives it, [rotate(dir)] followed by [renderImagePage] is the quarter
    turn with exchanged extents, so the extents that [rotate] read for
    remapping the highlights are those of the turned canvas. *)
Theorem image_render_exchanges_extents `{JsCanvas N} (sw sh : N) (d : Dir)
    a tab :
  getTab a = Some tab ->
  quarter_turn tab ->
  (toUint32 (sw * scale tab)%js <= 2147483647)%Z ->
  (toUint32 (sh * scale tab)%js <= 2147483647)%Z ->
  renderPage_image sw sh a = a ->
  renderPage_image sw sh (rotate d a) = quarterTurn d a.
Proof.
  intros Hg Hq Hsw Hsh Hr. unfold renderPage_image in *. rewrite Hg in Hr.
  apply (f_equal canvasWidth) in Hr as Hw.
  apply (f_equal canvasHeight) in Hr as Hh.
  unfold renderImagePage in Hw, Hh.
  cbn [canvasWidth canvasHeight setCanvasSize] in Hw, Hh.
  unfold rotate at 1.
  erewrite getTab_with_tab; [|exact Hg|done].
  fold (rotate d a). unfold quarterTurn, renderImagePage.
  cbn [rotate_tab rotation scale set_highlights set_rotation].
  rewrite (quarter_flag_flips d tab Hq), <- Hw, <- Hh.
  destruct ((rotation tab =? 90)%Z || (rotation tab =? 270)%Z);
    cbn [negb].
  - by rewrite (canvasExtent_in_range 300 150 _ Hsw),
      (canvasExtent_in_range 150 300 _ Hsh).
  - by rewrite (canvasExtent_in_range 300 150 _ Hsh),
      (canvasExtent_in_range 150 300 _ Hsw).
Qed.

End RotationInvariant.

(** ** Zoom *)

Section Zoom.
Local Open Scope Qc_scope.

Lemma with_tab_ext (f g : TabState Qc -> TabState Qc) (a : App Qc) :
  (forall tab, getTab a = Some tab -> f tab = g tab) ->
  with_tab f a = with_tab g a.
Proof.
  intros Hfg. unfold with_tab, getTab in *.
  destruct (getTabAt a) as [[i t]|]; [|done]. by rewrite Hfg.
Qed.

Lemma filter_map_commute {A B} (f : A -> B) (p : A -> bool) (q : B -> bool)
    (l : list A) :
  (forall v, q (f v) = p v) ->
  List.filter q (map f l) = map f (List.filter p l).
Proof.
  intros Hq. induction l as [|v l IH]; [done|]. simpl.
  rewrite Hq. destruct (p v); simpl; by rewrite IH.
Qed.

Lemma pos_neq_0 (q : Qc) : 0 < q -> q <> 0.
Proof. intros Hq ->. by apply Qclt_not_eq in Hq. Qed.

Lemma ratio_pos (s t : Qc) : 0 < s -> 0 < t -> 0 < s / t.
Proof. intros. apply Qcmult_pos_pos; [done|by apply Qcinv_pos]. Qed.

Lemma rescale_rescale (s0 s1 s2 : Qc) (r : Highlight Qc) :
  s0 <> 0 -> s1 <> 0 ->
  rescale (s2 / s1) (rescale (s1 / s0) r) = rescale (s2 / s0) r.
Proof.
  intros H0 H1. destruct r as [i p x y w h c o]. unfold rescale. simpl.
  f_equal; field; done.
Qed.

(** X7. Zooming does not drift: over exact arithmetic, [setScale(s1)]
    followed by [setScale(s2)] leaves the state that [setScale(s2)] alone
    would leave, so the stored rectangles depend on the scale shown and not
    on the zoom steps that led to it. *)
Theorem setScale_path_independent (a : App Qc) (tab : TabState Qc)
    (s1 s2 : Qc) :
  getTab a = Some tab -> 0 < scale tab -> 0 < s1 ->
  setScale s2 (setScale s1 a) = setScale s2 a.
Proof.
  intros Hg H0 H1. unfold setScale. rewrite with_tab_with_tab by done.
  apply with_tab_ext. intros t Ht. assert (t = tab) as -> by congruence.
  unfold setScale_tab, set_scale, set_highlights. simpl. f_equal.
  rewrite map_map. apply map_ext. intros r.
  apply rescale_rescale; by apply pos_neq_0.
Qed.

(** X8. The zoom buttons clamp: after zoom-in the scale of the active tab
    is the old scale plus 0.25, or 5 when that would exceed 5; after
    zoom-out it is the old scale minus 0.25, or 0.25 when that would fall
    below 0.25. *)
Theorem zoom_buttons_clamp (a : App Qc) (tab : TabState Qc) :
  getTab a = Some tab ->
  (exists t, getTab (zoomIn a) = Some t /\ scale t <= Q2Qc 5 /\
             (scale t = scale tab + Q2Qc (1 # 4) \/
              Q2Qc 5 < scale tab + Q2Qc (1 # 4) /\ scale t = Q2Qc 5)) /\
  (exists t, getTab (zoomOut a) = Some t /\ Q2Qc (1 # 4) <= scale t /\
             (scale t = scale tab - Q2Qc (1 # 4) \/
              scale tab - Q2Qc (1 # 4) <= Q2Qc (1 # 4) /\
              scale t = Q2Qc (1 # 4))).
Proof.
  intros Hg. split.
  - unfold zoomIn, setScale. rewrite Hg.
    erewrite getTab_with_tab; [|exact Hg|done].
    eexists. split; [reflexivity|]. simpl.
    case_bool_decide as Hc; [split; [done|by left]|].
    apply Qcnot_le_lt in Hc. split; [apply Qcle_refl|by right].
  - unfold zoomOut, setScale. rewrite Hg.
    erewrite getTab_with_tab; [|exact Hg|done].
    eexists. split; [reflexivity|]. simpl.
    case_bool_decide as Hc; [split; [apply Qcle_refl|by right]|].
    apply Qcnot_le_lt in Hc. split; [by apply Qclt_le_weak|by left].
Qed.

(** X9. Over exact arithmetic, zoom-in followed by zoom-out restores the
    whole application state whenever the scale is at least 0.25 and
    zoom-in does not hit its ceiling (scale at most 4.75). *)
Theorem zoomIn_zoomOut (a : App Qc) (tab : TabState Qc) :
  getTab a = Some tab ->
  Q2Qc (1 # 4) <= scale tab -> scale tab <= Q2Qc (19 # 4) ->
  zoomOut (zoomIn a) = a.
Proof.
  intros Hg Hlo Hhi.
  assert (0 < scale tab) as Hpos by qc_lra.
  assert (zoomIn a = setScale (scale tab + Q2Qc (1 # 4)) a) as ->.
  { unfold zoomIn. rewrite Hg. f_equal. simpl.
    case_bool_decide as Hc; [done|]. exfalso. apply Hc. qc_lra. }
  unfold zoomOut, setScale at 1.
  erewrite getTab_with_tab; [|exact Hg|done].
  assert (nmax (nsub (scale (setScale_tab (scale tab + Q2Qc (1 # 4)) tab))
                     (lit (1 # 4))) (lit (1 # 4)) = scale tab) as ->.
  { simpl. case_bool_decide as Hc.
    - apply Qcle_antisym; [done|]. qc_lra.
    - ring. }
  apply (setScale_setScale _ _ a tab); [done| |done..].
  apply Qcplus_pos_pos; [done|reflexivity].
Qed.

Lemma contains_rescale (r cx cy : Qc) (h : Highlight Qc) :
  0 < r -> contains (cx * r) (cy * r) (rescale r h) = contains cx cy h.
Proof.
  intros Hr. apply eq_true_iff_eq. rewrite !contains_spec.
  unfold rescale. cbn [hl_x hl_y hl_w hl_h].
  rewrite <- !Qcmult_plus_distr_l.
  by rewrite <- !(Qcmult_le_mono_pos_r _ _ _ Hr).
Qed.

(** X10. Erasing commutes with zooming: erasing at a point and then
    changing the scale gives the state that changing the scale first and
    erasing at the rescaled point gives. *)
Theorem eraseAt_commutes_with_setScale (a : App Qc) (tab : TabState Qc)
    (s cx cy : Qc) :
  getTab a = Some tab -> 0 < scale tab -> 0 < s ->
  setScale s (eraseAt cx cy a) =
  eraseAt (cx * (s / scale tab)) (cy * (s / scale tab)) (setScale s a).
Proof.
  intros Hg H0 Hs. unfold setScale, eraseAt.
  rewrite !with_tab_with_tab by done.
  apply with_tab_ext. intros t Ht. assert (t = tab) as -> by congruence.
  unfold eraseAt_tab, setScale_tab, set_scale, set_highlights. simpl. f_equal.
  symmetry. apply filter_map_commute. intros h.
  assert (0 < s / scale tab) as Hr by by apply ratio_pos.
  change (hl_page (rescale (s / scale tab) h)) with (hl_page h).
  by rewrite contains_rescale.
Qed.

(** X11. Fit-to-width shows 100 percent: after the zoom-fit handler, for
    any non-zero scale it computes, the scale of the active tab is its base
    scale and the zoom label reads 100; a tab that has just been created
    reads 100 as well. *)
Theorem zoomFit_shows_100 (a : App Qc) (tab : TabState Qc)
    (clientWidth naturalW : Qc) :
  getTab a = Some tab ->
  (clientWidth - Q2Qc 48) / naturalW <> 0 ->
  (exists t, getTab (zoomFit clientWidth naturalW a) = Some t /\
             scale t = (clientWidth - Q2Qc 48) / naturalW /\
             baseScale t = scale t /\
             zoomPercent t = 100%Z) /\
  forall id name type, zoomPercent (new_TabState id name type) = 100%Z.
Proof.
  intros Hg Hfit. split; [|reflexivity].
  unfold zoomFit, setScale. rewrite with_tab_with_tab by done.
  erewrite getTab_with_tab; [|exact Hg|done].
  eexists. split; [reflexivity|]. split_and!; [done..|].
  unfold zoomPercent, setScale_tab, compose.
  cbn [scale baseScale set_scale set_highlights set_baseScale].
  change (nsub clientWidth (lit 48) / naturalW)%js
    with ((clientWidth - Q2Qc 48) / naturalW).
  unfold Qcdiv at 1. rewrite Qcmult_inv_r by done. reflexivity.
Qed.

End Zoom.

(** ** Undo and redo, further *)

Section Timeline.
Context {N : Type} {num : JsNum N}.
Implicit Types (tab : TabState N) (a : App N).

Lemma timeline_undo_tab tab : timeline (undo_tab tab) = timeline tab.
Proof.
  unfold undo_tab, timeline.
  destruct (pop (history tab)) as [[snapshot rest]|] eqn:Hp; [|done].
  apply pop_Some in Hp. rewrite Hp. unfold deep_clone. simpl.
  rewrite reverse_app, reverse_singleton. by rewrite <- !app_assoc.
Qed.

Lemma timeline_redo_tab tab : timeline (redo_tab tab) = timeline tab.
Proof.
  unfold redo_tab, timeline.
  destruct (pop (future tab)) as [[snapshot rest]|] eqn:Hp; [|done].
  apply pop_Some in Hp. rewrite Hp. unfold deep_clone. simpl.
  rewrite reverse_app, reverse_singleton. by rewrite <- !app_assoc.
Qed.

Lemma with_tab_fmap {B} (proj : TabState N -> B) body a :
  (forall tab, proj (body tab) = proj tab) ->
  proj <$> tabs (with_tab body a) = proj <$> tabs a.
Proof.
  intros Hb. unfold with_tab.
  destruct (getTabAt a) as [[i t]|] eqn:Hg; [|done]. simpl.
  apply getTabAt_lookup in Hg as [Hl _].
  rewrite list_fmap_insert, Hb. apply list_insert_id.
  by rewrite list_lookup_fmap, Hl.
Qed.

(** X12. [undo] and [redo] only move along a fixed sequence of highlight
    lists: the undo stack, followed by the current list, followed by the
    redo stack read from its top, is the same sequence before and after
    either of them, in every tab. *)
Theorem undo_redo_keep_the_timeline a :
  timeline <$> tabs (undo a) = timeline <$> tabs a /\
  timeline <$> tabs (redo a) = timeline <$> tabs a.
Proof.
  split; apply with_tab_fmap; intros tab;
    [apply timeline_undo_tab|apply timeline_redo_tab].
Qed.

Lemma undo_redo_tab tab : future tab <> [] -> undo_tab (redo_tab tab) = tab.
Proof.
  intros Hne. unfold redo_tab.
  destruct (pop (future tab)) as [[snapshot rest]|] eqn:Hp;
    [|by apply pop_None in Hp].
  apply pop_Some in Hp. unfold undo_tab, deep_clone. simpl.
  rewrite pop_snoc. destruct tab; simpl in *. by subst.
Qed.

(** X13. [undo] straight after a [redo] that had something to redo gives
    back the whole application state that held before the [redo]. *)
Theorem undo_after_redo a tab :
  getTab a = Some tab -> future tab <> [] -> undo (redo a) = a.
Proof.
  intros Hg Hne. unfold undo, redo.
  rewrite with_tab_with_tab by apply redo_tab_id.
  apply with_tab_id. intros t Ht. assert (t = tab) as -> by congruence.
  by apply undo_redo_tab.
Qed.

Lemma clearPage_tab_id tab : tab_id (clearPage_tab tab) = tab_id tab.
Proof. apply pushHistory_tab_id. Qed.

Lemma onPointerUp_tab_keeps_id now x y w h color opacity tab :
  tab_id (onPointerUp_tab now x y w h color opacity tab) = tab_id tab.
Proof.
  unfold onPointerUp_tab. case_match; [done|]. apply pushHistory_tab_id.
Qed.

(** X14. The edits that snapshot can be undone: with the active tab [tab],
    one [undo] after [deleteHighlight], after the clear-page handler, or
    after a pointer-up that stored a highlight, leaves the active tab with
    exactly the highlight list it had before the edit. *)
Theorem recorded_edits_are_undone a tab :
  getTab a = Some tab ->
  (forall id, highlights <$> getTab (undo (deleteHighlight id a))
              = Some (highlights tab)) /\
  highlights <$> getTab (undo (clearPage a)) = Some (highlights tab) /\
  (forall e now,
     tabs (onPointerUp e now a) = tabs a \/
     highlights <$> getTab (undo (onPointerUp e now a))
     = Some (highlights tab)).
Proof.
  intros Hg. destruct (recorded_then_undo tab) as (Hadd & Hdel & Hclr).
  split_and!.
  - intros id. unfold undo, deleteHighlight.
    rewrite with_tab_with_tab by apply deleteHighlight_tab_id.
    erewrite getTab_with_tab; [|exact Hg|].
    + unfold compose. cbn [fmap option_fmap option_map]. by rewrite Hdel.
    + unfold compose. by rewrite undo_tab_id, deleteHighlight_tab_id.
  - unfold undo, clearPage.
    rewrite with_tab_with_tab by apply clearPage_tab_id.
    erewrite getTab_with_tab; [|exact Hg|].
    + unfold compose. cbn [fmap option_fmap option_map]. by rewrite Hclr.
    + unfold compose. by rewrite undo_tab_id, clearPage_tab_id.
  - intros e now. unfold onPointerUp.
    destruct (isDrawing a); cbn [negb]; [|by left].
    change (drawMode (set_isDrawing false a)) with (drawMode a).
    destruct (drawMode a); [|by left..].
    match goal with
    | |- context [onPointerUp_tab ?n ?x ?y ?w ?h ?c ?o] =>
        destruct (nltb w MIN_HIGHLIGHT_PX || nltb h MIN_HIGHLIGHT_PX) eqn:E;
        [left|right; specialize (Hadd n x y w h c o E)]
    end.
    + rewrite with_tab_id; [done|]. intros t _. unfold onPointerUp_tab.
      by rewrite E.
    + unfold undo.
      rewrite with_tab_with_tab by apply onPointerUp_tab_keeps_id.
      erewrite getTab_with_tab; [|exact Hg|].
      * unfold compose. cbn [fmap option_fmap option_map]. by rewrite Hadd.
      * unfold compose. by rewrite undo_tab_id, onPointerUp_tab_keeps_id.
Qed.

End Timeline.

(** ** Removing highlights, pages and export *)

Section Store.
Context {N : Type} {num : JsNum N}.
Implicit Types (tab : TabState N) (a : App N) (hs : list (Highlight N)).

Lemma filter_one_id id hs :
  NoDup (hl_id <$> hs) -> id ∈ hl_id <$> hs ->
  S (length (List.filter (fun h => negb (hl_id h =? id)%Z) hs)) = length hs.
Proof.
  induction hs as [|h hs IH]; intros Hnd Hin.
  - by apply elem_of_nil in Hin.
  - rewrite fmap_cons in Hnd, Hin. apply NoDup_cons in Hnd as [Hh Hnd].
    cbn [List.filter length].
    destruct (Z.eqb_spec (hl_id h) id) as [Heq|Hne]; cbn [negb].
    + f_equal. f_equal. apply filter_all. intros v Hv.
      apply negb_true_iff, Z.eqb_neq. intros Hv'. apply Hh.
      rewrite Heq, <- Hv'. by apply list_elem_of_fmap_2.
    + cbn [length]. f_equal. apply IH; [done|].
      apply elem_of_cons in Hin as [Hin|Hin]; [congruence|done].
Qed.

(** X15. [deleteHighlight(id)] on the active tab removes every stored
    highlight of this id and nothing else, keeping the order of the rest;
    when the stored ids are distinct and [id] is among them, exactly one
    highlight goes. *)
Theorem deleteHighlight_removes_the_id a tab id :
  getTab a = Some tab ->
  exists t,
    getTab (deleteHighlight id a) = Some t /\
    highlights t `sublist_of` highlights tab /\
    (forall h, h ∈ highlights t <-> h ∈ highlights tab /\ hl_id h <> id) /\
    (NoDup (hl_id <$> highlights tab) -> id ∈ hl_id <$> highlights tab ->
     S (length (highlights t)) = length (highlights tab)).
Proof.
  intros Hg. exists (deleteHighlight_tab id tab). split_and!.
  - apply getTab_with_tab; [done|apply deleteHighlight_tab_id].
  - unfold deleteHighlight_tab. cbn [highlights set_highlights].
    rewrite pushHistory_highlights. apply filter_sublist.
  - intros h. unfold deleteHighlight_tab. cbn [highlights set_highlights].
    rewrite pushHistory_highlights, elem_of_filter, negb_true_iff, Z.eqb_neq.
    done.
  - intros Hnd Hin. unfold deleteHighlight_tab.
    cbn [highlights set_highlights]. rewrite pushHistory_highlights.
    by apply filter_one_id.
Qed.

Lemma filter_none {A} (f : A -> bool) (l : list A) :
  (forall v, v ∈ l -> f v = false) -> List.filter f l = [].
Proof.
  induction l as [|v l IH]; intros Hf; [done|]. simpl.
  rewrite Hf by left. apply IH. intros u Hu. apply Hf. by right.
Qed.

Lemma filter_filter_and {A} (f g : A -> bool) (l : list A) :
  List.filter f (List.filter g l) = List.filter (fun v => g v && f v) l.
Proof.
  induction l as [|v l IH]; [done|]. simpl.
  destruct (g v); simpl; [destruct (f v)|]; by rewrite IH.
Qed.

(** X16. After the clear-page handler nothing is painted over the current
    page, the page shown is still the same, and what is baked into every
    other page on export is what was baked into it before. *)
Theorem clearPage_clears_only_this_page a tab :
  getTab a = Some tab ->
  exists t,
    getTab (clearPage a) = Some t /\
    currentPage t = currentPage tab /\
    redrawHighlights t = [] /\
    bakeHighlights t (currentPage tab) = [] /\
    forall pageNum, pageNum <> currentPage tab ->
      bakeHighlights t pageNum = bakeHighlights tab pageNum.
Proof.
  intros Hg. exists (clearPage_tab tab).
  assert (highlights (clearPage_tab tab) =
          List.filter (fun h => negb (hl_page h =? currentPage tab)%Z)
                      (highlights tab)) as Hh.
  { unfold clearPage_tab. cbn [highlights set_highlights].
    by rewrite pushHistory_highlights, pushHistory_currentPage. }
  assert (currentPage (clearPage_tab tab) = currentPage tab) as Hc
    by apply pushHistory_currentPage.
  assert (scale (clearPage_tab tab) = scale tab) as Hs
    by apply pushHistory_scale.
  split_and!.
  - apply getTab_with_tab; [done|apply clearPage_tab_id].
  - done.
  - unfold redrawHighlights. rewrite Hh, Hc, filter_filter_and.
    rewrite filter_none; [done|]. intros v _. by destruct (_ =? _)%Z.
  - unfold bakeHighlights. rewrite Hh, filter_filter_and.
    rewrite filter_none; [done|]. intros v _. by destruct (_ =? _)%Z.
  - intros pageNum Hp. unfold bakeHighlights.
    rewrite Hh, Hs, filter_filter_and. f_equal.
    apply filter_ext_in. intros h _.
    destruct (Z.eqb_spec (hl_page h) pageNum) as [->|Hne];
      [|by rewrite andb_false_r].
    apply Z.eqb_neq in Hp. by rewrite Hp.
Qed.

Lemma pages_in_range_pushHistory tab :
  pages_in_range tab -> pages_in_range (pushHistory tab).
Proof.
  unfold pages_in_range. intros (Hc & Hh & Hhist & Hfut).
  rewrite pushHistory_currentPage, pushHistory_totalPages,
    pushHistory_highlights, pushHistory_history, pushHistory_future.
  cbv zeta; pages_split; [done|done| |constructor].
  apply Forall_app. split; [|by apply Forall_singleton].
  destruct (kept_cases tab) as [[-> _]|(oldest & Hk & _)]; [done|].
  rewrite Hk in Hhist. by apply Forall_cons in Hhist as [_ ?].
Qed.

Lemma pages_in_range_set_highlights hs tab :
  Forall (fun h => (1 <= hl_page h <= totalPages tab)%Z) hs ->
  pages_in_range tab -> pages_in_range (set_highlights hs tab).
Proof. intros Hhs (Hc & Hh & Hhist & Hfut). by pages_split. Qed.

Lemma pages_in_range_effect ev tab tab' :
  (forall name type pages, ev <> EvOpen name type pages) ->
  tab_effect ev tab tab' -> pages_in_range tab -> pages_in_range tab'.
Proof.
  intros Hev Heff. destruct Heff; intros Hp;
    try (by edestruct Hev); try exact Hp.
  - (* activate *) destruct Hp as (Hc & Hh & Hhist & Hfut).
    pages_split; try done. cbn [highlights setScale_tab set_scale set_highlights].
    apply Forall_map. by eapply Forall_impl; [exact Hh|].
  - (* close *) destruct Hp as (Hc & Hh & Hhist & Hfut).
    pages_split; try done. cbn [highlights setScale_tab set_scale set_highlights].
    apply Forall_map. by eapply Forall_impl; [exact Hh|].
  - (* erase *) apply pages_in_range_set_highlights; [|done].
    apply Forall_filter, Hp.
  - (* pointer up *) unfold onPointerUp_tab. case_match; [done|].
    apply pages_in_range_set_highlights;
      [|by apply pages_in_range_pushHistory].
    rewrite pushHistory_highlights, pushHistory_currentPage,
      pushHistory_totalPages.
    apply Forall_app. split; [apply Hp|]. apply Forall_singleton. apply Hp.
  - (* delete *) apply pages_in_range_set_highlights;
      [|by apply pages_in_range_pushHistory].
    rewrite pushHistory_highlights, pushHistory_totalPages.
    apply Forall_filter, Hp.
  - (* clear *) apply pages_in_range_set_highlights;
      [|by apply pages_in_range_pushHistory].
    rewrite pushHistory_highlights, pushHistory_totalPages.
    apply Forall_filter, Hp.
  - (* undo *) unfold undo_tab.
    destruct (pop (history tab)) as [[snapshot rest]|] eqn:Hpop; [|done].
    apply pop_Some in Hpop. destruct Hp as (Hc & Hh & Hhist & Hfut).
    rewrite Hpop, Forall_app, Forall_singleton in Hhist.
    destruct Hhist as [Hrest Hsnap].
    pages_split; try done.
    cbn [future set_highlights set_history set_future].
    rewrite Forall_app, Forall_singleton. by split.
  - (* redo *) unfold redo_tab.
    destruct (pop (future tab)) as [[snapshot rest]|] eqn:Hpop; [|done].
    apply pop_Some in Hpop. destruct Hp as (Hc & Hh & Hhist & Hfut).
    rewrite Hpop, Forall_app, Forall_singleton in Hfut.
    destruct Hfut as [Hrest Hsnap].
    pages_split; try done.
    cbn [history set_highlights set_history set_future].
    rewrite Forall_app, Forall_singleton. by split.
  - (* zoom in *) destruct Hp as (Hc & Hh & Hhist & Hfut).
    pages_split; try done. cbn [highlights setScale_tab set_scale set_highlights].
    apply Forall_map. by eapply Forall_impl; [exact Hh|].
  - (* zoom out *) destruct Hp as (Hc & Hh & Hhist & Hfut).
    pages_split; try done. cbn [highlights setScale_tab set_scale set_highlights].
    apply Forall_map. by eapply Forall_impl; [exact Hh|].
  - (* fit *) destruct Hp as (Hc & Hh & Hhist & Hfut).
    pages_split; try done. cbn [highlights setScale_tab set_scale set_highlights].
    apply Forall_map. by eapply Forall_impl; [exact Hh|].
  - (* rotate *) destruct Hp as (Hc & Hh & Hhist & Hfut).
    pages_split; try done.
    cbn [highlights rotate_tab set_rotation set_highlights].
    apply Forall_map. eapply Forall_impl; [exact Hh|].
    intros h Hh'. unfold rotate90. by case_match.
  - (* goto *) unfold gotoPage_tab. repeat case_match; try done.
    destruct Hp as (Hc & Hh & Hhist & Hfut). pages_split; try done.
    cbn [currentPage totalPages set_currentPage]. lia.
  - (* prev *) unfold prevPage_tab. case_match; [done|].
    destruct Hp as (Hc & Hh & Hhist & Hfut). pages_split; try done.
    cbn [currentPage totalPages set_currentPage]. lia.
  - (* next *) unfold nextPage_tab. case_match; [done|].
    destruct Hp as (Hc & Hh & Hhist & Hfut). pages_split; try done.
    cbn [currentPage totalPages set_currentPage]. lia.
Qed.

Lemma pages_in_range_new id name type total :
  (1 <= total)%Z ->
  pages_in_range (set_totalPages total (new_TabState id name type)).
Proof.
  intros Ht. pages_split; [|constructor..].
  cbn [currentPage totalPages new_TabState set_totalPages]. lia.
Qed.

Lemma step_pages_in_range a ev :
  opens_a_page ev ->
  Forall pages_in_range (tabs a) -> Forall pages_in_range (tabs (step a ev)).
Proof.
  intros Hev HP.
  destruct (changes_registry ev) eqn:Hreg;
    [destruct ev; try discriminate|].
  - cbn [step]. unfold openFile, createTab.
    cbn [tabs tabIdCounter set_tabs set_tabIdCounter].
    apply Forall_activateTab;
      [intros tab; by apply (pages_in_range_effect (EvActivate 0));
         [|constructor]|].
    cbn [tabs set_tabs].
    apply Forall_alter.
    + apply Forall_app. split; [done|]. apply Forall_singleton.
      by apply (pages_in_range_new _ _ _ 1).
    + intros t Hl _. rewrite list_lookup_middle in Hl by done.
      injection Hl as <-. apply pages_in_range_new.
      destruct type; [exact Hev|done].
  - apply step_Forall; [| |done].
    + intros. by apply (pages_in_range_new _ _ _ 1).
    + intros tab tab' Heff. by eapply pages_in_range_effect; [|exact Heff].
  - apply step_Forall; [| |done].
    + intros. by apply (pages_in_range_new _ _ _ 1).
    + intros tab tab' Heff. by eapply pages_in_range_effect; [|exact Heff].
  - apply step_Forall; [| |done].
    + intros. by apply (pages_in_range_new _ _ _ 1).
    + intros tab tab' Heff. eapply pages_in_range_effect; [|exact Heff].
      intros ???->. discriminate.
Qed.

(** X17. Pages stay in range: when every document that is opened has at
    least one page, then in every state the events lead to, each tab shows
    one of its pages, and every highlight it stores or holds in its undo and
    redo stacks lies on one of its pages. *)
Theorem pages_stay_in_range evs a :
  Forall opens_a_page evs ->
  Forall pages_in_range (tabs a) ->
  Forall pages_in_range (tabs (run evs a)).
Proof.
  revert a. induction evs as [|ev evs IH]; intros a Hevs HP; [done|].
  apply Forall_cons in Hevs as [Hev Hevs]. cbn [run fold_left].
  apply IH; [done|]. by apply step_pages_in_range.
Qed.

Lemma filter_cons_eq {A} (p : A -> bool) (v : A) (l : list A) :
  List.filter p (v :: l) = if p v then v :: List.filter p l
                           else List.filter p l.
Proof. done. Qed.

Lemma concat_pages_skip {B} (f : Highlight N -> B) h hs (ps : list Z) :
  hl_page h ∉ ps ->
  concat ((fun p => map f (List.filter (fun v => (hl_page v =? p)%Z)
                                       (h :: hs))) <$> ps) =
  concat ((fun p => map f (List.filter (fun v => (hl_page v =? p)%Z) hs))
            <$> ps).
Proof.
  induction ps as [|p ps IH]; intros Hp; [done|].
  apply not_elem_of_cons in Hp as [Hne Hp].
  rewrite !fmap_cons. cbn [concat]. rewrite IH by done. f_equal.
  apply Z.eqb_neq in Hne. rewrite filter_cons_eq. by rewrite Hne.
Qed.

Lemma concat_pages_cons {B} (f : Highlight N -> B) h hs (ps : list Z) :
  NoDup ps -> hl_page h ∈ ps ->
  concat ((fun p => map f (List.filter (fun v => (hl_page v =? p)%Z)
                                       (h :: hs))) <$> ps) ≡ₚ
  f h :: concat ((fun p => map f (List.filter (fun v => (hl_page v =? p)%Z)
                                              hs)) <$> ps).
Proof.
  induction ps as [|p ps IH]; intros Hnd Hin;
    [by apply elem_of_nil in Hin|].
  apply NoDup_cons in Hnd as [Hp Hnd].
  rewrite !fmap_cons. cbn [concat]. rewrite filter_cons_eq.
  destruct (Z.eqb_spec (hl_page h) p) as [Heq|Hne].
  - cbn [map app]. rewrite concat_pages_skip by by rewrite Heq. done.
  - apply elem_of_cons in Hin as [Hin|Hin]; [done|].
    rewrite IH by done. by rewrite <- Permutation_middle.
Qed.

Lemma concat_pages_all {B} (f : Highlight N -> B) hs (ps : list Z) :
  NoDup ps -> Forall (fun h => hl_page h ∈ ps) hs ->
  concat ((fun p => map f (List.filter (fun v => (hl_page v =? p)%Z) hs))
            <$> ps) ≡ₚ map f hs.
Proof.
  intros Hnd. induction hs as [|h hs IH]; intros Hin.
  - clear. induction ps as [|p ps IH]; [done|]. by rewrite fmap_cons.
  - apply Forall_cons in Hin as [Hh Hin].
    rewrite concat_pages_cons by done. cbn [map]. by rewrite IH.
Qed.

(** X18. [savePdfFile] composes the pages 1 to [totalPages] in this order,
    and when the highlights of the tab lie on its pages it bakes each of
    them exactly once: the rectangles of all pages together are, up to the
    order between pages, one [fillRect] per stored highlight. *)
Theorem savePdfFile_bakes_each_highlight_once tab :
  pages_in_range tab ->
  (savePdfFile tab).*1 = seqZ 1 (totalPages tab) /\
  concat (savePdfFile tab).*2 ≡ₚ
    map (bakeRect (SAVE_RENDER_SCALE / scale tab)%js) (highlights tab).
Proof.
  intros (_ & Hh & _). unfold savePdfFile. split.
  - rewrite <- list_fmap_compose. apply list_fmap_id.
  - rewrite <- list_fmap_compose. unfold compose. cbn [snd].
    unfold bakeHighlights. apply concat_pages_all; [apply NoDup_seqZ|].
    eapply Forall_impl; [exact Hh|]. intros h Hp. cbv beta in Hp.
    apply elem_of_seqZ. lia.
Qed.

End Store.

Section PdfExport.
Local Open Scope Qc_scope.
Implicit Types (tab : TabState Qc) (h : Highlight Qc).

(** X19. Over exact arithmetic the export does not depend on the zoom at
    which the page is shown: after [setScale] to any scale other than 0,
    [savePdfFile] bakes the same rectangles into the same pages. *)
Theorem savePdfFile_ignores_zoom tab (s : Qc) :
  scale tab <> 0 -> s <> 0 ->
  savePdfFile (setScale_tab s tab) = savePdfFile tab.
Proof.
  intros Hsc Hs. unfold savePdfFile.
  change (totalPages (setScale_tab s tab)) with (totalPages tab).
  apply list_fmap_ext. intros _ pageNum _. f_equal.
  unfold bakeHighlights, setScale_tab.
  cbn [highlights scale set_scale set_highlights].
  rewrite (filter_map_commute _ (fun h => (hl_page h =? pageNum)%Z))
    by done.
  rewrite map_map.
  apply map_ext. intros h. unfold bakeRect, rescale.
  cbn [hl_x hl_y hl_w hl_h hl_color hl_opacity].
  change (ndiv s (scale tab)) with (s / scale tab).
  change (ndiv SAVE_RENDER_SCALE s) with (Q2Qc 3 / s).
  change (ndiv SAVE_RENDER_SCALE (scale tab)) with (Q2Qc 3 / scale tab).
  change (@nmul Qc _) with Qcmult.
  f_equal; field; by split.
Qed.

End PdfExport.

(** ** Page navigation *)

Section Pages.
Context {N : Type} {num : JsNum N}.
Implicit Types (tab : TabState N) (a : App N).

Lemma prevPage_tab_id tab : tab_id (prevPage_tab tab) = tab_id tab.
Proof. unfold prevPage_tab. by case_match. Qed.

Lemma nextPage_tab_id tab : tab_id (nextPage_tab tab) = tab_id tab.
Proof. unfold nextPage_tab. by case_match. Qed.

Lemma gotoPage_tab_id n tab : tab_id (gotoPage_tab n tab) = tab_id tab.
Proof. unfold gotoPage_tab. by repeat case_match. Qed.

(** X20. Page navigation never touches the annotations: after the page
    prompt, [prev-page] or [next-page], every tab has the highlights, the
    undo stack, the redo stack, the scale and the rotation it had. *)
Theorem navigation_keeps_annotations a ev :
  (exists n, ev = EvGoto n) \/ ev = EvPrev \/ ev = EvNext ->
  (fun t => (highlights t, history t, future t, scale t, rotation t))
    <$> tabs (step a ev) =
  (fun t => (highlights t, history t, future t, scale t, rotation t))
    <$> tabs a.
Proof.
  intros [[n ->]|[->| ->]]; cbn [step];
    unfold gotoPage, prevPage, nextPage; apply with_tab_fmap; intros tab;
    unfold gotoPage_tab, prevPage_tab, nextPage_tab; by repeat case_match.
Qed.

(** X21. Between the first and the last page, [next-page] and [prev-page]
    undo each other: the state returns to what it was. *)
Theorem next_prev_roundtrip a tab :
  getTab a = Some tab ->
  ((1 <= currentPage tab < totalPages tab)%Z ->
   prevPage (nextPage a) = a) /\
  ((1 < currentPage tab <= totalPages tab)%Z ->
   nextPage (prevPage a) = a).
Proof.
  intros Hg. split; intros Hc.
  - unfold prevPage, nextPage.
    rewrite with_tab_with_tab by apply nextPage_tab_id.
    apply with_tab_id.
    intros t Ht. assert (t = tab) as -> by congruence.
    unfold compose, nextPage_tab, prevPage_tab.
    destruct (Z.leb_spec (totalPages tab) (currentPage tab)); [lia|].
    cbn [currentPage set_currentPage].
    destruct (Z.leb_spec (currentPage tab + 1) 1); [lia|].
    replace (currentPage tab + 1 - 1)%Z with (currentPage tab) by lia.
    by destruct tab.
  - unfold prevPage, nextPage.
    rewrite with_tab_with_tab by apply prevPage_tab_id.
    apply with_tab_id.
    intros t Ht. assert (t = tab) as -> by congruence.
    unfold compose, nextPage_tab, prevPage_tab.
    destruct (Z.leb_spec (currentPage tab) 1); [lia|].
    cbn [currentPage totalPages set_currentPage].
    destruct (Z.leb_spec (totalPages tab) (currentPage tab - 1)); [lia|].
    replace (currentPage tab - 1 + 1)%Z with (currentPage tab) by lia.
    by destruct tab.
Qed.

(** X22. A navigation button is shown disabled exactly when its click
    handler does nothing: with the flags that [updatePageLabel] computes,
    [prev-page] is disabled iff [prevPage] leaves the state as it is, and
    [next-page] is disabled iff [nextPage] does. *)
Theorem disabled_buttons_do_nothing a cur total prevOff nextOff :
  updatePageLabel a = Some (cur, total, prevOff, nextOff) ->
  (prevOff = true <-> prevPage a = a) /\
  (nextOff = true <-> nextPage a = a).
Proof.
  unfold updatePageLabel. destruct (getTab a) as [tab|] eqn:Hg; [|done].
  intros [= <- <- <- <-]. split; split.
  - intros Hoff. apply with_tab_id. intros t Ht.
    assert (t = tab) as -> by congruence. unfold prevPage_tab.
    by rewrite Hoff.
  - intros Hsame. destruct (Z.leb_spec (currentPage tab) 1) as [|Hlt]; [done|].
    pose proof (getTab_with_tab a prevPage_tab tab Hg (prevPage_tab_id tab))
      as Hg'.
    fold (prevPage a) in Hg'. rewrite Hsame, Hg in Hg'.
    injection Hg' as Hg'. apply (f_equal currentPage) in Hg'.
    unfold prevPage_tab in Hg'.
    destruct (Z.leb_spec (currentPage tab) 1); [lia|].
    cbn [currentPage set_currentPage] in Hg'. lia.
  - intros Hoff. apply with_tab_id. intros t Ht.
    assert (t = tab) as -> by congruence. unfold nextPage_tab.
    by rewrite Hoff.
  - intros Hsame.
    destruct (Z.leb_spec (totalPages tab) (currentPage tab)) as [|Hlt];
      [done|].
    pose proof (getTab_with_tab a nextPage_tab tab Hg (nextPage_tab_id tab))
      as Hg'.
    fold (nextPage a) in Hg'. rewrite Hsame, Hg in Hg'.
    injection Hg' as Hg'. apply (f_equal currentPage) in Hg'.
    unfold nextPage_tab in Hg'.
    destruct (Z.leb_spec (totalPages tab) (currentPage tab)); [lia|].
    cbn [currentPage set_currentPage] in Hg'. lia.
Qed.

End Pages.

(** ** The tab registry *)

Section Tabs.
Context {N : Type} {num : JsNum N}.
Implicit Types (tab : TabState N) (a : App N).

Lemma with_tab_tabIdCounter body a :
  tabIdCounter (with_tab body a) = tabIdCounter a.
Proof. unfold with_tab. by repeat case_match. Qed.

Lemma same_registry_refl a : same_registry a a.
Proof. by split_and!. Qed.

Lemma same_registry_trans a b c :
  same_registry a b -> same_registry b c -> same_registry a c.
Proof.
  intros (Hi1 & Hc1 & Ha1 & Ho1) (Hi2 & Hc2 & Ha2 & Ho2).
  split_and!; [congruence..|].
  intros i t Hl Hne. apply Ho2; [by apply Ho1|congruence].
Qed.

Lemma same_registry_fields a a' :
  tabs a' = tabs a -> tabIdCounter a' = tabIdCounter a ->
  activeTabId a' = activeTabId a -> same_registry a a'.
Proof.
  intros Ht Hc Ha. split_and!; [by rewrite Ht|done|done|].
  intros. by rewrite Ht.
Qed.

Lemma same_registry_with_tab body a :
  (forall tab, tab_id (body tab) = tab_id tab) ->
  same_registry a (with_tab body a).
Proof.
  intros Hb. split_and!.
  - by apply with_tab_ids.
  - apply with_tab_tabIdCounter.
  - apply with_tab_activeTabId.
  - intros i t Hl Hne. unfold with_tab.
    destruct (getTabAt a) as [[j tab]|] eqn:Hg; [|done].
    apply getTabAt_lookup in Hg as [Hj Hact]. cbn [tabs set_tabs].
    rewrite list_lookup_insert_ne; [done|].
    intros ->. rewrite Hl in Hj. injection Hj as ->. by rewrite Hact in Hne.
Qed.

Lemma step_same_registry a ev :
  changes_registry ev = false -> same_registry a (step a ev).
Proof.
  intros Hev. destruct ev; try discriminate; cbn [step].
  - unfold onPointerDown.
    repeat case_match; try apply same_registry_refl.
    by apply same_registry_fields.
  - unfold onPointerMove, eraseAt.
    repeat case_match; try apply same_registry_refl.
    by apply same_registry_with_tab.
  - unfold onPointerUp.
    repeat case_match; try apply same_registry_refl;
      try by apply same_registry_fields.
    eapply same_registry_trans;
      [|apply same_registry_with_tab, onPointerUp_tab_keeps_id].
    by apply same_registry_fields.
  - unfold onMouseLeave.
    case_match; [by apply same_registry_fields|apply same_registry_refl].
  - apply same_registry_with_tab, deleteHighlight_tab_id.
  - apply same_registry_with_tab, clearPage_tab_id.
  - apply same_registry_with_tab, undo_tab_id.
  - apply same_registry_with_tab, redo_tab_id.
  - unfold zoomIn. case_match; [|apply same_registry_refl].
    by apply same_registry_with_tab.
  - unfold zoomOut. case_match; [|apply same_registry_refl].
    by apply same_registry_with_tab.
  - unfold zoomFit, setScale.
    eapply same_registry_trans; by apply same_registry_with_tab.
  - unfold rotate. by apply same_registry_with_tab.
  - apply same_registry_with_tab, gotoPage_tab_id.
  - apply same_registry_with_tab, prevPage_tab_id.
  - apply same_registry_with_tab, nextPage_tab_id.
  - by apply same_registry_fields.
  - by apply same_registry_fields.
  - by apply same_registry_fields.
  - by apply same_registry_fields.
Qed.

(** X23. An event other than opening, activating or closing a tab leaves
    the registry alone but for the contents of the active tab: the ids and
    their order, the id counter and the active id are the same, and every
    tab other than the active one is exactly as it was. *)
Theorem other_tabs_untouched a ev :
  changes_registry ev = false -> same_registry a (step a ev).
Proof. apply step_same_registry. Qed.

Lemma registry_ok_ids a :
  registry_ok a <->
  (0 <= tabIdCounter a)%Z /\
  StronglySorted Z.lt (tab_id <$> tabs a) /\
  Forall (fun i => (0 < i <= tabIdCounter a)%Z) (tab_id <$> tabs a).
Proof. unfold registry_ok. by rewrite Forall_fmap. Qed.

Lemma activateTab_tabIdCounter id a :
  tabIdCounter (activateTab id a) = tabIdCounter a.
Proof.
  unfold activateTab. case_match; [|done]. unfold setScale.
  by rewrite with_tab_tabIdCounter.
Qed.

Lemma sorted_delete (l : list Z) i :
  StronglySorted Z.lt l -> StronglySorted Z.lt (delete i l).
Proof.
  intros Hs. revert i.
  induction Hs as [|v l Hs IH Hv]; intros [|i]; simpl;
    [constructor|constructor|done|].
  constructor; [apply IH|by apply Forall_delete].
Qed.

Lemma closeTab_unknown a id :
  id ∉ tab_id <$> tabs a -> closeTab id a = a.
Proof.
  intros Hid. unfold closeTab.
  destruct (findIndex id (tabs a)) as [[idx t]|] eqn:Hf; [|done].
  apply findIndex_lookup in Hf as [Hl <-]. destruct Hid.
  apply list_elem_of_fmap_2. by eapply list_elem_of_lookup_2.
Qed.

Lemma closeTab_found a id idx closed :
  findIndex id (tabs a) = Some (idx, closed) ->
  tab_id <$> tabs (closeTab id a) = delete idx (tab_id <$> tabs a) /\
  tabIdCounter (closeTab id a) = tabIdCounter a /\
  activeTabId (closeTab id a) =
    tab_id <$> (delete idx (tabs a) !! Nat.min idx (length (tabs a) - 2)).
Proof.
  intros Hf. pose proof (findIndex_lookup _ _ _ _ Hf) as [Hl Hid].
  assert (idx < length (tabs a))%nat as Hlt by by eapply lookup_lt_Some.
  assert (length (delete idx (tabs a)) = length (tabs a) - 1)%nat as Hlen
    by (apply length_delete; eauto).
  unfold closeTab. rewrite Hf. cbn [tabs set_tabs].
  destruct (length (delete idx (tabs a))) as [|n] eqn:Hn.
  { apply length_zero_iff_nil in Hn as Hnil.
    cbn [tabs tabIdCounter activeTabId set_activeTabId set_tabs].
    by rewrite <- list_fmap_delete, Hnil. }
  assert (is_Some (delete idx (tabs a) !! Nat.min idx (S n - 1))) as [nx Hnx].
  { apply lookup_lt_is_Some. lia. }
  rewrite Hnx.
  destruct (activateTab_ids (tab_id nx)
              (set_tabs (delete idx (tabs a)) a)) as [Hids Hact].
  rewrite Hids, Hact, activateTab_tabIdCounter.
  cbn [tabs tabIdCounter set_tabs].
  replace (length (tabs a) - 2)%nat with (S n - 1)%nat by lia.
  by rewrite Hnx, list_fmap_delete.
Qed.

Lemma openFile_registry name type pages a :
  tab_id <$> tabs (openFile name type pages a) =
    (tab_id <$> tabs a) ++ [(tabIdCounter a + 1)%Z] /\
  tabIdCounter (openFile name type pages a) = (tabIdCounter a + 1)%Z /\
  activeTabId (openFile name type pages a) = Some (tabIdCounter a + 1)%Z.
Proof.
  unfold openFile, createTab.
  cbn [tabs tabIdCounter set_tabs set_tabIdCounter].
  match goal with |- context [activateTab ?i ?b] =>
    destruct (activateTab_ids i b) as [Hids Hact];
    rewrite Hids, Hact, activateTab_tabIdCounter end.
  cbn [tabs tabIdCounter set_tabs set_tabIdCounter].
  split_and!; [|done..].
  rewrite (list_fmap_alter tab_id _ id) by by apply Forall_true.
  by rewrite list_alter_id, fmap_app.
Qed.

Lemma step_registry_ok a ev : registry_ok a -> registry_ok (step a ev).
Proof.
  intros Hok. destruct (changes_registry ev) eqn:Hreg.
  - apply registry_ok_ids in Hok as (Hc & Hs & Hb).
    destruct ev; try discriminate; cbn [step]; apply registry_ok_ids.
    + destruct (openFile_registry name type pages a) as (-> & -> & _).
      split_and!; [lia| |].
      * apply StronglySorted_app_2; [|done|repeat constructor].
        intros x1 x2 Hx1 ->%list_elem_of_singleton.
        rewrite Forall_forall in Hb. specialize (Hb _ Hx1). lia.
      * apply Forall_app. split; [|apply Forall_singleton; lia].
        eapply Forall_impl; [exact Hb|]. intros i Hi. cbv beta in Hi. lia.
    + destruct (activateTab_ids id a) as [-> _].
      by rewrite activateTab_tabIdCounter.
    + destruct (findIndex id (tabs a)) as [[idx closed]|] eqn:Hf.
      * destruct (closeTab_found a id idx closed Hf) as (-> & -> & _).
        split_and!; [done|by apply sorted_delete|by apply Forall_delete].
      * unfold closeTab. by rewrite Hf.
  - destruct (step_same_registry a ev Hreg) as (Hi & Hc & _).
    apply registry_ok_ids. apply registry_ok_ids in Hok.
    by rewrite Hi, Hc.
Qed.

Lemma run_registry_ok evs a : registry_ok a -> registry_ok (run evs a).
Proof.
  revert a. induction evs as [|ev evs IH]; intros a Hok; [done|].
  cbn [run fold_left]. by apply IH, step_registry_ok.
Qed.

(** X24. Tab ids are never reused: in every state reached from the initial
    one, whatever the events, the ids of the open tabs are positive and
    strictly increasing along [tabs], hence distinct, and none exceeds the
    id counter, so that the next tab gets an id no tab has. *)
Theorem registry_stays_ok (evs : list (@Event N)) :
  registry_ok (run evs init_app).
Proof. apply run_registry_ok. by split_and!; [|constructor|constructor]. Qed.

(** X25. [closeTab(id)] moves the view even when the tab closed is not
    the one shown: with an active tab of another id, that tab stays open,
    yet the tab made active is the neighbour of the closed one, the tab that
    followed it or, when it was the last, the tab before it. *)
Theorem closeTab_moves_the_view a id idx closed tab :
  findIndex id (tabs a) = Some (idx, closed) ->
  getTab a = Some tab ->
  tab_id tab <> id ->
  tab_id tab ∈ tab_id <$> tabs (closeTab id a) /\
  (forall next,
     tabs a !! S idx = Some next ->
     activeTabId (closeTab id a) = Some (tab_id next)) /\
  (forall prev,
     tabs a !! S idx = None -> tabs a !! pred idx = Some prev ->
     (0 < idx)%nat ->
     activeTabId (closeTab id a) = Some (tab_id prev)).
Proof.
  intros Hf Hg Hne.
  destruct (closeTab_found a id idx closed Hf) as (Hids & _ & Hact).
  pose proof (findIndex_lookup _ _ _ _ Hf) as [Hl Hid].
  assert (idx < length (tabs a))%nat as Hlt by by eapply lookup_lt_Some.
  split_and!.
  - rewrite Hids, <- list_fmap_delete. apply list_elem_of_fmap_2.
    apply getTab_elem_of, list_elem_of_lookup in Hg as [j Hj].
    assert (j <> idx) as Hji by (intros ->; congruence).
    destruct (decide (j < idx)%nat) as [Hlt'|Hge].
    + apply (list_elem_of_lookup_2 _ j).
      by rewrite list_lookup_delete_lt.
    + apply (list_elem_of_lookup_2 _ (pred j)).
      rewrite list_lookup_delete_ge by lia.
      by replace (S (pred j)) with j by lia.
  - intros next Hnext. rewrite Hact.
    assert (S idx < length (tabs a))%nat by by eapply lookup_lt_Some.
    rewrite Nat.min_l by lia.
    by rewrite list_lookup_delete_ge, Hnext by lia.
  - intros prev Hnone Hprev Hpos. rewrite Hact.
    apply lookup_ge_None in Hnone.
    rewrite Nat.min_r by lia.
    rewrite list_lookup_delete_lt by lia.
    replace (length (tabs a) - 2)%nat with (pred idx) by lia.
    by rewrite Hprev.
Qed.

(** X26. Opening a file, once it is decoded: the ids of the registry being
    in order, [tabs] gains one tab at its end and nothing else changes in
    it; the new tab has the next id, the first of its pages shown, no
    highlights and empty stacks, and it is the active tab. *)
Theorem openFile_appends_a_fresh_tab a name type pages :
  registry_ok a ->
  exists tab,
    tab = set_totalPages (match type with pdf => pages | image => 1%Z end)
            (new_TabState (tabIdCounter a + 1) name type) /\
    tabs (openFile name type pages a) = tabs a ++ [tab] /\
    activeTabId (openFile name type pages a) = Some (tab_id tab) /\
    getTab (openFile name type pages a) = Some tab.
Proof.
  intros (Hc & Hs & Hb). eexists. split; [reflexivity|].
  set (tab := set_totalPages _ _).
  set (a2 := set_tabs (tabs a ++ [tab])
               (set_tabIdCounter (tabIdCounter a + 1) a)).
  assert (openFile name type pages a = activateTab (tabIdCounter a + 1) a2)
    as ->.
  { unfold openFile, createTab.
    cbn [tabs tabIdCounter set_tabs set_tabIdCounter].
    rewrite <- (Nat.add_0_r (length (tabs a))), alter_app_r. done. }
  assert (getTabAt (set_activeTabId (Some (tabIdCounter a + 1)%Z) a2)
          = Some (length (tabs a), tab)) as Hg.
  { unfold getTabAt, findIndex.
    cbn [tabs activeTabId set_tabs set_activeTabId set_tabIdCounter a2].
    rewrite list_find_app_r.
    - cbn [list_find]. rewrite decide_True by done. done.
    - apply list_find_None. eapply Forall_impl; [exact Hb|].
      intros t Ht. cbv beta in Ht. lia. }
  assert (activateTab (tabIdCounter a + 1) a2 =
          set_activeTabId (Some (tabIdCounter a + 1)%Z) a2) as ->.
  { unfold activateTab, getTab. rewrite Hg. cbn [fmap option_fmap option_map].
    unfold setScale, with_tab. rewrite Hg.
    cbn [tabs set_tabs set_activeTabId a2].
    rewrite <- (Nat.add_0_r (length (tabs a))), insert_app_r. done. }
  split_and!; [done|done|]. unfold getTab. by rewrite Hg.
Qed.

End Tabs.

Section Switch.
Local Open Scope Qc_scope.
Implicit Types (tab : TabState Qc) (a : App Qc).

Lemma setScale_tab_same tab :
  scale tab <> 0 -> setScale_tab (scale tab) tab = tab.
Proof.
  intros Hs. unfold setScale_tab.
  rewrite (map_ext_in _ id), map_id; [by destruct tab|].
  intros h _. unfold rescale, id. destruct h as [i p x y w h c o].
  cbn [hl_id hl_page hl_x hl_y hl_w hl_h hl_color hl_opacity].
  change (ndiv (scale tab) (scale tab)) with (scale tab / scale tab).
  change (@nmul Qc _) with Qcmult.
  f_equal; by field.
Qed.

(** X27. Over exact arithmetic, switching tabs only switches: when the tab
    of id [id] is open and its scale is not 0, [activateTab(id)] assigns
    [activeTabId] and leaves every tab, highlights included, as it was. *)
Theorem activateTab_only_switches a id idx tab :
  findIndex id (tabs a) = Some (idx, tab) ->
  scale tab <> 0 ->
  activateTab id a = set_activeTabId (Some id) a.
Proof.
  intros Hf Hs. unfold activateTab.
  assert (getTab (set_activeTabId (Some id) a) = Some tab) as Hg.
  { unfold getTab, getTabAt. cbn [tabs activeTabId set_activeTabId].
    by rewrite Hf. }
  rewrite Hg. apply with_tab_id. intros t Ht.
  assert (t = tab) as -> by congruence. by apply setScale_tab_same.
Qed.

End Switch.

(** ** The drawing gesture *)

Section Gesture.
Context {N : Type} {num : JsNum N}.
Implicit Types (tab : TabState N) (a : App N).

Lemma with_tab_isDrawing body a : isDrawing (with_tab body a) = isDrawing a.
Proof. unfold with_tab. by repeat case_match. Qed.

Lemma onPointerUp_isDrawing e now a : isDrawing (onPointerUp e now a) = false.
Proof.
  unfold onPointerUp. destruct (isDrawing a) eqn:Hd; cbn [negb]; [|done].
  change (drawMode (set_isDrawing false a)) with (drawMode a).
  destruct (drawMode a); [|done..]. by rewrite with_tab_isDrawing.
Qed.

Lemma onMouseLeave_isDrawing a : isDrawing (onMouseLeave a) = false.
Proof. unfold onMouseLeave. by destruct (isDrawing a) eqn:Hd. Qed.

(** X28. A gesture ends once: after a pointer-up, or after the pointer has
    left the canvas, a pointer move, a pointer-up or another leave does
    nothing at all until the next pointer-down.  So a drag that leaves the
    canvas stores no highlight when the button is released. *)
Theorem gesture_ends_once a ev ev' :
  ev = EvMouseLeave \/ (exists e now, ev = EvPointerUp e now) ->
  ev' = EvMouseLeave \/ (exists e, ev' = EvPointerMove e) \/
    (exists e now, ev' = EvPointerUp e now) ->
  step (step a ev) ev' = step a ev.
Proof.
  intros Hev Hev'.
  assert (isDrawing (step a ev) = false) as Hd.
  { destruct Hev as [->|(e & now & ->)]; cbn [step];
      [apply onMouseLeave_isDrawing|apply onPointerUp_isDrawing]. }
  destruct Hev' as [->|[(e' & ->)|(e' & now' & ->)]]; cbn [step].
  - unfold onMouseLeave at 1. by rewrite Hd.
  - unfold onPointerMove at 1. by rewrite Hd.
  - unfold onPointerUp at 1. by rewrite Hd.
Qed.

Lemma with_tab_tabs_ext body body' a a' :
  tabs a' = tabs a -> activeTabId a' = activeTabId a ->
  (forall tab, body' tab = body tab) ->
  tabs (with_tab body' a') = tabs (with_tab body a).
Proof.
  intros Ht Ha Hb. unfold with_tab, getTabAt. rewrite Ht, Ha.
  destruct (activeTabId a) as [id|]; [|done].
  destruct (findIndex id (tabs a)) as [[i t]|]; [|done].
  cbn [tabs set_tabs]. by rewrite Hb.
Qed.

End Gesture.

Section Drag.
Local Open Scope Qc_scope.
Implicit Types (tab : TabState Qc) (a : App Qc).

Lemma nmin_comm (p q : Qc) : nmin p q = nmin q p.
Proof.
  simpl. repeat case_bool_decide; try done.
  - by apply Qcle_antisym.
  - exfalso. qc_lra.
Qed.

Lemma nabs_sub (p q : Qc) : nabs (nsub p q) = nabs (nsub q p).
Proof.
  simpl. repeat case_bool_decide.
  - assert (p = q) as -> by (apply Qcle_antisym; qc_lra). done.
  - ring.
  - ring.
  - exfalso. qc_lra.
Qed.

Lemma nmin_le (p q : Qc) : nmin p q <= p /\ nmin p q <= q.
Proof.
  simpl. case_bool_decide as Hc; [split; [apply Qcle_refl|done]|].
  apply Qcnot_le_lt in Hc. split; [by apply Qclt_le_weak|apply Qcle_refl].
Qed.

Lemma nmin_nabs (p q : Qc) :
  p <= nmin p q + nabs (nsub q p) /\ q <= nmin p q + nabs (nsub q p).
Proof.
  simpl. repeat case_bool_decide; split; qc_lra.
Qed.

(** X29. The direction of a drag does not matter: with an active tab id
    other than 0, pressing at the first pointer position and releasing at
    the second leaves every tab exactly as pressing at the second and
    releasing at the first does. *)
Theorem drag_direction_is_irrelevant a e1 e2 now :
  activeTabId a <> Some 0%Z ->
  tabs (onPointerUp e2 now (onPointerDown e1 a)) =
  tabs (onPointerUp e1 now (onPointerDown e2 a)).
Proof.
  intros Hact. unfold onPointerDown.
  destruct (activeTabId a) as [id|] eqn:Ha.
  - destruct (Z.eqb_spec id 0) as [->|_]; [done|].
    unfold onPointerUp.
    cbn [isDrawing drawMode set_isDrawing set_start negb].
    destruct (drawMode a); [|done..].
    apply with_tab_tabs_ext; [done..|]. intros tab.
    cbn [startX startY activeColor activeOpacity set_isDrawing set_start].
    unfold clientToCanvas, getCanvasScaleRatio.
    cbn [canvasWidth set_isDrawing set_start fst snd].
    f_equal; first [apply nmin_comm|apply nabs_sub].
  - unfold onPointerUp. destruct (isDrawing a); cbn [negb]; [|done].
    change (drawMode (set_isDrawing false a)) with (drawMode a).
    destruct (drawMode a); [|done..].
    unfold with_tab, getTabAt. cbn [activeTabId set_isDrawing]. by rewrite Ha.
Qed.

(** X30. What a drag stores: in highlight mode, a drag at least 5 pixels
    wide and high appends one highlight to the active tab; its id is the
    time of the pointer-up, its page the page shown, its colour and opacity
    those of the toolbar, and its box contains both the point where the
    drag began and the point where it ended. *)
Theorem stored_highlight_spans_the_drag a e now tab :
  isDrawing a = true -> drawMode a = highlight -> getTab a = Some tab ->
  Q2Qc 5 <= nabs (nsub (fst (clientToCanvas a e)) (startX a)) ->
  Q2Qc 5 <= nabs (nsub (snd (clientToCanvas a e)) (startY a)) ->
  exists t h,
    getTab (onPointerUp e now a) = Some t /\
    highlights t = highlights tab ++ [h] /\
    hl_id h = now /\ hl_page h = currentPage tab /\
    hl_color h = activeColor a /\ hl_opacity h = activeOpacity a /\
    contains (startX a) (startY a) h = true /\
    contains (fst (clientToCanvas a e)) (snd (clientToCanvas a e)) h = true.
Proof.
  intros Hd Hm Hg Hw Hh. unfold onPointerUp. rewrite Hd. cbn [negb].
  change (drawMode (set_isDrawing false a)) with (drawMode a). rewrite Hm.
  change (clientToCanvas (set_isDrawing false a) e)
    with (clientToCanvas a e).
  cbn [startX startY activeColor activeOpacity set_isDrawing].
  set (px := fst (clientToCanvas a e)) in *.
  set (py := snd (clientToCanvas a e)) in *.
  erewrite getTab_with_tab; [|exact Hg|apply onPointerUp_tab_id].
  destruct (stored_or_rejected now (nmin (startX a) px) (nmin (startY a) py)
              (nabs (nsub px (startX a))) (nabs (nsub py (startY a)))
              (activeColor a) (activeOpacity a) tab)
    as [Hrej|(_ & _ & Hst)].
  - exfalso. unfold onPointerUp_tab in Hrej.
    assert (nltb (nabs (nsub px (startX a))) MIN_HIGHLIGHT_PX = false) as Ew.
    { simpl. apply bool_decide_eq_false, Qcle_not_lt. exact Hw. }
    assert (nltb (nabs (nsub py (startY a))) MIN_HIGHLIGHT_PX = false) as Eh.
    { simpl. apply bool_decide_eq_false, Qcle_not_lt. exact Hh. }
    rewrite Ew, Eh in Hrej. cbn [orb] in Hrej.
    apply (f_equal (fun t => length (highlights t))) in Hrej.
    cbn [highlights set_highlights] in Hrej.
    rewrite pushHistory_highlights, length_app in Hrej. simpl in Hrej. lia.
  - rewrite Hst. eexists _, _. split; [reflexivity|].
    split; [reflexivity|]. split_and!; try reflexivity.
    + apply contains_spec. cbn [hl_x hl_y hl_w hl_h].
      pose proof (nmin_le (startX a) px). pose proof (nmin_le (startY a) py).
      pose proof (nmin_nabs (startX a) px).
      pose proof (nmin_nabs (startY a) py). tauto.
    + apply contains_spec. cbn [hl_x hl_y hl_w hl_h].
      pose proof (nmin_le (startX a) px). pose proof (nmin_le (startY a) py).
      pose proof (nmin_nabs (startX a) px).
      pose proof (nmin_nabs (startY a) py). tauto.
Qed.

End Drag.

(** ** The further properties on sample sessions *)

Section FurtherWitnesses.
Local Open Scope Z_scope.

(** X1 on a session with one highlight stored. *)
Lemma quarter_turns_cancel_witness :
  let a : App Qc := run (opened ++ drag 10 10 30 30 1000) init_app in
  quarterTurn ccw (quarterTurn cw a) = a.
Proof.
  cbv zeta.
  assert (exists tab,
            getTab (run (opened ++ drag 10 10 30 30 1000)
                        (init_app (N:=Qc))) = Some tab /\
            rotation tab = 0)
    as (tab & Hg & Hr) by (eexists; split; vm_compute; reflexivity).
  refine (quarter_turns_cancel _ tab cw Hg _). rewrite Hr. lia.
Defined.

(** X2 on the same session. *)
Lemma four_quarter_turns_witness :
  let a : App Qc := run (opened ++ drag 10 10 30 30 1000) init_app in
  quarterTurn cw (quarterTurn cw (quarterTurn cw (quarterTurn cw a))) = a.
Proof.
  cbv zeta.
  assert (exists tab,
            getTab (run (opened ++ drag 10 10 30 30 1000)
                        (init_app (N:=Qc))) = Some tab /\
            rotation tab = 0)
    as (tab & Hg & Hr) by (eexists; split; vm_compute; reflexivity).
  refine (four_quarter_turns _ tab Hg _). rewrite Hr. lia.
Defined.

(** X3 for a rectangle of 30 by 40 at (10, 20) on a canvas of 100 by 200. *)
Lemma rotate90_stays_on_canvas_witness :
  let r : Highlight Qc :=
    mkHighlight 1 1 (Q2Qc 10) (Q2Qc 20) (Q2Qc 30) (Q2Qc 40) "yellow" 100 in
  on_canvas (Q2Qc 200) (Q2Qc 100) (rotate90 cw (Q2Qc 100) (Q2Qc 200) r).
Proof.
  cbv zeta. apply rotate90_stays_on_canvas.
  split_and!; by vm_compute.
Defined.

(** X5 after a rotation. *)
Lemma rotation_is_a_quarter_turn_witness :
  let a : App float := run (opened ++ [EvRotate cw]) init_app in
  exists tab, tab ∈ tabs a /\ quarter_turn tab.
Proof.
  cbv zeta.
  assert (exists tab,
            tabs (run (opened ++ [EvRotate cw]) (init_app (N:=float)))
              !! 0%nat = Some tab)
    as [tab Htab] by (eexists; vm_compute; reflexivity).
  apply list_elem_of_lookup_2 in Htab. exists tab. split; [done|].
  exact (rotation_is_a_quarter_turn _ tab Htab).
Defined.

(** X6 for an image of 101 by 201 pixels shown at scale 1.5, on a canvas
    of 151 by 301 pixels. *)
Lemma image_render_exchanges_extents_witness :
  let a : App float :=
    run [EvOpen "a.png" image 1; EvRendered 151%float 301%float] init_app in
  canvasWidth (renderPage_image 101%float 201%float (rotate cw a))
    = 301%float /\
  renderPage_image 101%float 201%float (rotate cw a) = quarterTurn cw a.
Proof.
  cbv zeta.
  assert (exists tab : TabState float,
            getTab (run [EvOpen "a.png" image 1;
                         EvRendered 151%float 301%float]
                        (init_app (N:=float))) = Some tab /\
            rotation tab = 0 /\ scale tab = 1.5%float)
    as (tab & Hg & Hr & Hs)
    by (eexists; repeat apply conj; vm_compute; reflexivity).
  split; [vm_compute; reflexivity|].
  refine (image_render_exchanges_extents _ _ cw _ tab Hg _ _ _ _).
  - by left.
  - rewrite Hs. by vm_compute.
  - rewrite Hs. by vm_compute.
  - vm_compute. reflexivity.
Defined.

(** X7 through scale 2 to scale 3. *)
Lemma setScale_path_independent_witness :
  let a : App Qc := run (opened ++ drag 10 10 30 30 1000) init_app in
  setScale (Q2Qc 3) (setScale (Q2Qc 2) a) = setScale (Q2Qc 3) a.
Proof.
  cbv zeta.
  assert (exists tab,
            getTab (run (opened ++ drag 10 10 30 30 1000)
                        (init_app (N:=Qc))) = Some tab /\
            (0 < scale tab)%Qc)
    as (tab & Hg & Hs) by (eexists; split; vm_compute; reflexivity).
  refine (setScale_path_independent _ tab _ _ Hg Hs _). reflexivity.
Defined.

(** X8 at the initial scale 1.5. *)
Lemma zoom_buttons_clamp_witness :
  let a : App Qc := run opened init_app in
  (exists t, getTab (zoomIn a) = Some t /\ (scale t <= Q2Qc 5)%Qc) /\
  (exists t, getTab (zoomOut a) = Some t /\ (Q2Qc (1 # 4) <= scale t)%Qc).
Proof.
  cbv zeta.
  assert (exists tab, getTab (run opened (init_app (N:=Qc))) = Some tab)
    as (tab & Hg) by (eexists; vm_compute; reflexivity).
  destruct (zoom_buttons_clamp _ tab Hg)
    as [(t1 & Hg1 & Hle1 & _) (t2 & Hg2 & Hle2 & _)].
  split; [by exists t1|by exists t2].
Defined.

(** X9 at the initial scale 1.5. *)
Lemma zoomIn_zoomOut_witness :
  let a : App Qc := run (opened ++ drag 10 10 30 30 1000) init_app in
  zoomOut (zoomIn a) = a.
Proof.
  cbv zeta.
  assert (exists tab,
            getTab (run (opened ++ drag 10 10 30 30 1000)
                        (init_app (N:=Qc))) = Some tab /\
            (Q2Qc (1 # 4) <= scale tab)%Qc /\
            (scale tab <= Q2Qc (19 # 4))%Qc)
    as (tab & Hg & Hlo & Hhi) by (eexists; split_and!; by vm_compute).
  exact (zoomIn_zoomOut _ tab Hg Hlo Hhi).
Defined.

(** X10: the eraser at (20, 20), before or after the zoom to scale 3. *)
Lemma eraseAt_commutes_with_setScale_witness :
  let a : App Qc := run (opened ++ drag 10 10 30 30 1000) init_app in
  exists tab,
    getTab a = Some tab /\
    setScale (Q2Qc 3) (eraseAt (Q2Qc 20) (Q2Qc 20) a) =
    eraseAt (Q2Qc 20 * (Q2Qc 3 / scale tab))%Qc
            (Q2Qc 20 * (Q2Qc 3 / scale tab))%Qc (setScale (Q2Qc 3) a).
Proof.
  cbv zeta.
  assert (exists tab,
            getTab (run (opened ++ drag 10 10 30 30 1000)
                        (init_app (N:=Qc))) = Some tab /\
            (0 < scale tab)%Qc)
    as (tab & Hg & Hs) by (eexists; split; vm_compute; reflexivity).
  exists tab. split; [done|].
  refine (eraseAt_commutes_with_setScale _ tab _ _ _ Hg Hs _). reflexivity.
Defined.

(** X11 for a page 400 pixels wide in an area 848 pixels wide. *)
Lemma zoomFit_shows_100_witness :
  let a : App Qc := run opened init_app in
  exists t, getTab (zoomFit (Q2Qc 848) (Q2Qc 400) a) = Some t /\
            scale t = Q2Qc 2 /\ zoomPercent t = 100.
Proof.
  cbv zeta.
  assert (exists tab, getTab (run opened (init_app (N:=Qc))) = Some tab)
    as (tab & Hg) by (eexists; vm_compute; reflexivity).
  assert ((Q2Qc 848 - Q2Qc 48) / Q2Qc 400 <> 0)%Qc as Hfit
    by (apply not_eq_sym, Qclt_not_eq; reflexivity).
  destruct (zoomFit_shows_100 _ tab (Q2Qc 848) (Q2Qc 400) Hg Hfit)
    as [(t & Hg' & Hs & _ & Hp) _].
  exists t. split_and!; [done| |done].
  rewrite Hs. apply Qc_is_canon. reflexivity.
Defined.

(** X13 after a highlight has been stored and undone. *)
Lemma undo_after_redo_witness :
  let a : App float :=
    run (opened ++ drag 10 10 30 30 1000 ++ [EvUndo]) init_app in
  undo (redo a) = a.
Proof.
  cbv zeta.
  assert (exists tab,
            getTab (run (opened ++ drag 10 10 30 30 1000 ++ [EvUndo])
                        (init_app (N:=float))) = Some tab /\
            length (future tab) = 1%nat)
    as (tab & Hg & Hf) by (eexists; split; vm_compute; reflexivity).
  refine (undo_after_redo _ tab Hg _).
  intros Hnil. by rewrite Hnil in Hf.
Defined.

(** X14 for the clear-page handler on a page with one highlight. *)
Lemma recorded_edits_are_undone_witness :
  let a : App float := run (opened ++ drag 10 10 30 30 1000) init_app in
  highlights <$> getTab (undo (clearPage a)) = highlights <$> getTab a.
Proof.
  cbv zeta.
  assert (exists tab,
            getTab (run (opened ++ drag 10 10 30 30 1000)
                        (init_app (N:=float))) = Some tab)
    as (tab & Hg) by (eexists; vm_compute; reflexivity).
  rewrite Hg. exact (proj1 (proj2 (recorded_edits_are_undone _ tab Hg))).
Defined.

(** X15: of the highlights 1000 and 2000, the first is deleted. *)
Lemma deleteHighlight_removes_the_id_witness :
  let a : App float :=
    run (opened ++ drag 10 10 30 30 1000 ++ drag 50 50 70 70 2000)
        init_app in
  exists t, getTab (deleteHighlight 1000 a) = Some t /\
            length (highlights t) = 1%nat.
Proof.
  cbv zeta.
  assert (exists tab,
            getTab (run (opened ++ drag 10 10 30 30 1000 ++
                         drag 50 50 70 70 2000) (init_app (N:=float)))
            = Some tab /\
            hl_id <$> highlights tab = [1000; 2000])
    as (tab & Hg & Hids) by (eexists; split; vm_compute; reflexivity).
  destruct (deleteHighlight_removes_the_id _ tab 1000 Hg)
    as (t & Hg' & _ & _ & Hone).
  exists t. split; [done|].
  assert (length (highlights tab) = 2%nat) as Hlen
    by by rewrite <- (length_fmap hl_id), Hids.
  rewrite Hids in Hone.
  assert (S (length (highlights t)) = length (highlights tab)) as Hs.
  { apply Hone; [|by left].
    repeat constructor; rewrite ?elem_of_cons, ?elem_of_nil;
      intros Hin; repeat destruct Hin as [Hin|Hin]; done. }
  lia.
Defined.

(** X16 on a page with one highlight. *)
Lemma clearPage_clears_only_this_page_witness :
  let a : App float := run (opened ++ drag 10 10 30 30 1000) init_app in
  exists t, getTab (clearPage a) = Some t /\ redrawHighlights t = [].
Proof.
  cbv zeta.
  assert (exists tab,
            getTab (run (opened ++ drag 10 10 30 30 1000)
                        (init_app (N:=float))) = Some tab)
    as (tab & Hg) by (eexists; vm_compute; reflexivity).
  destruct (clearPage_clears_only_this_page _ tab Hg)
    as (t & Hg' & _ & Hnone & _).
  by exists t.
Defined.

(** X17 on a session that tries to leave the document at both ends. *)
Lemma pages_stay_in_range_witness :
  let evs : list (@Event float) :=
    opened ++ drag 10 10 30 30 1000 ++
    [EvPrev; EvNext; EvNext; EvNext; EvGoto 7; EvUndo] in
  Forall pages_in_range (tabs (run evs init_app)).
Proof.
  cbv zeta. apply pages_stay_in_range.
  - repeat (apply Forall_cons; split; [by vm_compute|]). constructor.
  - constructor.
Defined.

(** X18 for a document of three pages with a highlight on the first and one
    on the last. *)
Lemma savePdfFile_bakes_each_highlight_once_witness :
  let tab : TabState float :=
    mkTab 1 "a.pdf" pdf 2 3 1.5%float 1.5%float 0
          [mkHighlight 1000 1 10%float 10%float 20%float 20%float
                       "yellow" 100;
           mkHighlight 2000 3 50%float 50%float 20%float 20%float
                       "green" 100] [] [] in
  (savePdfFile tab).*1 = [1; 2; 3] /\
  length (concat (savePdfFile tab).*2) = 2%nat.
Proof.
  cbv zeta.
  match goal with |- (savePdfFile ?t).*1 = _ /\ _ =>
    assert (pages_in_range t) as Hp
      by (refine (conj _ (conj _ (conj _ _)));
          [cbn; lia|repeat constructor; cbn; lia|constructor..]);
    destruct (savePdfFile_bakes_each_highlight_once t Hp) as [Hpages Hall]
  end.
  split; [exact Hpages|]. by rewrite Hall.
Defined.

(** X19 for the zoom from 1.5 to 2. *)
Lemma savePdfFile_ignores_zoom_witness :
  let tab : TabState Qc :=
    mkTab 1 "a.pdf" pdf 1 3 (Q2Qc (3 # 2)) (Q2Qc (3 # 2)) 0
          [mkHighlight 1000 1 (Q2Qc 10) (Q2Qc 10) (Q2Qc 20) (Q2Qc 20)
                       "yellow" 100] [] [] in
  savePdfFile (setScale_tab (Q2Qc 2) tab) = savePdfFile tab.
Proof.
  cbv zeta. apply savePdfFile_ignores_zoom;
    apply not_eq_sym, Qclt_not_eq; reflexivity.
Defined.

(** X20 for [next-page]. *)
Lemma navigation_keeps_annotations_witness :
  let a : App float := run (opened ++ drag 10 10 30 30 1000) init_app in
  (fun t => (highlights t, history t, future t, scale t, rotation t))
    <$> tabs (step a EvNext) =
  (fun t => (highlights t, history t, future t, scale t, rotation t))
    <$> tabs a.
Proof.
  cbv zeta. apply navigation_keeps_annotations. right. by right.
Defined.

(** X21 on the first of three pages. *)
Lemma next_prev_roundtrip_witness :
  let a : App float := run opened init_app in
  prevPage (nextPage a) = a.
Proof.
  cbv zeta.
  assert (exists tab,
            getTab (run opened (init_app (N:=float))) = Some tab /\
            currentPage tab = 1 /\ totalPages tab = 3)
    as (tab & Hg & Hc & Ht) by (eexists; split_and!; vm_compute; reflexivity).
  apply (proj1 (next_prev_roundtrip _ tab Hg)). rewrite Hc, Ht. lia.
Defined.

(** X22 on the first of three pages: [prev-page] is disabled and does
    nothing, [next-page] is enabled and does something. *)
Lemma disabled_buttons_do_nothing_witness :
  let a : App float := run opened init_app in
  prevPage a = a /\ nextPage a <> a.
Proof.
  cbv zeta.
  assert (updatePageLabel (run opened (init_app (N:=float)))
          = Some (1, 3, true, false)) as Hl by (vm_compute; reflexivity).
  destruct (disabled_buttons_do_nothing _ _ _ _ _ Hl) as [Hprev Hnext].
  split; [by apply Hprev|]. intros Hsame. by apply Hnext in Hsame.
Defined.

(** X23 for the clear-page handler with two tabs open. *)
Lemma other_tabs_untouched_witness :
  let a : App float :=
    run [EvOpen "a.pdf" pdf 3; EvOpen "b.pdf" pdf 2] init_app in
  tabs (clearPage a) !! 0%nat = tabs a !! 0%nat.
Proof.
  cbv zeta.
  set (a := run [EvOpen "a.pdf" pdf 3; EvOpen "b.pdf" pdf 2]
                (init_app (N:=float))).
  destruct (other_tabs_untouched a EvClearPage eq_refl) as (_ & _ & _ & Ho).
  assert (exists t, tabs a !! 0%nat = Some t /\ tab_id t = 1)
    as (t & Ht & Hid) by (eexists; split; vm_compute; reflexivity).
  rewrite Ht. apply (Ho _ _ Ht). rewrite Hid. vm_compute. discriminate.
Defined.

(** X25: of three tabs the first is shown and the second is closed; the
    third becomes the tab shown. *)
Lemma closeTab_moves_the_view_witness :
  let a : App float :=
    run [EvOpen "a.pdf" pdf 1; EvOpen "b.pdf" pdf 1; EvOpen "c.pdf" pdf 1;
         EvActivate 1] init_app in
  activeTabId a = Some 1 /\
  1 ∈ tab_id <$> tabs (closeTab 2 a) /\
  activeTabId (closeTab 2 a) = Some 3.
Proof.
  cbv zeta.
  set (a := run [EvOpen "a.pdf" pdf 1; EvOpen "b.pdf" pdf 1;
                 EvOpen "c.pdf" pdf 1; EvActivate 1] (init_app (N:=float))).
  assert (exists closed, findIndex 2 (tabs a) = Some (1%nat, closed))
    as [closed Hf] by (eexists; vm_compute; reflexivity).
  assert (exists tab, getTab a = Some tab /\ tab_id tab = 1)
    as (tab & Hg & Hid) by (eexists; split; vm_compute; reflexivity).
  assert (exists next, tabs a !! 2%nat = Some next /\ tab_id next = 3)
    as (next & Hnext & Hid') by (eexists; split; vm_compute; reflexivity).
  assert (tab_id tab <> 2) as Hne by (rewrite Hid; lia).
  destruct (closeTab_moves_the_view a 2 1%nat closed tab Hf Hg Hne)
    as (Hin & Hact & _).
  split_and!.
  - vm_compute. reflexivity.
  - by rewrite <- Hid.
  - rewrite <- Hid'. by apply Hact.
Defined.

(** X26: an image is opened beside a PDF. *)
Lemma openFile_appends_a_fresh_tab_witness :
  let a : App float := run opened init_app in
  exists tab,
    tabs (openFile "b.png" image 7 a) = tabs a ++ [tab] /\
    getTab (openFile "b.png" image 7 a) = Some tab /\
    tab_id tab = 2 /\ totalPages tab = 1.
Proof.
  cbv zeta.
  set (a := run opened (init_app (N:=float))).
  assert (registry_ok a) as Hok.
  { split_and!.
    - by vm_compute.
    - vm_compute. repeat constructor.
    - vm_compute. repeat constructor; by vm_compute. }
  destruct (openFile_appends_a_fresh_tab a "b.png" image 7 Hok)
    as (tab & Htab & Htabs & _ & Hg).
  exists tab. split_and!; [done|done| |]; rewrite Htab; vm_compute;
    reflexivity.
Defined.

(** X27 with two tabs open, the first being activated. *)
Lemma activateTab_only_switches_witness :
  let a : App Qc :=
    run [EvOpen "a.pdf" pdf 3; EvOpen "b.pdf" pdf 2] init_app in
  activateTab 1 a = set_activeTabId (Some 1) a.
Proof.
  cbv zeta.
  assert (exists tab,
            findIndex 1 (tabs (run [EvOpen "a.pdf" pdf 3;
                                    EvOpen "b.pdf" pdf 2]
                                   (init_app (N:=Qc))))
            = Some (0%nat, tab) /\ (0 < scale tab)%Qc)
    as (tab & Hf & Hs) by (eexists; split; vm_compute; reflexivity).
  refine (activateTab_only_switches _ 1 _ tab Hf _).
  by apply not_eq_sym, Qclt_not_eq.
Defined.

(** X28: the pointer is pressed, leaves the canvas and is released. *)
Lemma gesture_ends_once_witness :
  let a : App float :=
    run (opened ++ [EvPointerDown (pointer_at 10 10)]) init_app in
  step (step a EvMouseLeave) (EvPointerUp (pointer_at 30 30) 1000) =
  step a EvMouseLeave.
Proof.
  cbv zeta. apply gesture_ends_once.
  - by left.
  - right. right. by eexists _, _.
Defined.

(** X29 for the drag between (10, 10) and (30, 30). *)
Lemma drag_direction_is_irrelevant_witness :
  let a : App Qc := run opened init_app in
  tabs (onPointerUp (pointer_at 30 30) 1000
                    (onPointerDown (pointer_at 10 10) a)) =
  tabs (onPointerUp (pointer_at 10 10) 1000
                    (onPointerDown (pointer_at 30 30) a)).
Proof.
  cbv zeta. apply drag_direction_is_irrelevant.
  vm_compute. discriminate.
Defined.

(** X30 for the drag from (10, 10) to (30, 30). *)
Lemma stored_highlight_spans_the_drag_witness :
  let a : App Qc :=
    run (opened ++ [EvPointerDown (pointer_at 10 10)]) init_app in
  exists t h,
    getTab (onPointerUp (pointer_at 30 30) 1000 a) = Some t /\
    h ∈ highlights t /\ hl_id h = 1000 /\
    contains (startX a) (startY a) h = true.
Proof.
  cbv zeta.
  set (a := run (opened ++ [EvPointerDown (pointer_at 10 10)])
                (init_app (N:=Qc))).
  assert (exists tab, getTab a = Some tab)
    as (tab & Hg) by (eexists; vm_compute; reflexivity).
  assert (isDrawing a = true) as Hd by (vm_compute; reflexivity).
  assert (drawMode a = highlight) as Hm by (vm_compute; reflexivity).
  destruct (stored_highlight_spans_the_drag a (pointer_at 30 30) 1000 tab
              Hd Hm Hg)
    as (t & h & Hg' & Hh & Hid & _ & _ & _ & Hc & _);
    [by vm_compute..|].
  exists t, h. split_and!; [done| |done|done].
  rewrite Hh. apply elem_of_app. right. by left.
Defined.

End FurtherWitnesses.
